(** * glpilib2: request marshalling and session lifecycle of [RequestHandler]

    A shallow embedding of [glpilib2/basic_wrapper.py].  Python values are
    an inductive type, dictionaries are insertion-ordered association
    lists, the handler object is a record threaded through a small
    state-and-exception monad, and the HTTP transport is an oracle that
    maps a request to the response the remote service gives. *)

From Stdlib Require Import ZArith Ascii String List Lia Bool.
From Stdlib Require Import DecimalString.
From stdpp Require Import base option list strings gmap.

#[local] Set Warnings "-register-all".
Local Open Scope string_scope.
Local Open Scope Z_scope.
Local Open Scope list_scope.
Local Open Scope stdpp_scope.

(** ** The state-and-exception monad *)

Inductive result (E A : Type) : Type :=
| Ok (a : A)
| Raise (e : E).
Arguments Ok {E A} a.
Arguments Raise {E A} e.

Module PyM.
(** A computation over a mutable object of type [St] that either returns
    or raises; the object keeps the mutations made before a raise. *)
Definition M (St E A : Type) : Type := St -> St * result E A.

Definition ret {St E A} (a : A) : M St E A := fun s => (s, Ok a).
Definition raise {St E A} (e : E) : M St E A := fun s => (s, Raise e).
Definition bind {St E A B} (c : M St E A) (k : A -> M St E B) : M St E B :=
  fun s => match c s with
           | (s', Ok a) => k a s'
           | (s', Raise e) => (s', Raise e)
           end.
Definition get {St E} : M St E St := fun s => (s, Ok s).
Definition put {St E} (s : St) : M St E unit := fun _ => (s, Ok tt).
Definition modify {St E} (f : St -> St) : M St E unit := fun s => (f s, Ok tt).

(** [try: c except handler]: [handler e] returns [None] when no
    [except] clause matches [e]. *)
Definition try_except {St E A} (c : M St E A)
    (handler : E -> option (M St E A)) : M St E A :=
  fun s => match c s with
           | (s', Ok a) => (s', Ok a)
           | (s', Raise e) =>
               match handler e with
               | Some h => h s'
               | None => (s', Raise e)
               end
           end.

(** [for x in xs: body x] *)
Definition for_each {St E A} (body : A -> M St E unit) : list A -> M St E unit :=
  fix loop (xs : list A) : M St E unit :=
    match xs with
    | [] => ret tt
    | x :: rest => bind (body x) (fun _ => loop rest)
    end.

(** [for i in range(len(xs)): body i xs[i]], counting from [i]. *)
Definition for_range {St E A} (body : nat -> A -> M St E unit)
    : nat -> list A -> M St E unit :=
  fix loop (i : nat) (xs : list A) : M St E unit :=
    match xs with
    | [] => ret tt
    | x :: rest => bind (body i x) (fun _ => loop (S i) rest)
    end.
End PyM.

Notation "x <- c ;; k" := (PyM.bind c (fun x => k))
  (at level 100, c at next level, right associativity, only parsing).
Notation "c ;;; k" := (PyM.bind c (fun _ => k))
  (at level 100, right associativity, only parsing).

(** ** Python values *)

(** Dictionary keys as JSON and the library produce them: strings, and
    the integers [__keys_to_int] turns them into. *)
Inductive pykey : Type :=
| KStr (s : string)
| KInt (z : Z).

(** The values that reach the modelled code.  [VEnum] stands for a member
    of [SortOrder], compared by identity.  Floating-point numbers are left
    out. *)
Inductive pyval : Type :=
| VNone
| VBool (b : bool)
| VInt (z : Z)
| VStr (s : string)
| VEnum (name : string)
| VList (items : list pyval)
| VTuple (items : list pyval)
| VDict (items : list (pykey * pyval)).

(** Key equality as the dictionary sees it: a string never equals an
    integer. *)
Definition pykey_eqb (a b : pykey) : bool :=
  match a, b with
  | KStr s, KStr t => String.eqb s t
  | KInt x, KInt y => Z.eqb x y
  | _, _ => false
  end.

(** ** Responses and exceptions *)

(** What the code reads of a [requests.Response]: the status code, the
    headers, the outcome of [response.json()] ([None] when it raises
    [JSONDecodeError]) and the raw [content]. *)
Record response : Type := mkResponse {
  status_code : Z;
  headers : gmap string string;
  json : option pyval;
  content : string
}.

(** The exception classes the modelled code raises.  [GLPIRequestError]
    wraps the response it was built from. *)
Inductive pyexn : Type :=
| NotImplementedError
| ValueError
| JSONDecodeError
| TypeError
| KeyError
| IndexError
| AttributeError
| GLPIError (msg : string)
| GLPIRequestError (r : response).

(** [str(n)] for an integer. *)
Definition str_of_nat (n : nat) : string :=
  NilEmpty.string_of_uint (Nat.to_uint n).
Definition str_of_Z (z : Z) : string :=
  NilEmpty.string_of_int (Z.to_int z).

(** [f"{key}"] *)
Definition format_key (k : pykey) : string :=
  match k with
  | KStr s => s
  | KInt z => str_of_Z z
  end.

(** A request parameter: a [(name, value)] tuple. *)
Definition param : Type := string * pyval.

(** ** The criteria flattener *)

Definition append_param {E} (p : param) : PyM.M (list param) E unit :=
  PyM.modify (fun parameters => parameters ++ [p]).

Fixpoint add_criteria_to_parameters (criteria : pyval) (father : string)
    {struct criteria} : PyM.M (list param) pyexn unit :=
  match criteria with
  | VDict items =>
      PyM.for_each (fun '(key, value) =>
        let path := father +:+ "[" +:+ format_key key +:+ "]" in
        match value with
        | VList _ => add_criteria_to_parameters value path
        | _ => append_param (path, value)
        end) items
  | VList items =>
      PyM.for_range (fun i item =>
        add_criteria_to_parameters item
          (father +:+ "[" +:+ str_of_nat i +:+ "]")) 0%nat items
  | _ => PyM.raise NotImplementedError
  end.

(** The algorithm in the words of the specification: a mapping recurses
    into each key, a sequence into each index, a leaf scalar yields one
    [(path, value)] pair, any other node is unsupported ([None]). *)
Module FlattenSpec.
Definition flat_each {A} (f : A -> option (list param))
    : list A -> option (list param) :=
  fix go (xs : list A) : option (list param) :=
    match xs with
    | [] => Some []
    | x :: rest =>
        match f x, go rest with
        | Some a, Some b => Some (a ++ b)
        | _, _ => None
        end
    end.

Definition flat_range {A} (f : nat -> A -> option (list param))
    : nat -> list A -> option (list param) :=
  fix go (i : nat) (xs : list A) : option (list param) :=
    match xs with
    | [] => Some []
    | x :: rest =>
        match f i x, go (S i) rest with
        | Some a, Some b => Some (a ++ b)
        | _, _ => None
        end
    end.

Fixpoint spec_flatten (node : pyval) (path : string)
    {struct node} : option (list param) :=
  match node with
  | VDict items =>
      flat_each (fun '(key, value) =>
        spec_flatten value (path +:+ "[" +:+ format_key key +:+ "]")) items
  | VList items =>
      flat_range (fun i item =>
        spec_flatten item (path +:+ "[" +:+ str_of_nat i +:+ "]")) 0%nat items
  | VNone | VBool _ | VInt _ | VStr _ => Some [(path, node)]
  | VEnum _ | VTuple _ => None
  end.
End FlattenSpec.

Definition is_mapping (v : pyval) : bool :=
  match v with VDict _ => true | _ => false end.
Definition is_sequence (v : pyval) : bool :=
  match v with VList _ => true | _ => false end.
Definition is_scalar (v : pyval) : bool :=
  match v with VNone | VBool _ | VInt _ | VStr _ => true | _ => false end.

(** The shape of a GLPI criteria tree: scalars occur only as the values of
    a mapping, mappings only at the root or as the elements of a
    sequence. *)
Fixpoint criteria_tree (c : pyval) : bool :=
  match c with
  | VDict items =>
      forallb (fun '(_, value) =>
        match value with
        | VList _ => criteria_tree value
        | _ => is_scalar value
        end) items
  | VList items =>
      forallb (fun item => (is_mapping item || is_sequence item) && criteria_tree item) items
  | _ => false
  end.

(** The flattener comes to a node it does not support: a node that is
    neither a mapping nor a sequence, at the root or as an element of a
    sequence, at any depth the traversal reaches (the elements of a
    sequence, and the values of a mapping that are sequences; any other
    value of a mapping key is a leaf and is not visited). *)
Fixpoint unsupported_node (c : pyval) : bool :=
  match c with
  | VDict items =>
      existsb (fun '(_, value) =>
        match value with
        | VList _ => unsupported_node value
        | _ => false
        end) items
  | VList items => existsb unsupported_node items
  | _ => true
  end.

(** The elements of a list before the first one [stop] holds of,
    followed by what [last] keeps of that one. *)
Definition cut_at {A} (stop : A -> bool) (last : A -> list A) : list A -> list A :=
  fix go (xs : list A) : list A :=
    match xs with
    | [] => []
    | x :: rest => if stop x then last x else x :: go rest
    end.

(** The part of a tree that comes, in iteration order, before the first
    unsupported node the flattener comes to: the node and all that
    follows it are left out. *)
Fixpoint before_unsupported (c : pyval) : pyval :=
  match c with
  | VDict items =>
      VDict (cut_at
               (fun '(_, value) =>
                  match value with
                  | VList _ => unsupported_node value
                  | _ => false
                  end)
               (fun '(key, value) => [(key, before_unsupported value)]) items)
  | VList items =>
      VList (cut_at unsupported_node
               (fun item =>
                  if is_mapping item || is_sequence item
                  then [before_unsupported item] else []) items)
  | _ => VList []
  end.

(** ** Dictionaries: insertion-ordered association lists *)

Module PyDict.
Abbreviation t := (list (pykey * pyval)).

(** [d.get(k)] *)
Fixpoint get (d : t) (k : pykey) : option pyval :=
  match d with
  | [] => None
  | (k', v) :: rest => if pykey_eqb k' k then Some v else get rest k
  end.

Definition mem (d : t) (k : pykey) : bool :=
  match get d k with Some _ => true | None => false end.

(** [d[k] = v]: an existing key keeps its position, a new key goes to
    the end. *)
Fixpoint set (d : t) (k : pykey) (v : pyval) : t :=
  match d with
  | [] => [(k, v)]
  | (k', v') :: rest =>
      if pykey_eqb k' k then (k', v) :: rest else (k', v') :: set rest k v
  end.

(** [del d[k]] on a dictionary that holds [k]. *)
Fixpoint remove (d : t) (k : pykey) : t :=
  match d with
  | [] => []
  | (k', v') :: rest =>
      if pykey_eqb k' k then rest else (k', v') :: remove rest k
  end.

(** [del d[k]]; [None] stands for [KeyError]. *)
Definition del (d : t) (k : pykey) : option t :=
  if mem d k then Some (remove d k) else None.

(** The keys, in insertion order; a dictionary holds each of them once. *)
Definition keys (d : t) : list pykey := fst <$> d.
End PyDict.

(** ** Comparison, length and indexing of Python values *)

Definition list_eqb_with {A B} (eqb : A -> B -> bool) : list A -> list B -> bool :=
  fix go (xs : list A) (ys : list B) : bool :=
    match xs, ys with
    | [], [] => true
    | x :: xs', y :: ys' => eqb x y && go xs' ys'
    | _, _ => false
    end.

(** [a == b].  A bool compares as the integer 0 or 1; sequences compare
    element by element and a list never equals a tuple; dictionaries
    compare as mappings, whatever their order. *)
Fixpoint py_eqb (a b : pyval) {struct a} : bool :=
  match a, b with
  | VNone, VNone => true
  | VBool x, VBool y => Bool.eqb x y
  | VBool x, VInt y => Z.eqb (Z.b2z x) y
  | VInt x, VBool y => Z.eqb x (Z.b2z y)
  | VInt x, VInt y => Z.eqb x y
  | VStr s, VStr t => String.eqb s t
  | VEnum s, VEnum t => String.eqb s t
  | VList xs, VList ys => list_eqb_with py_eqb xs ys
  | VTuple xs, VTuple ys => list_eqb_with py_eqb xs ys
  | VDict d1, VDict d2 =>
      Nat.eqb (length d1) (length d2) &&
      forallb (fun '(k, v) =>
        match PyDict.get d2 k with
        | Some v' => py_eqb v v'
        | None => false
        end) d1
  | _, _ => false
  end.

(** [a != b] *)
Definition py_ne (a b : pyval) : bool := negb (py_eqb a b).

(** [len(v)] *)
Definition py_len (v : pyval) : result pyexn Z :=
  match v with
  | VStr s => Ok (Z.of_nat (String.length s))
  | VList xs | VTuple xs => Ok (Z.of_nat (length xs))
  | VDict d => Ok (Z.of_nat (length d))
  | _ => Raise TypeError
  end.

(** [xs[i]] on a sequence, with Python's negative indices. *)
Definition seq_index {A} (xs : list A) (i : Z) : option A :=
  let n := Z.of_nat (length xs) in
  let j := if i <? 0 then i + n else i in
  if (0 <=? j) && (j <? n) then xs !! Z.to_nat j else None.

(** [v[k]] *)
Definition py_getitem (v : pyval) (k : pykey) : result pyexn pyval :=
  match v, k with
  | VDict d, _ =>
      match PyDict.get d k with
      | Some x => Ok x
      | None => Raise KeyError
      end
  | VList xs, KInt i | VTuple xs, KInt i =>
      match seq_index xs i with
      | Some x => Ok x
      | None => Raise IndexError
      end
  | VStr s, KInt i =>
      match seq_index (list_ascii_of_string s) i with
      | Some c => Ok (VStr (String c EmptyString))
      | None => Raise IndexError
      end
  | _, _ => Raise TypeError
  end.

(** ** Strings

    A character is a code point below 256: header values reach the code
    decoded as Latin-1, where the decimal digits of [\d] and of [int()]
    are exactly [0]..[9]. *)

Module PyStr.
Definition is_digit (c : ascii) : bool :=
  let n := N_of_ascii c in ((48 <=? n) && (n <=? 57))%N.

Definition digit_value (c : ascii) : Z := Z.of_N (N_of_ascii c) - 48.

(** [c.isspace()] *)
Definition is_space (c : ascii) : bool :=
  let n := N_of_ascii c in
  (((9 <=? n) && (n <=? 13)) || ((28 <=? n) && (n <=? 32))
   || (n =? 133) || (n =? 160))%N.

(** The whitespace [int()] skips around a number: the ASCII whitespace
    9-13 and 32, and the Latin-1 spaces 0x85 and 0xa0, which it first
    turns into an ASCII space.  The separators 0x1c-0x1f, for which
    [str.isspace] holds, are not skipped: [int("\x1c1")] raises
    ValueError. *)
Definition is_int_space (c : ascii) : bool :=
  let n := N_of_ascii c in
  (((9 <=? n) && (n <=? 13)) || (n =? 32) || (n =? 133) || (n =? 160))%N.

Definition is_empty (s : string) : bool :=
  match s with EmptyString => true | _ => false end.

(** Drop the leading, the trailing characters of the class [sp]. *)
Fixpoint lstrip_of (sp : ascii -> bool) (s : string) : string :=
  match s with
  | String c rest => if sp c then lstrip_of sp rest else s
  | EmptyString => EmptyString
  end.

Fixpoint rstrip_of (sp : ascii -> bool) (s : string) : string :=
  match s with
  | String c rest =>
      let rest' := rstrip_of sp rest in
      if sp c && is_empty rest' then EmptyString else String c rest'
  | EmptyString => EmptyString
  end.

(** [s.strip()] *)
Definition strip (s : string) : string := rstrip_of is_space (lstrip_of is_space s).

Definition flush (tok : string) : list string :=
  if is_empty tok then [] else [tok].

Fixpoint split_from (tok : string) (s : string) : list string :=
  match s with
  | String c rest =>
      if is_space c then flush tok ++ split_from EmptyString rest
      else split_from (tok +:+ String c EmptyString) rest
  | EmptyString => flush tok
  end.

(** [s.split()]: the maximal runs of non-whitespace characters. *)
Definition split (s : string) : list string := split_from EmptyString s.

(** The longest prefix of digits, and what follows it. *)
Fixpoint span_digits (s : string) : string * string :=
  match s with
  | String c rest =>
      if is_digit c
      then let '(ds, tl) := span_digits rest in (String c ds, tl)
      else (EmptyString, s)
  | EmptyString => (EmptyString, EmptyString)
  end.

(** Digits with single underscores between them, read in base ten;
    [seen] tells that the previous character was a digit. *)
Fixpoint digits_from (acc : Z) (seen : bool) (s : string) : option Z :=
  match s with
  | String c rest =>
      if is_digit c then digits_from (10 * acc + digit_value c) true rest
      else if Ascii.eqb c "_" && seen then digits_from acc false rest
      else None
  | EmptyString => if seen then Some acc else None
  end.

(** [int(s)] for a string; [None] stands for [ValueError]. *)
Definition int (s : string) : option Z :=
  match rstrip_of is_int_space (lstrip_of is_int_space s) with
  | String "-" rest => Z.opp <$> digits_from 0 false rest
  | String "+" rest => digits_from 0 false rest
  | body => digits_from 0 false body
  end.

(** [re.match(r"(?P<start>\d+)-(?P<end>\d+)/(?P<count>\d+)", s)]: the
    three groups, or [None] when the pattern does not match at the
    start of [s]. *)
Definition match_content_range (s : string) : option (string * string * string) :=
  let '(start, r1) := span_digits s in
  if is_empty start then None else
  match r1 with
  | String "-" r2 =>
      let '(end_, r3) := span_digits r2 in
      if is_empty end_ then None else
      match r3 with
      | String "/" r4 =>
          let '(count, _) := span_digits r4 in
          if is_empty count then None else Some (start, end_, count)
      | _ => None
      end
  | _ => None
  end.
End PyStr.

(** [int(k)] for a dictionary key. *)
Definition int_of_key (k : pykey) : option Z :=
  match k with
  | KStr s => PyStr.int s
  | KInt z => Some z
  end.

(** ** Key coercion *)

(** The body of the loop of [__keys_to_int], for one [(k, v)] of the
    snapshot [list(dict_.items())]. *)
Definition keys_to_int_body : pykey * pyval -> PyM.M PyDict.t pyexn unit :=
  fun '(k, v) =>
    PyM.try_except
      (i <- (match int_of_key k with
             | Some i => PyM.ret i
             | None => PyM.raise ValueError
             end) ;;
       dict_ <- PyM.get ;;
       (match PyDict.del dict_ k with
        | Some d => PyM.put d
        | None => PyM.raise KeyError
        end) ;;;
       PyM.modify (fun dict_ => PyDict.set dict_ (KInt i) v))
      (fun e => match e with
                | ValueError => Some (PyM.ret tt)
                | _ => None
                end).

(** [__keys_to_int(dict_)], run on the dictionary it mutates. *)
Definition __keys_to_int : PyM.M PyDict.t pyexn unit :=
  items <- PyM.get ;;
  PyM.for_each keys_to_int_body items.

(** ** The parameter builder *)

(** An [inspect.Parameter]: [default = None] stands for
    [inspect.Parameter.empty]. *)
Record parameter : Type := mkParameter {
  name : string;
  default : option pyval
}.

(** [__get_request_parameters(rename)], given the signature of the calling
    method and the local variables of its frame. *)
Definition __get_request_parameters (sig : list parameter)
    (f_locals : gmap string pyval) (rename : gmap string string)
    : PyM.M (list param) pyexn unit :=
  PyM.for_each (fun p =>
    let parameter_name := name p in
    parameter_value <- (match f_locals !! parameter_name with
                        | Some v => PyM.ret v
                        | None => PyM.raise KeyError
                        end) ;;
    let parameter_name := match rename !! parameter_name with
                          | Some renamed => renamed
                          | None => parameter_name
                          end in
    match default p with
    | Some d =>
        if py_ne parameter_value d then
          match parameter_value with
          | VList items | VTuple items =>
              PyM.for_each (fun item =>
                append_param (parameter_name +:+ "[]", item)) items
          | _ => append_param (parameter_name, parameter_value)
          end
        else PyM.ret tt
    | None => PyM.ret tt
    end) sig.

(** The list the builder returns: it starts from [request_parameters = []]. *)
Definition get_request_parameters (sig : list parameter)
    (f_locals : gmap string pyval) (rename : gmap string string)
    : result pyexn (list param) :=
  match __get_request_parameters sig f_locals rename [] with
  | (request_parameters, Ok _) => Ok request_parameters
  | (_, Raise e) => Raise e
  end.

(** ** The request handler *)

Record ResponseRange : Type := mkResponseRange {
  start : Z;
  end_ : Z;
  count : Z;
  max : Z
}.

Record request : Type := mkRequest {
  method : string;
  url : string;
  req_headers : gmap string pyval;
  verify : bool;
  params : option (list param);
  data : option pyval
}.

(** The attributes of a [RequestHandler]; an attribute that holds [None]
    is [VNone] or [None]. *)
Record RequestHandler : Type := mkRequestHandler {
  host_url : string;
  app_token : string;
  user_api_token : string;
  __session_token : pyval;
  verify_tls : bool;
  __session : bool;
  __response_header : option (gmap string string)
}.

(** The handler together with the requests it has put on the wire, the
    oldest first. *)
Record world : Type := mkWorld {
  self : RequestHandler;
  sent : list request
}.

Definition HM (A : Type) : Type := PyM.M world pyexn A.

Definition set_session_token (v : pyval) (h : RequestHandler) : RequestHandler :=
  mkRequestHandler (host_url h) (app_token h) (user_api_token h) v
    (verify_tls h) (__session h) (__response_header h).
Definition set_session (b : bool) (h : RequestHandler) : RequestHandler :=
  mkRequestHandler (host_url h) (app_token h) (user_api_token h)
    (__session_token h) (verify_tls h) b (__response_header h).
Definition set_response_header (hd : gmap string string) (h : RequestHandler)
    : RequestHandler :=
  mkRequestHandler (host_url h) (app_token h) (user_api_token h)
    (__session_token h) (verify_tls h) (__session h) (Some hd).

Definition update_self (f : RequestHandler -> RequestHandler) : HM unit :=
  PyM.modify (fun w => mkWorld (f (self w)) (sent w)).
Definition read_self {A} (f : RequestHandler -> A) : HM A :=
  w <- PyM.get ;; PyM.ret (f (self w)).

(** [RequestHandler(host_url, app_token, user_api_token, verify_tls)] *)
Definition __init__ (host_url app_token user_api_token : string)
    (verify_tls : bool) : RequestHandler :=
  mkRequestHandler host_url app_token user_api_token VNone verify_tls false None.

(** The [response_range] property, read off the handler. *)
Definition response_range (h : RequestHandler) : result pyexn ResponseRange :=
  match __response_header h with
  | None => Raise (GLPIError "No request made")
  | Some hd =>
      match hd !! "Content-Range", hd !! "Accept-Range" with
      | Some content_range, Some accept =>
          let match_ := PyStr.match_content_range content_range in
          match PyStr.split (PyStr.strip accept) !! 1%nat with
          | None => Raise IndexError
          | Some s =>
              match PyStr.int s with
              | None => Raise ValueError
              | Some accept_range =>
                  match match_ with
                  | None => Raise AttributeError
                  | Some (s, e, c) =>
                      match PyStr.int s, PyStr.int e, PyStr.int c with
                      | Some s', Some e', Some c' =>
                          Ok (mkResponseRange s' e' c' accept_range)
                      | _, _, _ => Raise ValueError
                      end
                  end
              end
          end
      | _, _ => Raise (GLPIError "The previous request did not return a range")
      end
  end.

(** The message of the error the [session_token] property raises. *)
Definition not_initiated : string :=
  "Request handler was not initiated! Please call init_session"
  +:+ " if you want to start a new session.".

(** The [session_token] property. *)
Definition session_token : HM pyval :=
  tok <- read_self __session_token ;;
  match tok with
  | VNone => PyM.raise (GLPIError not_initiated)
  | _ => PyM.ret tok
  end.

Section Transport.
(** The remote service as the transport shows it: the response to each
    request. *)
Variable remote : request -> response.

Definition _get_method_url (h : RequestHandler) (request_type : string) : string :=
  host_url h +:+ "/apirest.php/" +:+ request_type.

(** [d.update(extra)] on the two default headers. *)
Definition _header_dict (h : RequestHandler) (extra : gmap string pyval)
    : gmap string pyval :=
  extra ∪ {[ "Content-Type" := VStr "application/json";
             "App-Token" := VStr (app_token h) ]}.

(** Put a request on the wire and take the response. *)
Definition send (req : request) : HM response :=
  PyM.modify (fun w => mkWorld (self w) (sent w ++ [req])) ;;;
  PyM.ret (remote req).

Definition _do_get (action : string) (header : gmap string pyval)
    (parameters : option (list param)) (data : option pyval) : HM response :=
  h <- read_self id ;;
  let url := _get_method_url h action in
  let all_headers := _header_dict h header in
  update_self (set_session true) ;;;
  response <- send (mkRequest "get" url all_headers (verify_tls h) parameters data) ;;
  update_self (set_response_header (headers response)) ;;;
  if 400 <=? status_code response
  then PyM.raise (GLPIRequestError response)
  else PyM.ret response.

Definition _do_method (method api_method_url : string) (data : option pyval)
    (headers : gmap string pyval) (on_error_raise : bool) : HM response :=
  tok <- session_token ;;
  let with_token := <[ "Session-Token" := tok ]> headers in
  h <- read_self id ;;
  let url := _get_method_url h api_method_url in
  let all_headers := _header_dict h with_token in
  update_self (set_session true) ;;;
  response <- send (mkRequest method url all_headers (verify_tls h) None data) ;;
  if on_error_raise && (400 <=? status_code response)
  then PyM.raise (GLPIRequestError response)
  else PyM.ret response.

(** [response.json()] *)
Definition response_json (r : response) : HM pyval :=
  match json r with
  | Some v => PyM.ret v
  | None => PyM.raise JSONDecodeError
  end.

Definition lift {A} (r : result pyexn A) : HM A :=
  match r with
  | Ok a => PyM.ret a
  | Raise e => PyM.raise e
  end.

Definition init_session : HM unit :=
  tok <- read_self __session_token ;;
  match tok with
  | VNone =>
      h <- read_self id ;;
      let auth := "user_token " +:+ user_api_token h in
      r <- _do_get "initSession" {[ "Authorization" := VStr auth ]} None None ;;
      body <- response_json r ;;
      tok <- lift (py_getitem body (KStr "session_token")) ;;
      update_self (set_session_token tok)
  | _ => PyM.raise (GLPIError "Session already initialized.")
  end.

Definition kill_session (session_id : pyval) : HM unit :=
  session_id <-
    (match session_id with
     | VNone =>
         tok <- session_token ;;
         match tok with
         | VNone =>
             PyM.raise (GLPIError "Request handler was not initiated, nothing to be done.")
         | _ =>
             tok <- session_token ;;
             update_self (set_session_token VNone) ;;;
             PyM.ret tok
         end
     | _ => PyM.ret session_id
     end) ;;
  PyM.try_except
    (_do_get "killSession" {[ "Session-Token" := session_id ]} None None ;;;
     PyM.ret tt)
    (fun e =>
       match e with
       | GLPIRequestError err_response => Some (
           if status_code err_response =? 401 then
             message <- PyM.try_except
               (response_json err_response)
               (fun e' => match e' with
                          | JSONDecodeError => Some (PyM.raise e)
                          | _ => None
                          end) ;;
             n <- lift (py_len message) ;;
             if 0 <? n then
               first <- lift (py_getitem message (KInt 0)) ;;
               if py_eqb first (VStr "ERROR_SESSION_TOKEN_INVALID")
               then PyM.raise (GLPIError "Session expired")
               else PyM.raise e
             else PyM.raise e
           else PyM.raise e)
       | _ => None
       end).

(** [delete_items]: the request body. *)
Definition delete_items_data (ids : list pyval) (purge log : bool) : PyDict.t :=
  let input := fold_left (fun d id_ => PyDict.set d (KStr "id") id_) ids [] in
  let data := [(KStr "input", VDict input)] in
  let data := if purge then PyDict.set data (KStr "force_purge") (VBool true) else data in
  let data := if negb log then PyDict.set data (KStr "force_purge") (VBool true) else data in
  data.

Definition delete_items (item_type : string) (ids : list pyval)
    (purge log : bool) : HM pyval :=
  let data := delete_items_data ids purge log in
  response <- _do_method "delete" item_type (Some (VDict data)) ∅ true ;;
  response_json response.

Definition download_user_profile_picture (id_ : Z) : HM string :=
  response <- _do_method "get" ("User/" +:+ str_of_Z id_ +:+ "/Picture") None ∅ false ;;
  if status_code response =? 204
  then PyM.raise (GLPIError "User doesn't have a profile picture")
  else PyM.ret (content response).
End Transport.

(** ** Vocabulary of the statements *)

Import FlattenSpec.

(** The flattener emits, after what the list already holds, exactly the
    pairs of the specified algorithm, in their order, and returns. *)
Definition flattens_as_specified (c : pyval) : Prop :=
  forall father ps, exists out,
    spec_flatten c father = Some out /\
    add_criteria_to_parameters c father ps = (ps ++ out, Ok tt).

(** On a value with an unsupported node the flattener raises
    NotImplementedError, having appended exactly the pairs of the part of
    the tree before that node; on any other value it returns. *)
Definition stops_at_unsupported (c : pyval) : Prop :=
  forall father,
    (unsupported_node c = true ->
     exists out,
       (forall ps, add_criteria_to_parameters c father ps
                   = (ps ++ out, Raise NotImplementedError))
       /\ (forall ps, add_criteria_to_parameters (before_unsupported c) father ps
                      = (ps ++ out, Ok tt)))
    /\ (unsupported_node c = false ->
        exists out, forall ps, add_criteria_to_parameters c father ps = (ps ++ out, Ok tt)).

(** A computation that only appends to the list, the same pairs and with
    the same outcome whatever the list holds. *)
Definition appends_only {E} (c : PyM.M (list param) E unit) : Prop :=
  exists out r, forall ps, c ps = (ps ++ out, r).

(** The key a record key is coerced to: its integer when [int()] reads
    it, itself otherwise. *)
Definition coerce_key (k : pykey) : pykey :=
  match int_of_key k with
  | Some i => KInt i
  | None => k
  end.

(** What key coercion leaves of a record: the entries whose key [int()]
    does not read, in place, then the entries it reads, under their
    integer keys. *)
Definition kept (d : PyDict.t) : PyDict.t :=
  filter (fun kv => int_of_key (fst kv) = None) d.

Definition moved (d : PyDict.t) : PyDict.t :=
  (fun kv => (coerce_key (fst kv), snd kv))
    <$> filter (fun kv => is_Some (int_of_key (fst kv))) d.

(** The request [kill_session(sid)] puts on the wire. *)
Definition kill_session_request (w : world) (sid : string) : request :=
  mkRequest "get" (_get_method_url (self w) "killSession")
    (_header_dict (self w) {[ "Session-Token" := VStr sid ]})
    (verify_tls (self w)) None None.

(** A non-empty string of decimal digits, and the number it writes. *)
Definition all_digits (s : string) : bool :=
  negb (PyStr.is_empty s) && forallb PyStr.is_digit (list_ascii_of_string s).

Fixpoint decimal_from (acc : Z) (s : string) : Z :=
  match s with
  | String c rest => decimal_from (10 * acc + PyStr.digit_value c) rest
  | EmptyString => acc
  end.

Definition decimal_value (s : string) : Z := decimal_from 0 s.

Definition starts_with_digit (s : string) : bool :=
  match s with
  | String c _ => PyStr.is_digit c
  | EmptyString => false
  end.

(** The string holds a decimal digit. *)
Definition has_digit (s : string) : bool :=
  existsb PyStr.is_digit (list_ascii_of_string s).

(** ** The other operations of the handler *)

(** [bool(v)] *)
Definition py_truthy (v : pyval) : bool :=
  match v with
  | VNone => false
  | VBool b => b
  | VInt z => negb (z =? 0)
  | VStr s => negb (PyStr.is_empty s)
  | VEnum _ => true
  | VList [] | VTuple [] | VDict [] => false
  | VList _ | VTuple _ | VDict _ => true
  end.

(** ["-".join(str(r) for r in range_)] for a sequence of integers. *)
Fixpoint join_range (range_ : list Z) : string :=
  match range_ with
  | [] => ""
  | r :: rest =>
      match rest with
      | [] => str_of_Z r
      | _ => str_of_Z r +:+ "-" +:+ join_range rest
      end
  end.

(** The frame value of [range_] after
    [if range_ is not None: range_ = "-".join(str(r) for r in range_)]. *)
Definition joined_range (range_ : option (list Z)) : pyval :=
  match range_ with
  | Some r => VStr (join_range r)
  | None => VNone
  end.

(** Run a computation on a list local to the method, and hand the list
    over. *)
Definition run_local (c : PyM.M (list param) pyexn unit) (init : list param)
    : HM (list param) :=
  match c init with
  | (ps, Ok _) => PyM.ret ps
  | (_, Raise e) => PyM.raise e
  end.

(** [with handler: body], for an [__exit__] that is handed the exception
    of the body, if any; the result is [None] when [__exit__] suppresses
    it. *)
Definition with_statement {A} (enter : HM unit) (exit : option pyexn -> HM bool)
    (body : HM A) : HM (option A) :=
  enter ;;;
  fun w =>
    match body w with
    | (w', Ok a) => (_ <- exit None ;; PyM.ret (Some a)) w'
    | (w', Raise e) =>
        (suppress <- exit (Some e) ;;
         if suppress then PyM.ret None else PyM.raise e) w'
    end.

(** [for d in v]: the elements [v] is iterated over. *)
Definition py_iter (v : pyval) : result pyexn (list pyval) :=
  match v with
  | VList items | VTuple items => Ok items
  | VDict d =>
      Ok (map (fun '(k, _) => match k with KStr s => VStr s | KInt z => VInt z end) d)
  | VStr s => Ok (map (fun c => VStr (String c EmptyString)) (list_ascii_of_string s))
  | _ => Raise TypeError
  end.

(** [f] on each element in turn, up to the first one that raises. *)
Fixpoint map_result {A B} (f : A -> result pyexn B) (xs : list A)
    : result pyexn (list B) :=
  match xs with
  | [] => Ok []
  | x :: rest =>
      match f x with
      | Ok y =>
          match map_result f rest with
          | Ok ys => Ok (y :: ys)
          | Raise e => Raise e
          end
      | Raise e => Raise e
      end
  end.

(** [self.__keys_to_int(d)] on an element of the response: the object as
    the call leaves it. *)
Definition keys_to_int_of (d : pyval) : result pyexn pyval :=
  match d with
  | VDict items =>
      match __keys_to_int items with
      | (items', Ok _) => Ok (VDict items')
      | (_, Raise e) => Raise e
      end
  | _ => Raise AttributeError
  end.

(** [for d in json.get(key, []): self.__keys_to_int(d)] on the dictionary
    [json]: [json] as the loop leaves it. *)
Definition coerce_member (json : PyDict.t) (key : string) : result pyexn PyDict.t :=
  match PyDict.get json (KStr key) with
  | None => Ok json
  | Some (VList items) =>
      match map_result keys_to_int_of items with
      | Ok items' => Ok (PyDict.set json (KStr key) (VList items'))
      | Raise e => Raise e
      end
  | Some (VTuple items) =>
      match map_result keys_to_int_of items with
      | Ok items' => Ok (PyDict.set json (KStr key) (VTuple items'))
      | Raise e => Raise e
      end
  | Some other =>
      match py_iter other with
      | Ok ds =>
          match map_result keys_to_int_of ds with
          | Ok _ => Ok json
          | Raise e => Raise e
          end
      | Raise e => Raise e
      end
  end.

(** The end of [search_items]: the two loops under [if not with_indexes],
    on the response [json]. *)
Definition search_items_coerce (with_indexes : pyval) (json : pyval)
    : result pyexn pyval :=
  if py_truthy with_indexes then Ok json else
  match json with
  | VDict j =>
      match coerce_member j "data" with
      | Ok j' =>
          match coerce_member j' "data_html" with
          | Ok j'' => Ok (VDict j'')
          | Raise e => Raise e
          end
      | Raise e => Raise e
      end
  | _ => Raise AttributeError
  end.

(** The signatures [inspect.signature] gives for the methods that call
    the parameter builder. *)
Definition get_many_items_sig : list parameter :=
  [mkParameter "item_type" None;
   mkParameter "expand_dropdowns" (Some (VBool false));
   mkParameter "get_hateoas" (Some (VBool true));
   mkParameter "only_id" (Some (VBool false));
   mkParameter "range_" (Some VNone);
   mkParameter "sort_by" (Some VNone);
   mkParameter "order" (Some VNone);
   mkParameter "filter_by" (Some VNone);
   mkParameter "is_deleted" (Some (VBool false));
   mkParameter "add_key_names" (Some VNone)].

Definition get_sub_items_sig : list parameter :=
  [mkParameter "item_type" None;
   mkParameter "item_id" None;
   mkParameter "sub_item_type" None;
   mkParameter "expand_dropdowns" (Some (VBool false));
   mkParameter "get_hateoas" (Some (VBool true));
   mkParameter "only_id" (Some (VBool false));
   mkParameter "range_" (Some VNone);
   mkParameter "sort_by" (Some VNone);
   mkParameter "order" (Some VNone);
   mkParameter "add_key_names" (Some VNone)].

Definition search_items_sig : list parameter :=
  [mkParameter "item_type" None;
   mkParameter "filters" (Some VNone);
   mkParameter "sort_by_id" (Some VNone);
   mkParameter "order" (Some VNone);
   mkParameter "range_" (Some VNone);
   mkParameter "force_display" (Some VNone);
   mkParameter "raw_data" (Some (VBool false));
   mkParameter "with_indexes" (Some (VBool false));
   mkParameter "uid_cols" (Some (VBool false));
   mkParameter "give_items" (Some (VBool false))].

(** [if filter_by: for name in filter_by: ...] of [get_many_items]. *)
Definition append_search_text (filter_by : option PyDict.t)
    : PyM.M (list param) pyexn unit :=
  match filter_by with
  | Some d =>
      PyM.for_each (fun name =>
        match PyDict.get d name with
        | Some v => append_param ("searchText[" +:+ format_key name +:+ "]", v)
        | None => PyM.raise KeyError
        end) (PyDict.keys d)
  | None => PyM.ret tt
  end.

Section Operations.
Variable remote : request -> response.

Definition _get_json (method : string) (parameters : option (list param))
    (data : option pyval) : HM pyval :=
  tok <- session_token ;;
  response <- _do_get remote method {[ "Session-Token" := tok ]} parameters data ;;
  PyM.try_except (response_json response)
    (fun e => match e with
              | JSONDecodeError => Some (PyM.raise (GLPIRequestError response))
              | _ => None
              end).

Definition _do_post (action : string) (data : option pyval)
    (headers : gmap string pyval) (on_error_raise : bool) : HM response :=
  _do_method remote "post" action data headers on_error_raise.

Definition __enter__ : HM unit := init_session remote.

Definition __exit__ (exc : option pyexn) : HM bool :=
  kill_session remote VNone ;;;
  PyM.ret false.

Definition get_my_profiles : HM pyval :=
  j <- _get_json "getMyProfiles" None None ;;
  lift (py_getitem j (KStr "myprofiles")).

Definition get_active_profile : HM pyval :=
  j <- _get_json "getActiveProfile" None None ;;
  lift (py_getitem j (KStr "active_profile")).

Definition change_active_profile (profile_id : pyval) : HM unit :=
  r <- _do_post "changeActiveProfile"
         (Some (VDict [(KStr "profiles_id", profile_id)])) ∅ false ;;
  if status_code r =? 404
  then PyM.raise (GLPIError "Profile not found")
  else PyM.ret tt.

Definition get_my_entities (recursive : bool) : HM pyval :=
  j <- _get_json "getMyEntities"
         (Some [("is_recursive", VStr (if recursive then "true" else "false"))])
         None ;;
  lift (py_getitem j (KStr "myentities")).

Definition get_active_entities : HM pyval :=
  j <- _get_json "getActiveEntities" None None ;;
  lift (py_getitem j (KStr "active_entity")).

Definition get_full_session : HM pyval :=
  j <- _get_json "getFullSession" None None ;;
  lift (py_getitem j (KStr "session")).

Definition get_glpi_config : HM pyval :=
  j <- _get_json "getGlpiConfig" None None ;;
  lift (py_getitem j (KStr "cfg_glpi")).

Definition add_items (item_type : string) (data : pyval) : HM pyval :=
  response <- _do_post item_type (Some (VDict [(KStr "input", data)])) ∅ true ;;
  response_json response.

Definition update_items (item_type : string) (data : pyval) : HM pyval :=
  response <- _do_method remote "patch" item_type
                (Some (VDict [(KStr "input", data)])) ∅ true ;;
  response_json response.

Definition download_document (id_ : Z) : HM string :=
  response <- _do_method remote "get" ("Document/" +:+ str_of_Z id_) None
                {[ "Accept" := VStr "application/octet-stream" ]} false ;;
  PyM.ret (content response).

(** [range_] is a sequence of integers or [None], [filter_by] a dictionary
    or [None], as annotated; the other arguments are any value. *)
Definition get_many_items (item_type : string)
    (expand_dropdowns get_hateoas only_id : pyval) (range_ : option (list Z))
    (sort_by order : pyval) (filter_by : option PyDict.t)
    (is_deleted add_key_names : pyval) : HM pyval :=
  let range_ := joined_range range_ in
  let is_deleted := if py_truthy is_deleted then VInt 1 else is_deleted in
  let get_hateoas := if py_truthy get_hateoas then get_hateoas else VInt 0 in
  request_parameters <-
    lift (get_request_parameters get_many_items_sig
            {[ "item_type" := VStr item_type;
               "expand_dropdowns" := expand_dropdowns;
               "get_hateoas" := get_hateoas;
               "only_id" := only_id;
               "range_" := range_;
               "sort_by" := sort_by;
               "order" := order;
               "filter_by" := match filter_by with
                              | Some d => VDict d
                              | None => VNone
                              end;
               "is_deleted" := is_deleted;
               "add_key_names" := add_key_names ]}
            {[ "range_" := "range"; "add_key_names" := "add_keys_names";
               "sort_by" := "sort" ]}) ;;
  request_parameters <- run_local (append_search_text filter_by) request_parameters ;;
  _get_json (item_type +:+ "/") (Some request_parameters) None.

Definition get_sub_items (item_type : string) (item_id : Z) (sub_item_type : string)
    (expand_dropdowns get_hateoas only_id : pyval) (range_ : option (list Z))
    (sort_by order add_key_names : pyval) : HM pyval :=
  let range_ := joined_range range_ in
  let get_hateoas := if py_truthy get_hateoas then get_hateoas else VInt 0 in
  request_parameters <-
    lift (get_request_parameters get_sub_items_sig
            {[ "item_type" := VStr item_type;
               "item_id" := VInt item_id;
               "sub_item_type" := VStr sub_item_type;
               "expand_dropdowns" := expand_dropdowns;
               "get_hateoas" := get_hateoas;
               "only_id" := only_id;
               "range_" := range_;
               "sort_by" := sort_by;
               "order" := order;
               "add_key_names" := add_key_names ]}
            {[ "range_" := "range"; "add_key_names" := "add_keys_names";
               "sort_by" := "sort" ]}) ;;
  _get_json (item_type +:+ "/" +:+ str_of_Z item_id +:+ "/" +:+ sub_item_type)
    (Some request_parameters) None.

Definition search_items (item_type : string) (filters sort_by_id order : pyval)
    (range_ : option (list Z))
    (force_display raw_data with_indexes uid_cols give_items : pyval) : HM pyval :=
  let range_ := joined_range range_ in
  let criteria := if py_truthy filters then filters else VList [] in
  let filters := VNone in
  request_parameters <-
    lift (get_request_parameters search_items_sig
            {[ "item_type" := VStr item_type;
               "filters" := filters;
               "sort_by_id" := sort_by_id;
               "order" := order;
               "range_" := range_;
               "force_display" := force_display;
               "raw_data" := raw_data;
               "with_indexes" := with_indexes;
               "uid_cols" := uid_cols;
               "give_items" := give_items ]}
            {[ "sort_by_id" := "sort"; "range_" := "range";
               "force_display" := "forcedisplay"; "raw_data" := "rawdata";
               "with_indexes" := "withindexes"; "give_items" := "giveItems" ]}) ;;
  request_parameters <-
    run_local (add_criteria_to_parameters criteria "criteria") request_parameters ;;
  json <- _get_json ("search/" +:+ item_type) (Some request_parameters) None ;;
  lift (search_items_coerce with_indexes json).
End Operations.

(** ** Vocabulary of the further statements *)

(** The request [_do_get] builds on the handler [h]. *)
Definition do_get_request (h : RequestHandler) (action : string)
    (header : gmap string pyval) (parameters : option (list param))
    (data : option pyval) : request :=
  mkRequest "get" (_get_method_url h action) (_header_dict h header)
    (verify_tls h) parameters data.

(** The request [_do_method] builds on the handler [h]. *)
Definition do_method_request (h : RequestHandler) (method api_method_url : string)
    (data : option pyval) (headers : gmap string pyval) : request :=
  mkRequest method (_get_method_url h api_method_url)
    (_header_dict h (<[ "Session-Token" := __session_token h ]> headers))
    (verify_tls h) None data.

(** The request [_get_json] builds on the handler [h]. *)
Definition get_json_request (h : RequestHandler) (method : string)
    (parameters : option (list param)) (data : option pyval) : request :=
  do_get_request h method {[ "Session-Token" := __session_token h ]} parameters data.

(** An operation puts at most one request on the wire, after those
    already sent. *)
Definition sends_at_most_one {A} (op : HM A) : Prop :=
  forall w, sent (fst (op w)) = sent w
            \/ exists req, sent (fst (op w)) = sent w ++ [req].

(** An operation that needs a session: without one it raises the error of
    the [session_token] property, leaves the handler as it is and sends
    nothing. *)
Definition needs_session {A} (op : HM A) : Prop :=
  forall w, __session_token (self w) = VNone ->
            op w = (w, Raise (GLPIError not_initiated)).

(** An operation that leaves the stored response headers as they are. *)
Definition keeps_response_header {A} (op : HM A) : Prop :=
  forall w, __response_header (self (fst (op w))) = __response_header (self w).

(** A computation that leaves the handler and the wire as they are. *)
Definition leaves_world {A} (op : HM A) : Prop :=
  forall w, fst (op w) = w.

(** A computation that sends nothing. *)
Definition keeps_sent {A} (op : HM A) : Prop :=
  forall w, sent (fst (op w)) = sent w.

(** What [response_range] reads is the same before and after the
    operation. *)
Definition keeps_response_range {A} (op : HM A) : Prop :=
  forall w, response_range (self (fst (op w))) = response_range (self w).

(** The request [init_session] builds on the handler [h]. *)
Definition init_session_request (h : RequestHandler) : request :=
  do_get_request h "initSession"
    {[ "Authorization" := VStr ("user_token " +:+ user_api_token h) ]} None None.

(** A parameter name that extends the path [father] by a bracketed
    step. *)
Definition under_path (father : string) (p : param) : Prop :=
  exists suffix, fst p = father +:+ "[" +:+ suffix.

(** What a run of the flattener adds: the same pairs with the same
    outcome whatever the list holds, each named under [father]. *)
Definition adds_under (father : string) (c : PyM.M (list param) pyexn unit) : Prop :=
  exists out r, Forall (under_path father) out /\ forall ps, c ps = (ps ++ out, r).


(** A key as key coercion leaves it: an integer, or a string that
    [int()] does not read. *)
Definition coerced_key (k : pykey) : Prop :=
  (exists i, k = KInt i) \/ int_of_key k = None.

(** Run the monadic plumbing of a handler method. *)
Ltac run_handler :=
  cbv beta iota zeta delta
    [PyM.bind PyM.ret PyM.raise PyM.get PyM.put PyM.modify PyM.try_except
     read_self update_self send lift response_json session_token
     _do_get _do_method id];
  cbn [self sent fst snd].

(** * Properties *)

(** ** Induction over nested values *)

Lemma pyval_nested_ind (P : pyval -> Prop)
    (HNone : P VNone) (HBool : forall b, P (VBool b)) (HInt : forall z, P (VInt z))
    (HStr : forall s, P (VStr s)) (HEnum : forall s, P (VEnum s))
    (HList : forall items, Forall P items -> P (VList items))
    (HTuple : forall items, Forall P items -> P (VTuple items))
    (HDict : forall items, Forall (fun kv => P (snd kv)) items -> P (VDict items)) :
  forall v, P v.
Proof.
  fix IH 1. intros v. destruct v as [ | b | z | s | s | items | items | items].
  - exact HNone.
  - apply HBool.
  - apply HInt.
  - apply HStr.
  - apply HEnum.
  - apply HList.
    revert items. fix IHl 1. intros [ | x rest].
    + constructor.
    + constructor; [apply IH | apply IHl].
  - apply HTuple.
    revert items. fix IHl 1. intros [ | x rest].
    + constructor.
    + constructor; [apply IH | apply IHl].
  - apply HDict.
    revert items. fix IHl 1. intros [ | [k x] rest].
    + constructor.
    + constructor; [apply IH | apply IHl].
Qed.

(** ** The loops of the monad *)

Section Loops.
Context {St E A : Type}.

Lemma for_each_cons (body : A -> PyM.M St E unit) (x : A) (xs : list A) (s : St) :
  PyM.for_each body (x :: xs) s =
  match body x s with
  | (s', Ok _) => PyM.for_each body xs s'
  | (s', Raise e) => (s', Raise e)
  end.
Proof. reflexivity. Qed.

Lemma for_each_app (body : A -> PyM.M St E unit) (xs ys : list A) (s : St) :
  PyM.for_each body (xs ++ ys) s =
  match PyM.for_each body xs s with
  | (s', Ok _) => PyM.for_each body ys s'
  | (s', Raise e) => (s', Raise e)
  end.
Proof.
  revert s. induction xs as [ | x xs IH]; intros s; simpl.
  - reflexivity.
  - unfold PyM.bind. destruct (body x s) as [s' [[] | e]]; [apply IH | reflexivity].
Qed.

Lemma for_range_app (body : nat -> A -> PyM.M St E unit) (i : nat)
    (xs ys : list A) (s : St) :
  PyM.for_range body i (xs ++ ys) s =
  match PyM.for_range body i xs s with
  | (s', Ok _) => PyM.for_range body (i + length xs) ys s'
  | (s', Raise e) => (s', Raise e)
  end.
Proof.
  revert i s. induction xs as [ | x xs IH]; intros i s; simpl.
  - rewrite Nat.add_0_r. reflexivity.
  - unfold PyM.bind. destruct (body i x s) as [s' [[] | e]]; [ | reflexivity].
    rewrite IH. replace (S i + length xs)%nat with (i + S (length xs))%nat by lia.
    reflexivity.
Qed.
End Loops.

(** ** C1: the criteria flattener *)

Lemma criteria_tree_flattens (c : pyval) :
  criteria_tree c = true -> flattens_as_specified c.
Proof.
  induction c as [ | b | z | s | s | items IH | items IH | items IH]
    using pyval_nested_ind; simpl; try discriminate.
  - (* a sequence *)
    intros Hshape father ps. simpl. generalize 0%nat as i. revert ps.
    induction IH as [ | x rest Hx _ IHrest]; intros ps i; simpl in *.
    + exists []. rewrite app_nil_r. split; reflexivity.
    + apply andb_prop in Hshape as [Hx' Hrest].
      apply andb_prop in Hx' as [_ Hx'].
      destruct (Hx Hx' (father +:+ "[" +:+ str_of_nat i +:+ "]") ps) as [o1 [Hs1 Hr1]].
      destruct (IHrest Hrest (ps ++ o1) (S i)) as [o2 [Hs2 Hr2]].
      exists (o1 ++ o2). rewrite Hs1, Hs2. split; [reflexivity | ].
      unfold PyM.bind. rewrite Hr1, Hr2, app_assoc. reflexivity.
  - (* a mapping *)
    intros Hshape father ps. simpl. revert ps.
    induction IH as [ | [k v] rest Hv _ IHrest]; intros ps; simpl in *.
    + exists []. rewrite app_nil_r. split; reflexivity.
    + apply andb_prop in Hshape as [Hv' Hrest].
      set (path := father +:+ "[" +:+ format_key k +:+ "]").
      assert (Hhead : exists o1, spec_flatten v path = Some o1 /\
                forall ps, (match v with
                            | VList _ => add_criteria_to_parameters v path
                            | _ => append_param (path, v)
                            end) ps = (ps ++ o1, Ok tt)).
      { destruct v; try discriminate Hv';
          try (eexists; split; [reflexivity | intros; reflexivity]).
        destruct (Hv Hv' path []) as [o1 [Hs1 _]].
        exists o1. split; [exact Hs1 | ]. intros ps'.
        destruct (Hv Hv' path ps') as [o1' [Hs1' Hr1]].
        congruence. }
      destruct Hhead as [o1 [Hs1 Hr1]].
      destruct (IHrest Hrest (ps ++ o1)) as [o2 [Hs2 Hr2]].
      exists (o1 ++ o2). fold path. rewrite Hs1, Hs2. split; [reflexivity | ].
      unfold PyM.bind. rewrite Hr1, Hr2, app_assoc. reflexivity.
Qed.

Lemma not_container_raises (c : pyval) (father : string) (ps : list param) :
  is_mapping c = false -> is_sequence c = false ->
  add_criteria_to_parameters c father ps = (ps, Raise NotImplementedError).
Proof. destruct c; simpl; intros; try discriminate; reflexivity. Qed.

Lemma not_container_stops (c : pyval) :
  is_mapping c = false -> is_sequence c = false -> stops_at_unsupported c.
Proof.
  intros Hm Hs father. split.
  - intros _. exists []. split; intros ps; rewrite app_nil_r.
    + destruct c; try discriminate; reflexivity.
    + destruct c; try discriminate; reflexivity.
  - destruct c; try discriminate.
Qed.

Lemma flattener_stops_at_unsupported (c : pyval) : stops_at_unsupported c.
Proof.
  induction c as [ | b | z | s | s | items IH | items IH | items IH]
    using pyval_nested_ind; try (apply not_container_stops; reflexivity).
  - (* a sequence *)
    intros father. simpl.
    generalize 0%nat as i.
    induction IH as [ | x rest Hx _ IHrest]; intros i.
    + split; [discriminate | ]. intros _. exists []. intros ps.
      rewrite app_nil_r. reflexivity.
    + specialize (Hx (father +:+ "[" +:+ str_of_nat i +:+ "]")).
      specialize (IHrest (S i)). simpl.
      destruct (unsupported_node x) eqn:Ex.
      * split; [intros _ | discriminate].
        destruct Hx as [Hx _]. destruct (Hx eq_refl) as [o1 [Hr1 Hc1]].
        destruct (is_mapping x || is_sequence x) eqn:Econt.
        -- exists o1. split; intros ps; unfold PyM.bind.
           ++ rewrite Hr1. reflexivity.
           ++ simpl. unfold PyM.bind. rewrite Hc1. reflexivity.
        -- assert (o1 = []) as ->.
           { specialize (Hr1 []).
             apply orb_false_elim in Econt as [Hm Hs].
             rewrite not_container_raises in Hr1 by assumption.
             simpl in Hr1. congruence. }
           exists []. split; intros ps; unfold PyM.bind.
           ++ rewrite Hr1. reflexivity.
           ++ rewrite app_nil_r. reflexivity.
      * destruct Hx as [_ Hx]. destruct (Hx eq_refl) as [o1 Hr1].
        simpl. split; intros Hrest.
        -- destruct IHrest as [IHrest _]. destruct (IHrest Hrest) as [o2 [Hr2 Hc2]].
           exists (o1 ++ o2). split; intros ps; simpl; unfold PyM.bind;
             rewrite Hr1; [rewrite Hr2 | rewrite Hc2]; rewrite app_assoc; reflexivity.
        -- destruct IHrest as [_ IHrest]. destruct (IHrest Hrest) as [o2 Hr2].
           exists (o1 ++ o2). intros ps. unfold PyM.bind.
           rewrite Hr1, Hr2, app_assoc. reflexivity.
  - (* a mapping *)
    intros father. simpl.
    induction IH as [ | [k v] rest Hv _ IHrest].
    + split; [discriminate | ]. intros _. exists []. intros ps.
      rewrite app_nil_r. reflexivity.
    + simpl in Hv. specialize (Hv (father +:+ "[" +:+ format_key k +:+ "]")).
      simpl.
      assert (Hleaf : is_sequence v = false ->
                (match v with VList _ => unsupported_node v | _ => false end) = false
                /\ forall ps,
                     (match v with
                      | VList _ => add_criteria_to_parameters v
                                     (father +:+ "[" +:+ format_key k +:+ "]")
                      | _ => append_param (father +:+ "[" +:+ format_key k +:+ "]", v)
                      end) ps
                     = (ps ++ [(father +:+ "[" +:+ format_key k +:+ "]", v)], Ok tt)).
      { destruct v; try discriminate; intros _; split; reflexivity. }
      destruct (is_sequence v) eqn:Eseq.
      * destruct v as [ | | | | | items | | ]; try discriminate Eseq.
        destruct (unsupported_node (VList items)) eqn:Ev.
        -- split; [intros _ | discriminate].
           destruct Hv as [Hv _]. destruct (Hv eq_refl) as [o1 [Hr1 Hc1]].
           exists o1. split; intros ps; unfold PyM.bind.
           ++ rewrite Hr1. reflexivity.
           ++ specialize (Hc1 ps). simpl in Hc1 |- *. unfold PyM.bind.
              rewrite Hc1. reflexivity.
        -- destruct Hv as [_ Hv]. destruct (Hv eq_refl) as [o1 Hr1].
           simpl in Hr1 |- *. split; intros Hrest.
           ++ destruct IHrest as [IHrest _]. destruct (IHrest Hrest) as [o2 [Hr2 Hc2]].
              exists (o1 ++ o2). split; intros ps; simpl; unfold PyM.bind;
                rewrite Hr1; [rewrite Hr2 | rewrite Hc2]; rewrite app_assoc; reflexivity.
           ++ destruct IHrest as [_ IHrest]. destruct (IHrest Hrest) as [o2 Hr2].
              exists (o1 ++ o2). intros ps. unfold PyM.bind.
              rewrite Hr1, Hr2, app_assoc. reflexivity.
      * destruct (Hleaf eq_refl) as [Hbad Hr1]. rewrite Hbad. simpl.
        split; intros Hrest.
        -- destruct IHrest as [IHrest _]. destruct (IHrest Hrest) as [o2 [Hr2 Hc2]].
           eexists (_ ++ o2). split; intros ps; simpl; unfold PyM.bind;
             rewrite Hr1; [rewrite Hr2 | rewrite Hc2]; rewrite app_assoc; reflexivity.
        -- destruct IHrest as [_ IHrest]. destruct (IHrest Hrest) as [o2 Hr2].
           eexists (_ ++ o2). intros ps. unfold PyM.bind.
           rewrite Hr1, Hr2, app_assoc. reflexivity.
Qed.

(** C1 (amended).  On a criteria tree in which scalars occur only as the
    values of a mapping and mappings only at the root or as elements of a
    sequence, the flattener appends to the parameter list exactly the
    (path, value) pairs of the specified algorithm, in input iteration
    order: [key] appended to the path for each key of a mapping, [index]
    for each index of a sequence.  A node that is neither a mapping nor a
    sequence, given as the root or met as an element of a sequence at any
    depth the traversal reaches (a bare scalar included), raises
    NotImplementedError, and the list then holds, after what it held,
    exactly the pairs of the part of the tree before that node.  On every
    value without such a node the flattener returns. *)
Theorem add_criteria_flattens_criteria_trees
    (c : pyval) (father : string) (ps : list param) :
  (criteria_tree c = true ->
   exists out, spec_flatten c father = Some out /\
     add_criteria_to_parameters c father ps = (ps ++ out, Ok tt))
  /\ (is_mapping c = false -> is_sequence c = false ->
      add_criteria_to_parameters c father ps = (ps, Raise NotImplementedError))
  /\ (forall pre x post,
        c = VList (pre ++ x :: post) ->
        criteria_tree (VList pre) = true ->
        is_mapping x = false -> is_sequence x = false ->
        exists out, spec_flatten (VList pre) father = Some out /\
          add_criteria_to_parameters c father ps
          = (ps ++ out, Raise NotImplementedError))
  /\ (unsupported_node c = true ->
      exists out,
        add_criteria_to_parameters c father ps = (ps ++ out, Raise NotImplementedError)
        /\ add_criteria_to_parameters (before_unsupported c) father ps
           = (ps ++ out, Ok tt))
  /\ (unsupported_node c = false ->
      exists out, add_criteria_to_parameters c father ps = (ps ++ out, Ok tt)).
Proof.
  split; [ | split; [ | split; [ | split]]].
  - intros Hshape. apply criteria_tree_flattens, Hshape.
  - apply not_container_raises.
  - intros pre x post -> Hpre Hm Hs.
    destruct (criteria_tree_flattens _ Hpre father ps) as [out [Hspec Hrun]].
    exists out. split; [exact Hspec | ].
    simpl in *. rewrite for_range_app, Hrun. simpl.
    unfold PyM.bind. rewrite not_container_raises by assumption. reflexivity.
  - intros Hbad.
    destruct (proj1 (flattener_stops_at_unsupported c father) Hbad) as [out [Hrun Hcut]].
    exists out. split; [apply Hrun | apply Hcut].
  - intros Hgood.
    destruct (proj2 (flattener_stops_at_unsupported c father) Hgood) as [out Hrun].
    exists out. apply Hrun.
Qed.

Lemma add_criteria_flattens_criteria_trees_witness :
  (exists out,
     spec_flatten (VList [VDict [(KStr "field", VInt 5);
                                 (KStr "criteria", VList [VDict [(KStr "link", VStr "OR")]])]])
       "criteria" = Some out /\
     add_criteria_to_parameters
       (VList [VDict [(KStr "field", VInt 5);
                      (KStr "criteria", VList [VDict [(KStr "link", VStr "OR")]])]])
       "criteria" [] = ([] ++ out, Ok tt))
  /\ add_criteria_to_parameters (VInt 3) "criteria" [] = ([], Raise NotImplementedError)
  /\ (exists out,
        spec_flatten (VList [VDict [(KStr "field", VInt 5)]]) "criteria" = Some out /\
        add_criteria_to_parameters
          (VList ([VDict [(KStr "field", VInt 5)]] ++ VInt 3 :: [])) "criteria" []
        = ([] ++ out, Raise NotImplementedError))
  /\ (exists out,
        add_criteria_to_parameters
          (VList [VDict [(KStr "field", VInt 5); (KStr "criteria", VList [VInt 1]);
                         (KStr "value", VInt 7)]])
          "criteria" []
        = ([] ++ out, Raise NotImplementedError)
        /\ add_criteria_to_parameters
             (before_unsupported
                (VList [VDict [(KStr "field", VInt 5); (KStr "criteria", VList [VInt 1]);
                               (KStr "value", VInt 7)]]))
             "criteria" []
           = ([] ++ out, Ok tt))
  /\ (exists out,
        add_criteria_to_parameters
          (VList [VDict [(KStr "field", VDict [(KStr "a", VInt 1)])]]) "criteria" []
        = ([] ++ out, Ok tt)).
Proof.
  split; [ | split; [ | split; [ | split]]].
  - apply (proj1 (add_criteria_flattens_criteria_trees _ "criteria" [])).
    reflexivity.
  - apply (proj1 (proj2 (add_criteria_flattens_criteria_trees (VInt 3) "criteria" [])));
      reflexivity.
  - apply (proj1 (proj2 (proj2 (add_criteria_flattens_criteria_trees _ "criteria" [])))
             [VDict [(KStr "field", VInt 5)]] (VInt 3) []); reflexivity.
  - apply (proj1 (proj2 (proj2 (proj2
             (add_criteria_flattens_criteria_trees
                (VList [VDict [(KStr "field", VInt 5); (KStr "criteria", VList [VInt 1]);
                               (KStr "value", VInt 7)]])
                "criteria" []))))).
    reflexivity.
  - apply (proj2 (proj2 (proj2 (proj2
             (add_criteria_flattens_criteria_trees
                (VList [VDict [(KStr "field", VDict [(KStr "a", VInt 1)])]])
                "criteria" []))))).
    reflexivity.
Defined.

(** C1 as specified does not hold.  For a scalar that is an element of a
    sequence the specified algorithm emits one (path, value) pair, where
    the code raises NotImplementedError and emits nothing; for a mapping
    that is the value of a mapping key the specified algorithm recurses
    into it, where the code emits the mapping itself as one value. *)
Lemma add_criteria_scalar_element_counterexample :
  (spec_flatten (VList [VInt 1]) "criteria" = Some [("criteria[0]", VInt 1)]
   /\ add_criteria_to_parameters (VList [VInt 1]) "criteria" []
      = ([], Raise NotImplementedError)
   /\ add_criteria_to_parameters (VList [VInt 1]) "criteria" []
      <> ([("criteria[0]", VInt 1)], Ok tt))
  /\ (spec_flatten (VList [VDict [(KStr "field", VDict [(KStr "a", VInt 1)])]]) "criteria"
      = Some [("criteria[0][field][a]", VInt 1)]
      /\ add_criteria_to_parameters
           (VList [VDict [(KStr "field", VDict [(KStr "a", VInt 1)])]]) "criteria" []
         = ([("criteria[0][field]", VDict [(KStr "a", VInt 1)])], Ok tt)).
Proof. repeat split. discriminate. Qed.

(** ** C2, C3: the parameter builder *)

Lemma for_each_append_param {E} (f : pyval -> param) (items : list pyval)
    (ps : list param) :
  PyM.for_each (fun item => @append_param E (f item)) items ps
  = (ps ++ map f items, Ok tt).
Proof.
  revert ps. induction items as [ | x items IH]; intros ps; simpl.
  - rewrite app_nil_r. reflexivity.
  - unfold PyM.bind, append_param, PyM.modify. rewrite IH, <- app_assoc. reflexivity.
Qed.

Lemma for_each_appends_only {E A} (body : A -> PyM.M (list param) E unit)
    (xs : list A) :
  Forall (fun x => appends_only (body x)) xs ->
  appends_only (PyM.for_each body xs).
Proof.
  induction 1 as [ | x xs [o [r Hx]] _ [os [rs IH]]]; simpl.
  - exists [], (Ok tt). intros ps. rewrite app_nil_r. reflexivity.
  - destruct r as [[] | e].
    + exists (o ++ os), rs. intros ps. unfold PyM.bind.
      rewrite Hx, IH, app_assoc. reflexivity.
    + exists o, (Raise e). intros ps. unfold PyM.bind. rewrite Hx. reflexivity.
Qed.

Lemma builder_appends_only (sig : list parameter) (f_locals : gmap string pyval)
    (rename : gmap string string) :
  appends_only (__get_request_parameters sig f_locals rename).
Proof.
  apply for_each_appends_only, Forall_forall. intros p _.
  unfold appends_only, PyM.bind. cbv zeta.
  destruct (f_locals !! name p) as [v | ].
  2: { exists [], (Raise KeyError). intros ps. rewrite app_nil_r. reflexivity. }
  unfold PyM.ret.
  destruct (default p) as [d | ].
  2: { exists [], (Ok tt). intros ps. rewrite app_nil_r. reflexivity. }
  destruct (py_ne v d).
  2: { exists [], (Ok tt). intros ps. rewrite app_nil_r. reflexivity. }
  destruct v; try (eexists _, _; intros ps; reflexivity);
    eexists _, _; intros ps; apply for_each_append_param.
Qed.

(** C2.  When every declared parameter is bound in the caller's frame and
    every optional one holds a value equal to its declared default, the
    parameter builder returns the empty list.  In every frame, a parameter
    whose value equals its declared default is not emitted: the builder
    does on the signature what it does on the signature without that
    parameter, whatever the other parameters hold and whether it returns
    or raises. *)
Theorem defaults_emit_nothing
    (f_locals : gmap string pyval) (rename : gmap string string) :
  (forall sig,
     Forall (fun p => exists v, f_locals !! name p = Some v /\
                        forall d, default p = Some d -> py_ne v d = false) sig ->
     get_request_parameters sig f_locals rename = Ok [])
  /\ (forall before p after v d,
        f_locals !! name p = Some v ->
        default p = Some d ->
        py_ne v d = false ->
        get_request_parameters (before ++ p :: after) f_locals rename
        = get_request_parameters (before ++ after) f_locals rename).
Proof.
  split.
  - intros sig Hsig. unfold get_request_parameters.
    enough (H : forall ps, __get_request_parameters sig f_locals rename ps = (ps, Ok tt))
      by (rewrite H; reflexivity).
    induction Hsig as [ | p sig [v [Hv Hd]] _ IH]; intros ps.
    + reflexivity.
    + unfold __get_request_parameters in *. simpl. unfold PyM.bind at 1.
      rewrite Hv. unfold PyM.bind at 1. simpl.
      destruct (default p) as [d | ] eqn:Hdef.
      * rewrite (Hd d eq_refl). simpl. apply IH.
      * simpl. apply IH.
  - intros before p after v d Hv Hd Hne. unfold get_request_parameters.
    enough (H : forall ps,
              __get_request_parameters (before ++ p :: after) f_locals rename ps
              = __get_request_parameters (before ++ after) f_locals rename ps)
      by (rewrite H; reflexivity).
    intros ps. unfold __get_request_parameters. rewrite !for_each_app.
    match goal with
    | |- context [PyM.for_each ?body before ps] =>
        destruct (PyM.for_each body before ps) as [ps' [[] | e]]; [ | reflexivity]
    end.
    rewrite for_each_cons. unfold PyM.bind at 1. rewrite Hv. unfold PyM.ret at 1.
    cbv zeta. rewrite Hd, Hne. reflexivity.
Qed.

Lemma defaults_emit_nothing_witness :
  get_request_parameters
    [mkParameter "item_type" None;
     mkParameter "expand_dropdowns" (Some (VBool false));
     mkParameter "get_hateoas" (Some (VBool true));
     mkParameter "only_id" (Some (VBool false));
     mkParameter "range_" (Some VNone);
     mkParameter "sort_by" (Some VNone);
     mkParameter "order" (Some VNone);
     mkParameter "filter_by" (Some VNone);
     mkParameter "is_deleted" (Some (VBool false));
     mkParameter "add_key_names" (Some VNone)]
    {[ "item_type" := VStr "Ticket"; "expand_dropdowns" := VBool false;
       "get_hateoas" := VBool true; "only_id" := VInt 0;
       "range_" := VNone; "sort_by" := VNone; "order" := VNone;
       "filter_by" := VNone; "is_deleted" := VBool false;
       "add_key_names" := VNone ]}
    {[ "range_" := "range"; "add_key_names" := "add_keys_names";
       "sort_by" := "sort" ]}
  = Ok []
  /\ get_request_parameters
       ([mkParameter "item_type" None; mkParameter "sort_by" (Some VNone)]
        ++ mkParameter "only_id" (Some (VBool false))
        :: [mkParameter "range_" (Some VNone)])
       {[ "item_type" := VStr "Ticket"; "sort_by" := VStr "name";
          "only_id" := VInt 0; "range_" := VStr "0-49" ]}
       {[ "range_" := "range"; "sort_by" := "sort" ]}
     = get_request_parameters
         ([mkParameter "item_type" None; mkParameter "sort_by" (Some VNone)]
          ++ [mkParameter "range_" (Some VNone)])
         {[ "item_type" := VStr "Ticket"; "sort_by" := VStr "name";
            "only_id" := VInt 0; "range_" := VStr "0-49" ]}
         {[ "range_" := "range"; "sort_by" := "sort" ]}
  /\ get_request_parameters
       ([mkParameter "item_type" None; mkParameter "sort_by" (Some VNone)]
        ++ [mkParameter "range_" (Some VNone)])
       {[ "item_type" := VStr "Ticket"; "sort_by" := VStr "name";
          "only_id" := VInt 0; "range_" := VStr "0-49" ]}
       {[ "range_" := "range"; "sort_by" := "sort" ]}
     = Ok [("sort", VStr "name"); ("range", VStr "0-49")].
Proof.
  split; [ | split].
  - apply (proj1 (defaults_emit_nothing _ _)).
    repeat constructor; eexists; (split; [reflexivity | ]);
      intros d Hd; inversion Hd; reflexivity.
  - apply (proj2 (defaults_emit_nothing _ _) _ _ _ (VInt 0) (VBool false));
      reflexivity.
  - reflexivity.
Defined.

Lemma builder_returns (sig : list parameter) (f_locals : gmap string pyval)
    (rename : gmap string string) (out : list param) :
  get_request_parameters sig f_locals rename = Ok out ->
  forall ps, __get_request_parameters sig f_locals rename ps = (ps ++ out, Ok tt).
Proof.
  unfold get_request_parameters.
  destruct (builder_appends_only sig f_locals rename) as [o [r H]].
  rewrite (H []). simpl. destruct r as [[] | e]; [ | discriminate].
  intros [= <-]. exact H.
Qed.

(** C3.  A parameter whose value in the frame is a list or a tuple that
    differs from its declared default contributes, between what the
    parameters before it and after it contribute, exactly one
    [(key + "[]", element)] pair per element, in the order of the
    sequence, where [key] is the entry of the rename table for the
    parameter's name, or the name itself when the table has none. *)
Theorem sequence_argument_emits_each_element
    (before after : list parameter) (p : parameter)
    (f_locals : gmap string pyval) (rename : gmap string string)
    (v d : pyval) (items : list pyval) (out_before out_after : list param) :
  f_locals !! name p = Some v ->
  v = VList items \/ v = VTuple items ->
  default p = Some d ->
  py_ne v d = true ->
  get_request_parameters before f_locals rename = Ok out_before ->
  get_request_parameters after f_locals rename = Ok out_after ->
  get_request_parameters (before ++ p :: after) f_locals rename
  = Ok (out_before
        ++ map (fun item =>
                  (match rename !! name p with
                   | Some renamed => renamed
                   | None => name p
                   end +:+ "[]", item)) items
        ++ out_after).
Proof.
  intros Hv Hseq Hd Hne Hb Ha.
  pose proof (builder_returns _ _ _ _ Hb) as Hb'.
  pose proof (builder_returns _ _ _ _ Ha) as Ha'.
  unfold get_request_parameters, __get_request_parameters in *.
  rewrite for_each_app, Hb'. simpl.
  unfold PyM.bind at 1. unfold PyM.bind at 1. rewrite Hv. simpl.
  rewrite Hd, Hne.
  destruct Hseq as [-> | ->]; rewrite for_each_append_param, Ha', <- app_assoc;
    reflexivity.
Qed.

Lemma sequence_argument_emits_each_element_witness :
  get_request_parameters
    ([mkParameter "item_type" None; mkParameter "raw_data" (Some (VBool false))]
     ++ mkParameter "force_display" (Some VNone)
     :: [mkParameter "give_items" (Some (VBool false))])
    {[ "item_type" := VStr "Computer"; "raw_data" := VBool true;
       "force_display" := VList [VInt 2; VInt 1; VInt 2];
       "give_items" := VBool true ]}
    {[ "force_display" := "forcedisplay"; "raw_data" := "rawdata";
       "give_items" := "giveItems" ]}
  = Ok ([("rawdata", VBool true)]
        ++ map (fun item =>
                  (match ({[ "force_display" := "forcedisplay"; "raw_data" := "rawdata";
                             "give_items" := "giveItems" ]} : gmap string string)
                           !! name (mkParameter "force_display" (Some VNone)) with
                   | Some renamed => renamed
                   | None => name (mkParameter "force_display" (Some VNone))
                   end +:+ "[]", item)) [VInt 2; VInt 1; VInt 2]
        ++ [("giveItems", VBool true)]).
Proof.
  apply (sequence_argument_emits_each_element _ _ _ _ _
           (VList [VInt 2; VInt 1; VInt 2]) VNone);
    first [reflexivity | left; reflexivity].
Defined.

(** ** Strings: digits, [strip] and [split] *)

Module PyStrFacts.
Import PyStr.

Lemma digit_not_space (c : ascii) : is_digit c = true -> is_int_space c = false.
Proof.
  destruct c as [[] [] [] [] [] [] [] []]; intros H;
    first [reflexivity | discriminate H].
Qed.

Lemma digit_not_sign (c : ascii) :
  is_digit c = true -> c <> "-"%char /\ c <> "+"%char /\ c <> "_"%char.
Proof.
  intros H. repeat split; intros ->; discriminate H.
Qed.

Lemma digits_no_space (s : string) :
  forallb is_digit (list_ascii_of_string s) = true ->
  lstrip_of is_int_space s = s /\ rstrip_of is_int_space s = s.
Proof.
  induction s as [ | c s IH]; simpl; [split; reflexivity | ].
  intros H. apply andb_prop in H as [Hc Hs].
  rewrite (digit_not_space c Hc). simpl.
  destruct (IH Hs) as [_ ->]. split; reflexivity.
Qed.

Lemma digits_from_digits (s : string) (acc : Z) (seen : bool) :
  forallb is_digit (list_ascii_of_string s) = true ->
  digits_from acc seen s
  = if is_empty s then (if seen then Some acc else None)
    else Some (decimal_from acc s).
Proof.
  revert acc seen. induction s as [ | c s IH]; intros acc seen; simpl.
  - reflexivity.
  - intros H. apply andb_prop in H as [Hc Hs]. rewrite Hc, (IH _ _ Hs).
    destruct s; reflexivity.
Qed.

(** [int()] reads a string of digits as the number it writes. *)
Lemma int_of_digits (s : string) :
  all_digits s = true -> int s = Some (decimal_value s).
Proof.
  unfold all_digits, int. intros H.
  apply andb_prop in H as [Hne Hd].
  destruct (digits_no_space s Hd) as [-> ->].
  destruct s as [ | c s]; [discriminate | ].
  pose proof Hd as Hd'. simpl in Hd'. apply andb_prop in Hd' as [Hc _].
  destruct (digit_not_sign c Hc) as [Hm [Hp _]].
  assert (Hgen : digits_from 0 false (String c s) = Some (decimal_value (String c s)))
    by (rewrite digits_from_digits by exact Hd; reflexivity).
  destruct c as [[] [] [] [] [] [] [] []]; try exact Hgen; congruence.
Qed.

Lemma span_digits_app (s t : string) :
  forallb is_digit (list_ascii_of_string s) = true ->
  starts_with_digit t = false ->
  span_digits (s +:+ t) = (s, t).
Proof.
  intros Hs Ht. induction s as [ | c s IH]; simpl in *.
  - destruct t as [ | c t]; [reflexivity | ]. simpl in *. rewrite Ht. reflexivity.
  - apply andb_prop in Hs as [Hc Hs]. rewrite Hc, (IH Hs). reflexivity.
Qed.

Lemma match_content_range_app (s e c rest : string) :
  all_digits s = true -> all_digits e = true -> all_digits c = true ->
  starts_with_digit rest = false ->
  match_content_range (s +:+ "-" +:+ e +:+ "/" +:+ c +:+ rest) = Some (s, e, c).
Proof.
  unfold all_digits, match_content_range. intros Hs He Hc Hrest.
  apply andb_prop in Hs as [Hs1 Hs2].
  apply andb_prop in He as [He1 He2].
  apply andb_prop in Hc as [Hc1 Hc2].
  apply negb_true_iff in Hs1, He1, Hc1.
  change (s +:+ "-" +:+ e +:+ "/" +:+ c +:+ rest)
    with (s +:+ String "-" (e +:+ String "/" (c +:+ rest))).
  rewrite (span_digits_app s) by (assumption || reflexivity).
  rewrite Hs1. cbv beta iota.
  rewrite (span_digits_app e) by (assumption || reflexivity).
  rewrite He1. cbv beta iota.
  rewrite (span_digits_app c) by assumption.
  rewrite Hc1. reflexivity.
Qed.

Lemma split_from_lstrip (s : string) :
  split_from EmptyString (lstrip_of is_space s) = split_from EmptyString s.
Proof.
  induction s as [ | c s IH]; simpl; [reflexivity | ].
  destruct (is_space c) eqn:Hc; simpl; [exact IH | rewrite Hc; reflexivity].
Qed.

Lemma split_from_rstrip (s tok : string) :
  split_from tok (rstrip_of is_space s) = split_from tok s.
Proof.
  revert tok. induction s as [ | c s IH]; intros tok; simpl; [reflexivity | ].
  destruct (is_space c) eqn:Hc; simpl.
  - destruct (is_empty (rstrip_of is_space s)) eqn:He; simpl.
    + rewrite <- (IH EmptyString). destruct (rstrip_of is_space s); [ | discriminate].
      simpl. rewrite app_nil_r. reflexivity.
    + rewrite Hc, IH. reflexivity.
  - rewrite Hc. apply IH.
Qed.

(** [int()] reads no string without a digit. *)
Lemma digits_from_has_digit (s : string) (acc : Z) (seen : bool) (z : Z) :
  digits_from acc seen s = Some z -> seen = true \/ has_digit s = true.
Proof.
  revert acc seen. induction s as [ | c s IH]; intros acc seen; simpl.
  - destruct seen; [left; reflexivity | discriminate].
  - unfold has_digit. simpl. destruct (is_digit c); [right; reflexivity | ].
    destruct (Ascii.eqb c "_" && seen) eqn:E; [ | discriminate].
    intros H. apply andb_prop in E as [_ ->]. left. reflexivity.
Qed.

Lemma lstrip_has_digit (sp : ascii -> bool) (s : string) :
  has_digit (lstrip_of sp s) = true -> has_digit s = true.
Proof.
  unfold has_digit. induction s as [ | c s IH]; simpl; [discriminate | ].
  destruct (sp c); simpl.
  - intros H. rewrite (IH H). apply orb_true_r.
  - exact id.
Qed.

Lemma rstrip_has_digit (sp : ascii -> bool) (s : string) :
  has_digit (rstrip_of sp s) = true -> has_digit s = true.
Proof.
  unfold has_digit. induction s as [ | c s IH]; simpl; [discriminate | ].
  destruct (sp c && is_empty (rstrip_of sp s)); simpl; [discriminate | ].
  intros H. apply orb_prop in H as [-> | H]; [reflexivity | ].
  rewrite (IH H). apply orb_true_r.
Qed.

Lemma int_has_digit (s : string) (z : Z) : int s = Some z -> has_digit s = true.
Proof.
  unfold int. intros H.
  apply lstrip_has_digit with (sp := is_int_space).
  apply rstrip_has_digit with (sp := is_int_space).
  destruct (rstrip_of is_int_space (lstrip_of is_int_space s)) as [ | c body];
    [discriminate | ].
  assert (Hbody : forall z', digits_from 0 false body = Some z' ->
            has_digit (String c body) = true).
  { intros z' Hz. apply digits_from_has_digit in Hz as [Hz | Hz]; [discriminate | ].
    unfold has_digit in *. simpl. rewrite Hz. apply orb_true_r. }
  assert (Hall : forall z', digits_from 0 false (String c body) = Some z' ->
            has_digit (String c body) = true).
  { intros z' Hz. apply digits_from_has_digit in Hz as [Hz | Hz]; [discriminate | exact Hz]. }
  destruct c as [[] [] [] [] [] [] [] []];
    first [ exact (Hall _ H)
          | exact (Hbody _ H)
          | simpl in H; destruct (digits_from 0 false body) as [z' | ];
            [exact (Hbody z' eq_refl) | discriminate H] ].
Qed.

(** [s.strip().split()] is [s.split()]. *)
Lemma split_strip (s : string) : split (strip s) = split s.
Proof.
  unfold split, strip. rewrite split_from_rstrip. apply split_from_lstrip.
Qed.
End PyStrFacts.

(** ** C4, C5: the response range *)

(** C4.  With the headers [Content-Range: 0-49/120] and
    [Accept-Range: items 500] of the previous response, [response_range]
    is start 0, end 49, count 120, max 500.  In general, when
    [Content-Range] begins with [<start>-<end>/<count>], three non-empty
    runs of digits, the last one not followed by a digit, and the second
    whitespace-separated token of [Accept-Range] reads as the integer
    [m], the range holds the numbers the three runs write, and [m] as
    max. *)
Theorem response_range_parses :
  (forall h hd,
     __response_header h = Some hd ->
     hd !! "Content-Range" = Some "0-49/120" ->
     hd !! "Accept-Range" = Some "items 500" ->
     response_range h = Ok (mkResponseRange 0 49 120 500))
  /\ (forall h hd (s e c rest accept tok : string) (m : Z),
        __response_header h = Some hd ->
        hd !! "Content-Range" = Some (s +:+ "-" +:+ e +:+ "/" +:+ c +:+ rest) ->
        all_digits s = true -> all_digits e = true -> all_digits c = true ->
        starts_with_digit rest = false ->
        hd !! "Accept-Range" = Some accept ->
        PyStr.split accept !! 1%nat = Some tok ->
        PyStr.int tok = Some m ->
        response_range h
        = Ok (mkResponseRange (decimal_value s) (decimal_value e) (decimal_value c) m)).
Proof.
  split.
  - intros h hd Hh Hc Ha. unfold response_range. rewrite Hh, Hc, Ha. reflexivity.
  - intros h hd s e c rest accept tok m Hh Hcr Hs He Hc Hrest Ha Htok Hm.
    unfold response_range. rewrite Hh, Hcr, Ha.
    rewrite PyStrFacts.split_strip, Htok, Hm.
    rewrite PyStrFacts.match_content_range_app by assumption.
    rewrite !PyStrFacts.int_of_digits by assumption. reflexivity.
Qed.

Lemma response_range_parses_witness :
  response_range
    (set_response_header
       {[ "Content-Range" := "7-19/2048 items"; "Accept-Range" := "  Ticket  1_000  " ]}
       (__init__ "http://glpi" "app" "user" true))
  = Ok (mkResponseRange 7 19 2048 1000).
Proof.
  apply (proj2 response_range_parses _
           {[ "Content-Range" := "7-19/2048 items"; "Accept-Range" := "  Ticket  1_000  " ]}
           "7" "19" "2048" " items" "  Ticket  1_000  " "1_000" 1000);
    reflexivity.
Defined.




(** ** Dictionaries *)

Module PyDictFacts.
Import PyDict.

Lemma pykey_eqb_eq (a b : pykey) : pykey_eqb a b = true <-> a = b.
Proof.
  destruct a as [s | x], b as [t | y]; simpl; split; try discriminate.
  - intros H. apply String.eqb_eq in H. congruence.
  - intros [= ->]. apply String.eqb_refl.
  - intros H. apply Z.eqb_eq in H. congruence.
  - intros [= ->]. apply Z.eqb_refl.
Qed.

Lemma pykey_eqb_refl (a : pykey) : pykey_eqb a a = true.
Proof. apply pykey_eqb_eq. reflexivity. Qed.

Lemma pykey_eqb_neq (a b : pykey) : a <> b -> pykey_eqb a b = false.
Proof.
  intros H. destruct (pykey_eqb a b) eqn:E; [ | reflexivity].
  apply pykey_eqb_eq in E. contradiction.
Qed.

Lemma get_absent (d : t) (k : pykey) : k ∉ keys d -> get d k = None.
Proof.
  induction d as [ | [k' v'] d IH]; simpl; [reflexivity | ].
  intros H. apply not_elem_of_cons in H as [Hne H].
  rewrite pykey_eqb_neq by congruence. apply IH, H.
Qed.

Lemma get_elem_of (d : t) (k : pykey) (v : pyval) :
  get d k = Some v -> (k, v) ∈ d.
Proof.
  induction d as [ | [k' v'] d IH]; simpl; [discriminate | ].
  destruct (pykey_eqb k' k) eqn:E.
  - apply pykey_eqb_eq in E. intros [= ->]. subst. apply elem_of_cons. left.
    reflexivity.
  - intros H. apply elem_of_cons. right. apply IH, H.
Qed.

Lemma elem_of_get (d : t) (k : pykey) (v : pyval) :
  NoDup (keys d) -> (k, v) ∈ d -> get d k = Some v.
Proof.
  induction d as [ | [k' v'] d IH]; simpl; intros Hnd Hin.
  - apply elem_of_nil in Hin. contradiction.
  - apply NoDup_cons in Hnd as [Hk' Hnd].
    apply elem_of_cons in Hin as [[= -> ->] | Hin].
    + rewrite pykey_eqb_refl. reflexivity.
    + rewrite pykey_eqb_neq.
      * apply IH; assumption.
      * intros ->. apply Hk'. change k with (fst (k, v)).
        apply list_elem_of_fmap_2, Hin.
Qed.

Lemma mem_middle (u r : t) (k : pykey) (v : pyval) :
  mem (u ++ (k, v) :: r) k = true.
Proof.
  unfold mem. induction u as [ | [k' v'] u IH]; simpl.
  - rewrite pykey_eqb_refl. reflexivity.
  - destruct (pykey_eqb k' k); [reflexivity | exact IH].
Qed.

Lemma remove_middle (u r : t) (k : pykey) (v : pyval) :
  k ∉ keys u -> remove (u ++ (k, v) :: r) k = u ++ r.
Proof.
  induction u as [ | [k' v'] u IH]; simpl; intros H.
  - rewrite pykey_eqb_refl. reflexivity.
  - apply not_elem_of_cons in H as [Hne H].
    rewrite pykey_eqb_neq by congruence. rewrite IH by exact H. reflexivity.
Qed.

Lemma set_fresh (d : t) (k : pykey) (v : pyval) :
  k ∉ keys d -> set d k v = d ++ [(k, v)].
Proof.
  induction d as [ | [k' v'] d IH]; simpl; intros H; [reflexivity | ].
  apply not_elem_of_cons in H as [Hne H].
  rewrite pykey_eqb_neq by congruence. rewrite IH by exact H. reflexivity.
Qed.
End PyDictFacts.

(** ** C6: key coercion *)

Section KeysToInt.
Import PyDict PyDictFacts.

Lemma keys_to_int_unfold (d : PyDict.t) :
  __keys_to_int d = PyM.for_each keys_to_int_body d d.
Proof. reflexivity. Qed.

Lemma coerce_key_parsed (k : pykey) (i : Z) :
  int_of_key k = Some i -> coerce_key k = KInt i.
Proof. unfold coerce_key. intros ->. reflexivity. Qed.

Lemma coerce_key_unparsed (k : pykey) :
  int_of_key k = None -> coerce_key k = k.
Proof. unfold coerce_key. intros ->. reflexivity. Qed.

Lemma coerce_key_int (i : Z) : coerce_key (KInt i) = KInt i.
Proof. reflexivity. Qed.

Lemma kept_keys (d : PyDict.t) (k : pykey) :
  k ∈ keys (kept d) -> int_of_key k = None /\ k ∈ keys d.
Proof.
  unfold keys, kept. intros H.
  apply list_elem_of_fmap in H as [[k' v] [-> H]].
  apply list_elem_of_filter in H as [Hp H]. split; [exact Hp | ].
  change k' with (fst (k', v)) at 1. apply list_elem_of_fmap_2, H.
Qed.

Lemma moved_keys (d : PyDict.t) (k : pykey) :
  k ∈ keys (moved d) -> k ∈ coerce_key <$> keys d.
Proof.
  unfold keys, moved. intros H.
  apply list_elem_of_fmap in H as [[k1 v1] [-> H]].
  apply list_elem_of_fmap in H as [[k' v] [[= -> ->] H]].
  apply list_elem_of_filter in H as [_ H]. simpl.
  apply list_elem_of_fmap_2. change k' with (fst (k', v)).
  apply list_elem_of_fmap_2, H.
Qed.

Lemma body_unparsed (k : pykey) (v : pyval) (st : PyDict.t) :
  int_of_key k = None -> keys_to_int_body (k, v) st = (st, Ok tt).
Proof.
  intros H. unfold keys_to_int_body, PyM.try_except, PyM.bind. rewrite H. reflexivity.
Qed.

Lemma body_parsed (k : pykey) (v : pyval) (i : Z) (u r : PyDict.t) :
  int_of_key k = Some i ->
  k ∉ keys u -> KInt i ∉ keys (u ++ r) ->
  keys_to_int_body (k, v) (u ++ (k, v) :: r) = ((u ++ r) ++ [(KInt i, v)], Ok tt).
Proof.
  intros H Hk Hi. unfold keys_to_int_body, PyM.try_except, PyM.bind. rewrite H. simpl.
  unfold PyDict.del. rewrite mem_middle. simpl. unfold PyM.modify.
  rewrite remove_middle by exact Hk. rewrite set_fresh by exact Hi. reflexivity.
Qed.

Lemma keys_to_int_loop (todo done : PyDict.t) :
  NoDup (coerce_key <$> keys (done ++ todo)) ->
  PyM.for_each keys_to_int_body todo (kept done ++ todo ++ moved done)
  = (kept (done ++ todo) ++ moved (done ++ todo), Ok tt).
Proof.
  revert done. induction todo as [ | [k v] rest IH]; intros done Hnd.
  - simpl. rewrite !app_nil_r. reflexivity.
  - assert (Hsplit : (coerce_key k ∉ (coerce_key <$> keys done))
                     /\ (coerce_key k ∉ (coerce_key <$> keys rest))).
    { unfold keys in *. rewrite !fmap_app, !fmap_cons in Hnd. simpl in Hnd.
      apply NoDup_app in Hnd as [_ [Hmid Hr]].
      apply NoDup_cons in Hr as [Hr _]. split; [ | exact Hr].
      intros Hin. apply (Hmid _ Hin). apply elem_of_cons. left. reflexivity. }
    destruct Hsplit as [Hdone Hrest].
    replace (done ++ (k, v) :: rest) with ((done ++ [(k, v)]) ++ rest) in *
      by (rewrite <- app_assoc; reflexivity).
    specialize (IH _ Hnd). rewrite for_each_cons.
    change (((k, v) :: rest) ++ moved done) with ((k, v) :: rest ++ moved done).
    destruct (int_of_key k) as [i | ] eqn:Hk.
    + rewrite (body_parsed k v i (kept done) (rest ++ moved done) Hk).
      * rewrite <- IH. apply f_equal. unfold kept, moved.
        rewrite !filter_app, !filter_cons, !filter_nil. simpl.
        rewrite decide_False by (rewrite Hk; discriminate).
        rewrite decide_True by (rewrite Hk; eexists; reflexivity).
        rewrite fmap_app. simpl. rewrite (coerce_key_parsed k i Hk).
        rewrite !app_nil_r, <- !app_assoc. reflexivity.
      * intros Hin. apply kept_keys in Hin as [_ Hin]. apply Hdone.
        apply list_elem_of_fmap_2, Hin.
      * rewrite (coerce_key_parsed k i Hk) in Hdone, Hrest.
        unfold keys. rewrite !fmap_app. rewrite !not_elem_of_app.
        split; [ | split].
        -- intros Hin. apply kept_keys in Hin as [Hnone _]. discriminate Hnone.
        -- intros Hin. apply Hrest. rewrite <- (coerce_key_int i).
           apply list_elem_of_fmap_2, Hin.
        -- intros Hin. apply Hdone. apply moved_keys, Hin.
    + rewrite body_unparsed by exact Hk.
      rewrite <- IH. apply f_equal. unfold kept, moved.
      rewrite !filter_app, !filter_cons, !filter_nil. simpl.
      rewrite decide_True by exact Hk.
      rewrite decide_False by (rewrite Hk; intros [? ?]; discriminate).
      simpl. rewrite !app_nil_r, <- !app_assoc. reflexivity.
Qed.
End KeysToInt.

Section KeysToIntResult.
Import PyDict PyDictFacts.

Lemma keys_to_int_result (d : PyDict.t) :
  NoDup (coerce_key <$> keys d) ->
  __keys_to_int d = (kept d ++ moved d, Ok tt).
Proof.
  intros Hnd. rewrite keys_to_int_unfold.
  pose proof (keys_to_int_loop d [] Hnd) as H. simpl in H.
  rewrite app_nil_r in H. exact H.
Qed.

Lemma coerced_entries (d : PyDict.t) (k' : pykey) (v : pyval) :
  (k', v) ∈ kept d ++ moved d <-> exists k, (k, v) ∈ d /\ coerce_key k = k'.
Proof.
  unfold kept, moved. rewrite elem_of_app, list_elem_of_filter, list_elem_of_fmap.
  split.
  - intros [[Hp Hin] | [[k v'] [[= -> ->] Hin]]].
    + exists k'. split; [exact Hin | apply coerce_key_unparsed, Hp].
    + apply list_elem_of_filter in Hin as [_ Hin]. exists k. split; [exact Hin | reflexivity].
  - intros [k [Hin <-]]. destruct (int_of_key k) as [i | ] eqn:Hk.
    + right. exists (k, v). split; [reflexivity | ].
      apply list_elem_of_filter. split; [simpl; rewrite Hk; eexists; reflexivity | exact Hin].
    + left. rewrite (coerce_key_unparsed k Hk). split; [exact Hk | exact Hin].
Qed.

Lemma coerced_keys_perm (d : PyDict.t) :
  keys (kept d ++ moved d) ≡ₚ coerce_key <$> keys d.
Proof.
  unfold keys, kept, moved. induction d as [ | [k v] d IH]; [reflexivity | ].
  rewrite !filter_cons. simpl.
  destruct (int_of_key k) as [i | ] eqn:Hk.
  - rewrite decide_False by discriminate.
    rewrite decide_True by (eexists; reflexivity).
    rewrite fmap_app in *. simpl.
    rewrite <- Permutation_middle. constructor. exact IH.
  - rewrite decide_True by reflexivity.
    rewrite decide_False by (intros [? ?]; discriminate).
    simpl. rewrite (coerce_key_unparsed k Hk). constructor. exact IH.
Qed.
End KeysToIntResult.

(** Keys that [int()] does not read as the same integer are coerced to
    different keys. *)
Lemma no_collision_NoDup (d : PyDict.t) :
  NoDup (PyDict.keys d) ->
  (forall k1 k2 i, k1 ∈ PyDict.keys d -> k2 ∈ PyDict.keys d ->
     int_of_key k1 = Some i -> int_of_key k2 = Some i -> k1 = k2) ->
  NoDup (coerce_key <$> PyDict.keys d).
Proof.
  intros Hnd Hone. apply NoDup_fmap_2_strong; [ | exact Hnd].
  intros k1 k2 H1 H2. unfold coerce_key.
  destruct (int_of_key k1) as [i1 | ] eqn:E1, (int_of_key k2) as [i2 | ] eqn:E2.
  - intros [= <-]. exact (Hone k1 k2 i1 H1 H2 E1 E2).
  - intros <-. discriminate E2.
  - intros ->. discriminate E1.
  - exact id.
Qed.

(** C6 (amended).  On a record no two keys of which [int()] reads as the
    same integer, key coercion returns, and in the record it leaves every
    key that [int()] reads is replaced by that integer and every other
    key is kept, each with the value it had, nested structures included,
    and there is no other entry.  [int()] reads every key that is entirely
    decimal digits, as the number they write, and no key without a digit.
    [{"1": "a", "foo": "b"}] becomes [{1: "a", "foo": "b"}]. *)
Theorem keys_to_int_coerces :
  (__keys_to_int [(KStr "1", VStr "a"); (KStr "foo", VStr "b")]
   = ([(KStr "foo", VStr "b"); (KInt 1, VStr "a")], Ok tt)
   /\ py_eqb (VDict [(KStr "foo", VStr "b"); (KInt 1, VStr "a")])
             (VDict [(KInt 1, VStr "a"); (KStr "foo", VStr "b")]) = true)
  /\ (forall s, all_digits s = true -> coerce_key (KStr s) = KInt (decimal_value s))
  /\ (forall s, has_digit s = false -> coerce_key (KStr s) = KStr s)
  /\ (forall d : PyDict.t,
        NoDup (PyDict.keys d) ->
        (forall k1 k2 i,
           k1 ∈ PyDict.keys d -> k2 ∈ PyDict.keys d ->
           int_of_key k1 = Some i -> int_of_key k2 = Some i -> k1 = k2) ->
        exists d',
          __keys_to_int d = (d', Ok tt)
          /\ (forall k v, PyDict.get d k = Some v ->
                PyDict.get d' (coerce_key k) = Some v)
          /\ (forall k' v, PyDict.get d' k' = Some v ->
                exists k, PyDict.get d k = Some v /\ coerce_key k = k')
          /\ length d' = length d).
Proof.
  split; [split; reflexivity | split; [ | split]].
  - intros s Hs. unfold coerce_key. simpl.
    rewrite (PyStrFacts.int_of_digits s Hs). reflexivity.
  - intros s Hs. unfold coerce_key. simpl.
    destruct (PyStr.int s) as [z | ] eqn:E; [ | reflexivity].
    rewrite (PyStrFacts.int_has_digit s z E) in Hs. discriminate.
  - intros d Hd Hone. exists (kept d ++ moved d).
    assert (Hnd : NoDup (coerce_key <$> PyDict.keys d))
      by (apply no_collision_NoDup; assumption).
    assert (Hd' : NoDup (PyDict.keys (kept d ++ moved d)))
      by (rewrite coerced_keys_perm; exact Hnd).
    split; [apply keys_to_int_result, Hnd | split; [ | split]].
    + intros k v Hget. apply PyDictFacts.elem_of_get; [exact Hd' | ].
      apply coerced_entries. exists k. split; [ | reflexivity].
      apply PyDictFacts.get_elem_of, Hget.
    + intros k' v Hget. apply PyDictFacts.get_elem_of in Hget.
      apply coerced_entries in Hget as [k [Hin Hk]].
      exists k. split; [ | exact Hk]. apply PyDictFacts.elem_of_get; assumption.
    + pose proof (Permutation_length (coerced_keys_perm d)) as Hlen.
      unfold PyDict.keys in Hlen. rewrite !length_fmap in Hlen. exact Hlen.
Qed.

Lemma keys_to_int_coerces_witness :
  coerce_key (KStr "0042") = KInt 42
  /\ coerce_key (KStr "Monitor.name") = KStr "Monitor.name"
  /\ exists d',
    __keys_to_int [(KStr "2", VDict [(KStr "3", VStr "x")]);
                   (KStr "Monitor.name", VList [VStr "m"]);
                   (KStr " -7 ", VNone)]
    = (d', Ok tt)
    /\ (forall k v,
          PyDict.get [(KStr "2", VDict [(KStr "3", VStr "x")]);
                      (KStr "Monitor.name", VList [VStr "m"]);
                      (KStr " -7 ", VNone)] k = Some v ->
          PyDict.get d' (coerce_key k) = Some v)
    /\ (forall k' v,
          PyDict.get d' k' = Some v ->
          exists k,
            PyDict.get [(KStr "2", VDict [(KStr "3", VStr "x")]);
                        (KStr "Monitor.name", VList [VStr "m"]);
                        (KStr " -7 ", VNone)] k = Some v
            /\ coerce_key k = k')
    /\ length d' = 3%nat.
Proof.
  split; [ | split].
  - apply (proj1 (proj2 keys_to_int_coerces) "0042"). reflexivity.
  - apply (proj1 (proj2 (proj2 keys_to_int_coerces)) "Monitor.name"). reflexivity.
  - apply (proj2 (proj2 (proj2 keys_to_int_coerces))
             [(KStr "2", VDict [(KStr "3", VStr "x")]);
              (KStr "Monitor.name", VList [VStr "m"]);
              (KStr " -7 ", VNone)]).
    + apply NoDup_ListNoDup. vm_compute.
      repeat (constructor; [simpl; intuition discriminate | ]). constructor.
    + intros k1 k2 i H1 H2.
      change (PyDict.keys _)
        with [KStr "2"; KStr "Monitor.name"; KStr " -7 "] in H1, H2.
      rewrite !elem_of_cons, elem_of_nil in H1, H2.
      destruct H1 as [-> | [-> | [-> | []]]], H2 as [-> | [-> | [-> | []]]];
        vm_compute; intros E1 E2; first [reflexivity | congruence].
Defined.

(** C6 as specified does not hold.  The keys ["1"] and ["01"] both read
    as 1, so the coerced record has the single entry [1: "b"] and the
    value ["a"] that the key ["1"] was bound to is gone.  And the keys
    replaced are those [int()] reads, not only the keys that are entirely
    decimal digits: ["1_0"] and [" 7"] are not, and they are replaced by
    10 and 7. *)
Lemma keys_to_int_collision_counterexample :
  (PyDict.get [(KStr "1", VStr "a"); (KStr "01", VStr "b")] (KStr "1") = Some (VStr "a")
   /\ int_of_key (KStr "1") = Some 1
   /\ __keys_to_int [(KStr "1", VStr "a"); (KStr "01", VStr "b")]
      = ([(KInt 1, VStr "b")], Ok tt)
   /\ PyDict.get (fst (__keys_to_int [(KStr "1", VStr "a"); (KStr "01", VStr "b")]))
        (KInt 1) <> Some (VStr "a"))
  /\ (all_digits "1_0" = false
      /\ all_digits " 7" = false
      /\ __keys_to_int [(KStr "1_0", VStr "a"); (KStr " 7", VStr "b")]
         = ([(KInt 10, VStr "a"); (KInt 7, VStr "b")], Ok tt)).
Proof. repeat split. discriminate. Qed.

(** ** C7: the session state machine *)

(** C7.  [init_session] on a handler whose session token is set raises
    GLPIError("Session already initialized."); on a handler whose session
    token is [None], reading the [session_token] property and
    [kill_session()] without a session id raise GLPIError("Request handler
    was not initiated! ...").  In each case the handler is left as it was
    and no request is sent. *)
Theorem session_state_failures (remote : request -> response) (w : world) :
  (__session_token (self w) <> VNone ->
   init_session remote w = (w, Raise (GLPIError "Session already initialized.")))
  /\ (__session_token (self w) = VNone ->
      session_token w
      = (w, Raise (GLPIError not_initiated))
      /\ kill_session remote VNone w
         = (w, Raise (GLPIError not_initiated))).
Proof.
  split.
  - intros Hset. unfold init_session. run_handler.
    destruct w as [h log]. simpl in *.
    destruct (__session_token h); try reflexivity. contradiction.
  - intros Hnone.
    assert (Htok : session_token w
              = (w, Raise (GLPIError not_initiated))).
    { run_handler. destruct w as [h log]. simpl in *. rewrite Hnone. reflexivity. }
    split; [exact Htok | ].
    unfold kill_session. unfold PyM.bind at 1. unfold PyM.bind at 1.
    rewrite Htok. reflexivity.
Qed.

Lemma session_state_failures_witness :
  init_session (fun _ => mkResponse 200 ∅ None "")
    (mkWorld (set_session_token (VStr "83af7e620c83a50a18d3eac2f6ed05a3ca0bea62")
                (__init__ "http://glpi" "app" "user" true)) [])
  = (mkWorld (set_session_token (VStr "83af7e620c83a50a18d3eac2f6ed05a3ca0bea62")
                (__init__ "http://glpi" "app" "user" true)) [],
     Raise (GLPIError "Session already initialized."))
  /\ kill_session (fun _ => mkResponse 200 ∅ None "") VNone
       (mkWorld (__init__ "http://glpi" "app" "user" true) [])
     = (mkWorld (__init__ "http://glpi" "app" "user" true) [],
        Raise (GLPIError not_initiated)).
Proof.
  split.
  - apply (proj1 (session_state_failures _ _)). discriminate.
  - apply (proj2 (session_state_failures _ _)). reflexivity.
Defined.

(** ** C8: errors while the session is terminated *)

Section KillSession.
Variable remote : request -> response.
Variable w : world.
Variable sid : string.

(** The response of the service to [kill_session(sid)]. *)
Local Abbreviation answer := (remote (kill_session_request w sid)).

Lemma kill_session_succeeds :
  status_code answer < 400 ->
  snd (kill_session remote (VStr sid) w) = Ok tt.
Proof.
  intros H. unfold kill_session. run_handler. fold (kill_session_request w sid).
  destruct (400 <=? status_code answer) eqn:E; [lia | reflexivity].
Qed.

Lemma kill_session_other_status :
  400 <= status_code answer -> status_code answer <> 401 ->
  snd (kill_session remote (VStr sid) w) = Raise (GLPIRequestError answer).
Proof.
  intros H1 H2. unfold kill_session. run_handler. fold (kill_session_request w sid).
  destruct (400 <=? status_code answer) eqn:E; [ | lia]. simpl.
  destruct (status_code answer =? 401) eqn:E'; [lia | reflexivity].
Qed.

Lemma kill_session_unparseable :
  status_code answer = 401 -> json answer = None ->
  snd (kill_session remote (VStr sid) w) = Raise (GLPIRequestError answer).
Proof.
  intros H1 H2. unfold kill_session. run_handler. fold (kill_session_request w sid).
  rewrite H1. simpl. rewrite H1, H2. reflexivity.
Qed.

Lemma kill_session_expired (rest : list pyval) :
  status_code answer = 401 ->
  json answer = Some (VList (VStr "ERROR_SESSION_TOKEN_INVALID" :: rest)) ->
  snd (kill_session remote (VStr sid) w) = Raise (GLPIError "Session expired").
Proof.
  intros H1 H2. unfold kill_session. run_handler. fold (kill_session_request w sid).
  rewrite H1. simpl. rewrite H1, H2. reflexivity.
Qed.

Lemma kill_session_other_message (message : list pyval) :
  status_code answer = 401 ->
  json answer = Some (VList message) ->
  match message with
  | first :: _ => py_eqb first (VStr "ERROR_SESSION_TOKEN_INVALID") = false
  | [] => True
  end ->
  snd (kill_session remote (VStr sid) w) = Raise (GLPIRequestError answer).
Proof.
  intros H1 H2 H3. unfold kill_session. run_handler. fold (kill_session_request w sid).
  rewrite H1. simpl. rewrite H1, H2.
  destruct message as [ | first rest]; [reflexivity | ].
  simpl. rewrite H3. reflexivity.
Qed.
End KillSession.

(** C8 (the code departs from the specification).  When the service answers
    [killSession] with status 401 and a JSON body that is an object, the
    lookup [message[0]] raises KeyError; when the body is [null],
    [len(message)] raises TypeError.  In neither case is the original
    GLPIRequestError the exception that leaves [kill_session]. *)
Theorem kill_session_non_list_body (w : world) (sid : string) :
  let object_body :=
    mkResponse 401 ∅ (Some (VDict [(KStr "error", VStr "unauthorized")])) "" in
  let null_body := mkResponse 401 ∅ (Some VNone) "null" in
  snd (kill_session (fun _ => object_body) (VStr sid) w) = Raise KeyError
  /\ snd (kill_session (fun _ => null_body) (VStr sid) w) = Raise TypeError
  /\ snd (kill_session (fun _ => object_body) (VStr sid) w)
     <> Raise (GLPIRequestError object_body)
  /\ snd (kill_session (fun _ => null_body) (VStr sid) w)
     <> Raise (GLPIRequestError null_body).
Proof.
  intros object_body null_body.
  assert (H1 : snd (kill_session (fun _ => object_body) (VStr sid) w) = Raise KeyError)
    by reflexivity.
  assert (H2 : snd (kill_session (fun _ => null_body) (VStr sid) w) = Raise TypeError)
    by reflexivity.
  rewrite H1, H2. repeat split; discriminate.
Qed.

(** ** C9: the profile picture *)

(** C9 (amended).  With a session token set,
    [download_user_profile_picture] does not raise the transport error on
    any status.  A 204 answer is recognised and reported by raising
    GLPIError("User doesn't have a profile picture"): the call raises and
    returns nothing.  For every other status, the error statuses
    included, the raw content of the response is returned. *)
Theorem download_user_profile_picture_status
    (remote : request -> response) (w : world) (id_ : Z) :
  __session_token (self w) <> VNone ->
  let r := remote (mkRequest "get"
                     (_get_method_url (self w) ("User/" +:+ str_of_Z id_ +:+ "/Picture"))
                     (_header_dict (self w)
                        (<[ "Session-Token" := __session_token (self w) ]> ∅))
                     (verify_tls (self w)) None None) in
  (status_code r = 204 ->
   snd (download_user_profile_picture remote id_ w)
   = Raise (GLPIError "User doesn't have a profile picture"))
  /\ (status_code r <> 204 ->
      snd (download_user_profile_picture remote id_ w) = Ok (content r)).
Proof.
  intros Htok r. unfold download_user_profile_picture. run_handler.
  destruct (__session_token (self w)) eqn:E; try contradiction;
    cbn [self sent fst snd andb]; fold r;
    (split; intros Hs;
     [rewrite Hs; reflexivity
     | destruct (status_code r =? 204) eqn:E'; [lia | reflexivity]]).
Qed.

Lemma download_user_profile_picture_status_witness :
  snd (download_user_profile_picture
         (fun _ => mkResponse 204 ∅ None "") 4
         (mkWorld (set_session_token (VStr "83af7e62")
                     (__init__ "http://glpi" "app" "user" true)) []))
  = Raise (GLPIError "User doesn't have a profile picture")
  /\ snd (download_user_profile_picture
            (fun _ => mkResponse 200 ∅ None "JFIF") 4
            (mkWorld (set_session_token (VStr "83af7e62")
                        (__init__ "http://glpi" "app" "user" true)) []))
     = Ok "JFIF".
Proof.
  split.
  - apply (download_user_profile_picture_status (fun _ => mkResponse 204 ∅ None ""));
      [discriminate | reflexivity].
  - apply (download_user_profile_picture_status (fun _ => mkResponse 200 ∅ None "JFIF"));
      [discriminate | discriminate].
Defined.

(** C9 as specified does not hold.  A 204 answer is not treated as a
    signal rather than an error: the call raises GLPIError, the base class
    of the errors of the library, and returns no value. *)
Lemma download_user_profile_picture_204_counterexample :
  snd (download_user_profile_picture
         (fun _ => mkResponse 204 ∅ None "") 4
         (mkWorld (set_session_token (VStr "83af7e62")
                     (__init__ "http://glpi" "app" "user" true)) []))
  = Raise (GLPIError "User doesn't have a profile picture")
  /\ (forall picture,
        snd (download_user_profile_picture
               (fun _ => mkResponse 204 ∅ None "") 4
               (mkWorld (set_session_token (VStr "83af7e62")
                           (__init__ "http://glpi" "app" "user" true)) []))
        <> Ok picture).
Proof. split; [reflexivity | intros picture; discriminate]. Qed.

(** ** C10: the body of [delete_items] *)

Lemma last_cons_default {A} (l : list A) (x d : A) :
  List.last (x :: l) d = List.last l x.
Proof.
  revert x d. induction l as [ | y l IH]; intros x d; [reflexivity | ].
  change (List.last (x :: y :: l) d) with (List.last (y :: l) d).
  rewrite (IH y d), (IH y x). reflexivity.
Qed.

Lemma comprehension_single_key (ids : list pyval) (first : pyval) :
  fold_left (fun d id_ => PyDict.set d (KStr "id") id_) ids [(KStr "id", first)]
  = [(KStr "id", List.last ids first)].
Proof.
  revert first. induction ids as [ | x ids IH]; intros first; [reflexivity | ].
  rewrite last_cons_default. apply IH.
Qed.

Lemma delete_items_input (ids : list pyval) (purge log : bool) :
  ids <> [] ->
  PyDict.get (delete_items_data ids purge log) (KStr "input")
  = Some (VDict [(KStr "id", List.last ids VNone)]).
Proof.
  intros Hne. destruct ids as [ | x ids]; [contradiction | ].
  unfold delete_items_data. rewrite last_cons_default.
  change (fold_left _ (x :: ids) [])
    with (fold_left (fun d id_ => PyDict.set d (KStr "id") id_) ids [(KStr "id", x)]).
  rewrite comprehension_single_key.
  destruct purge, log; reflexivity.
Qed.

(** C10.  For a non-empty list of ids, the ["input"] entry of the body
    [delete_items] builds is the mapping with the single key ["id"], bound
    to the last id of the list; with a session token set, exactly one
    request is sent and it carries that body, so one id at most reaches
    the service whatever the number of ids given. *)
Theorem delete_items_sends_last_id
    (remote : request -> response) (w : world) (item_type : string)
    (ids : list pyval) (purge log : bool) :
  ids <> [] ->
  __session_token (self w) <> VNone ->
  PyDict.get (delete_items_data ids purge log) (KStr "input")
  = Some (VDict [(KStr "id", List.last ids VNone)])
  /\ exists req,
       sent (fst (delete_items remote item_type ids purge log w)) = sent w ++ [req]
       /\ method req = "delete"
       /\ data req = Some (VDict (delete_items_data ids purge log)).
Proof.
  intros Hne Htok. split; [apply delete_items_input, Hne | ].
  exists (mkRequest "delete" (_get_method_url (self w) item_type)
            (_header_dict (self w) (<[ "Session-Token" := __session_token (self w) ]> ∅))
            (verify_tls (self w)) None (Some (VDict (delete_items_data ids purge log)))).
  split; [ | split; reflexivity].
  unfold delete_items. run_handler.
  destruct (__session_token (self w)) eqn:E; try contradiction;
    cbn [self sent fst snd andb];
    match goal with
    | |- context [if ?c then _ else _] => destruct c
    end; cbn [self sent fst snd];
    try reflexivity;
    match goal with
    | |- context [json ?r] => destruct (json r)
    end; reflexivity.
Qed.

Lemma delete_items_sends_last_id_witness :
  PyDict.get (delete_items_data [VInt 3; VInt 8; VInt 5] false true) (KStr "input")
  = Some (VDict [(KStr "id", VInt 5)])
  /\ exists req,
       sent (fst (delete_items (fun _ => mkResponse 200 ∅ (Some (VList [])) "[]")
                    "Software" [VInt 3; VInt 8; VInt 5] false true
                    (mkWorld (set_session_token (VStr "83af7e62")
                                (__init__ "http://glpi" "app" "user" true)) [])))
       = [] ++ [req]
       /\ method req = "delete"
       /\ data req = Some (VDict (delete_items_data [VInt 3; VInt 8; VInt 5] false true)).
Proof.
  apply (delete_items_sends_last_id (fun _ => mkResponse 200 ∅ (Some (VList [])) "[]")
           (mkWorld (set_session_token (VStr "83af7e62")
                       (__init__ "http://glpi" "app" "user" true)) [])
           "Software" [VInt 3; VInt 8; VInt 5] false true);
    discriminate.
Defined.

(** * Further properties of the handler *)

(** ** The two request helpers *)

Section Helpers.
Variable remote : request -> response.

Lemma do_get_run (action : string) (header : gmap string pyval)
    (parameters : option (list param)) (data : option pyval) (w : world) :
  _do_get remote action header parameters data w
  = (mkWorld (set_response_header
                (headers (remote (do_get_request (self w) action header parameters data)))
                (set_session true (self w)))
       (sent w ++ [do_get_request (self w) action header parameters data]),
     if 400 <=? status_code (remote (do_get_request (self w) action header parameters data))
     then Raise (GLPIRequestError
                   (remote (do_get_request (self w) action header parameters data)))
     else Ok (remote (do_get_request (self w) action header parameters data))).
Proof.
  run_handler. fold (do_get_request (self w) action header parameters data).
  destruct (400 <=? status_code _); reflexivity.
Qed.

Lemma session_token_run (w : world) :
  session_token w
  = (w, match __session_token (self w) with
        | VNone => Raise (GLPIError not_initiated)
        | tok => Ok tok
        end).
Proof. run_handler. destruct (__session_token (self w)); reflexivity. Qed.

Lemma do_method_no_session (method api_method_url : string) (data : option pyval)
    (headers : gmap string pyval) (on_error_raise : bool) (w : world) :
  __session_token (self w) = VNone ->
  _do_method remote method api_method_url data headers on_error_raise w
  = (w, Raise (GLPIError not_initiated)).
Proof.
  intros H. unfold _do_method. unfold PyM.bind at 1.
  rewrite session_token_run, H. reflexivity.
Qed.

Lemma do_method_run (method api_method_url : string) (data : option pyval)
    (headers : gmap string pyval) (on_error_raise : bool) (w : world) :
  __session_token (self w) <> VNone ->
  _do_method remote method api_method_url data headers on_error_raise w
  = (mkWorld (set_session true (self w))
       (sent w ++ [do_method_request (self w) method api_method_url data headers]),
     if on_error_raise
        && (400 <=? status_code
              (remote (do_method_request (self w) method api_method_url data headers)))
     then Raise (GLPIRequestError
                   (remote (do_method_request (self w) method api_method_url data headers)))
     else Ok (remote (do_method_request (self w) method api_method_url data headers))).
Proof.
  intros H. unfold _do_method. unfold PyM.bind at 1. rewrite session_token_run.
  unfold do_method_request.
  destruct (__session_token (self w)) eqn:E; try contradiction;
    run_handler;
    match goal with
    | |- context [if ?c then _ else _] => destruct c
    end; reflexivity.
Qed.

Lemma get_json_no_session (method : string) (parameters : option (list param))
    (data : option pyval) (w : world) :
  __session_token (self w) = VNone ->
  _get_json remote method parameters data w = (w, Raise (GLPIError not_initiated)).
Proof.
  intros H. unfold _get_json. unfold PyM.bind at 1.
  rewrite session_token_run, H. reflexivity.
Qed.

Lemma get_json_run (method : string) (parameters : option (list param))
    (data : option pyval) (w : world) :
  __session_token (self w) <> VNone ->
  _get_json remote method parameters data w
  = (mkWorld (set_response_header
                (headers (remote (get_json_request (self w) method parameters data)))
                (set_session true (self w)))
       (sent w ++ [get_json_request (self w) method parameters data]),
     if 400 <=? status_code (remote (get_json_request (self w) method parameters data))
     then Raise (GLPIRequestError
                   (remote (get_json_request (self w) method parameters data)))
     else match json (remote (get_json_request (self w) method parameters data)) with
          | Some v => Ok v
          | None => Raise (GLPIRequestError
                             (remote (get_json_request (self w) method parameters data)))
          end).
Proof.
  intros H. unfold _get_json. unfold PyM.bind at 1. rewrite session_token_run.
  unfold get_json_request.
  destruct (__session_token (self w)) eqn:E; try contradiction;
    unfold PyM.bind at 1; rewrite do_get_run;
    match goal with
    | |- context [if ?c then _ else _] => destruct c
    end; try reflexivity;
    unfold PyM.try_except, response_json;
    match goal with
    | |- context [json ?r] => destruct (json r)
    end; reflexivity.
Qed.
End Helpers.

(** ** How the effects of the operations compose *)

Section Effects.
Context {A B : Type}.

Lemma bind_leaves_world (c : HM A) (k : A -> HM B) :
  leaves_world c -> (forall a, leaves_world (k a)) -> leaves_world (PyM.bind c k).
Proof.
  intros Hc Hk w. unfold PyM.bind. specialize (Hc w).
  destruct (c w) as [w' [a | e]]; simpl in *; subst; [apply Hk | reflexivity].
Qed.

Lemma bind_keeps_sent (c : HM A) (k : A -> HM B) :
  keeps_sent c -> (forall a, keeps_sent (k a)) -> keeps_sent (PyM.bind c k).
Proof.
  intros Hc Hk w. unfold PyM.bind. specialize (Hc w).
  destruct (c w) as [w' [a | e]]; simpl in *; [ | exact Hc].
  rewrite <- Hc. apply Hk.
Qed.

Lemma bind_sends_then_keeps (c : HM A) (k : A -> HM B) :
  sends_at_most_one c -> (forall a, keeps_sent (k a)) ->
  sends_at_most_one (PyM.bind c k).
Proof.
  intros Hc Hk w. unfold PyM.bind. specialize (Hc w).
  destruct (c w) as [w' [a | e]]; simpl in *; [ | exact Hc].
  rewrite (Hk a w'). exact Hc.
Qed.

Lemma bind_keeps_then_sends (c : HM A) (k : A -> HM B) :
  keeps_sent c -> (forall a, sends_at_most_one (k a)) ->
  sends_at_most_one (PyM.bind c k).
Proof.
  intros Hc Hk w. unfold PyM.bind. specialize (Hc w).
  destruct (c w) as [w' [a | e]]; simpl in *; [ | left; exact Hc].
  rewrite <- Hc. apply Hk.
Qed.

Lemma bind_keeps_response_header (c : HM A) (k : A -> HM B) :
  keeps_response_header c -> (forall a, keeps_response_header (k a)) ->
  keeps_response_header (PyM.bind c k).
Proof.
  intros Hc Hk w. unfold PyM.bind. specialize (Hc w).
  destruct (c w) as [w' [a | e]]; simpl in *; [ | exact Hc].
  rewrite <- Hc. apply Hk.
Qed.

Lemma bind_needs_session (c : HM A) (k : A -> HM B) :
  needs_session c -> needs_session (PyM.bind c k).
Proof. intros Hc w Hw. unfold PyM.bind. rewrite (Hc w Hw). reflexivity. Qed.

Lemma leaves_then_needs_session (c : HM A) (k : A -> HM B) :
  (forall w, exists a, c w = (w, Ok a)) -> (forall a, needs_session (k a)) ->
  needs_session (PyM.bind c k).
Proof.
  intros Hc Hk w Hw. unfold PyM.bind. destruct (Hc w) as [a ->]. apply Hk, Hw.
Qed.
End Effects.

Lemma ret_leaves_world {A} (a : A) : leaves_world (PyM.ret (St := world) (E := pyexn) a).
Proof. intros w. reflexivity. Qed.

Lemma raise_leaves_world {A} (e : pyexn) :
  leaves_world (PyM.raise (St := world) (A := A) e).
Proof. intros w. reflexivity. Qed.

Lemma lift_leaves_world {A} (r : result pyexn A) : leaves_world (lift r).
Proof. intros w. destruct r; reflexivity. Qed.

Lemma response_json_leaves_world (r : response) : leaves_world (response_json r).
Proof. intros w. unfold response_json. destruct (json r); reflexivity. Qed.

Lemma run_local_leaves_world (c : PyM.M (list param) pyexn unit) (init : list param) :
  leaves_world (run_local c init).
Proof. intros w. unfold run_local. destruct (c init) as [ps [[] | e]]; reflexivity. Qed.

Lemma leaves_world_keeps_header {A} (op : HM A) :
  leaves_world op -> keeps_response_header op.
Proof. intros H w. rewrite H. reflexivity. Qed.

Lemma leaves_world_keeps_sent {A} (op : HM A) :
  leaves_world op -> keeps_sent op.
Proof. intros H w. rewrite H. reflexivity. Qed.

Lemma keeps_sent_sends_nothing {A} (op : HM A) :
  keeps_sent op -> sends_at_most_one op.
Proof. intros H w. left. apply H. Qed.

Lemma update_self_keeps_sent (f : RequestHandler -> RequestHandler) :
  keeps_sent (update_self f).
Proof. intros w. reflexivity. Qed.

Lemma read_self_leaves_world {A} (f : RequestHandler -> A) : leaves_world (read_self f).
Proof. intros w. reflexivity. Qed.

Lemma session_token_leaves_world : leaves_world session_token.
Proof. intros w. rewrite session_token_run. reflexivity. Qed.

Lemma try_except_sends {A} (c : HM A) (handler : pyexn -> option (HM A)) :
  sends_at_most_one c ->
  (forall e h, handler e = Some h -> keeps_sent h) ->
  sends_at_most_one (PyM.try_except c handler).
Proof.
  intros Hc Hh w. unfold PyM.try_except. specialize (Hc w).
  destruct (c w) as [w' [a | e]]; simpl in *; [exact Hc | ].
  destruct (handler e) as [h | ] eqn:E; [ | exact Hc].
  rewrite (Hh e h E w'). exact Hc.
Qed.

Lemma try_except_leaves_world {A} (c : HM A) (handler : pyexn -> option (HM A)) :
  leaves_world c ->
  (forall e h, handler e = Some h -> leaves_world h) ->
  leaves_world (PyM.try_except c handler).
Proof.
  intros Hc Hh w. unfold PyM.try_except. specialize (Hc w).
  destruct (c w) as [w' [a | e]]; simpl in *; subst; [reflexivity | ].
  destruct (handler e) as [h | ] eqn:E; [apply (Hh e h E) | reflexivity].
Qed.

Lemma token_cases (v : pyval) : v = VNone \/ v <> VNone.
Proof. destruct v; [left; reflexivity | right; discriminate ..]. Qed.

Create HintDb handler.
#[local] Hint Resolve ret_leaves_world raise_leaves_world lift_leaves_world
  response_json_leaves_world run_local_leaves_world : handler.

Section HelperEffects.
Variable remote : request -> response.

Lemma do_get_sends_one (action : string) (header : gmap string pyval)
    (parameters : option (list param)) (data : option pyval) :
  sends_at_most_one (_do_get remote action header parameters data).
Proof. intros w. right. rewrite do_get_run. eexists. reflexivity. Qed.

Lemma do_method_sends_one (method api_method_url : string) (data : option pyval)
    (headers : gmap string pyval) (on_error_raise : bool) :
  sends_at_most_one (_do_method remote method api_method_url data headers on_error_raise).
Proof.
  intros w. destruct (token_cases (__session_token (self w))) as [H | H].
  - left. rewrite do_method_no_session by exact H. reflexivity.
  - right. rewrite do_method_run by exact H. eexists. reflexivity.
Qed.

Lemma get_json_sends_one (method : string) (parameters : option (list param))
    (data : option pyval) :
  sends_at_most_one (_get_json remote method parameters data).
Proof.
  intros w. destruct (token_cases (__session_token (self w))) as [H | H].
  - left. rewrite get_json_no_session by exact H. reflexivity.
  - right. rewrite get_json_run by exact H. eexists. reflexivity.
Qed.

Lemma do_method_keeps_header (method api_method_url : string) (data : option pyval)
    (headers : gmap string pyval) (on_error_raise : bool) :
  keeps_response_header
    (_do_method remote method api_method_url data headers on_error_raise).
Proof.
  intros w. destruct (token_cases (__session_token (self w))) as [H | H].
  - rewrite do_method_no_session by exact H. reflexivity.
  - rewrite do_method_run by exact H. reflexivity.
Qed.
End HelperEffects.

(** Close a goal [leaves_world k] for a continuation that only returns or
    raises. *)
Ltac pure_tail :=
  let w := fresh "w" in
  intros w;
  cbv beta iota zeta delta
    [PyM.bind PyM.ret PyM.raise PyM.try_except lift response_json];
  repeat match goal with
         | |- context [match ?x with _ => _ end] =>
             lazymatch x with
             | context [match _ with _ => _ end] => fail
             | _ => destruct x
             end
         end;
  reflexivity.

Section OneRequest.
Variable remote : request -> response.

Lemma init_session_sends_one : sends_at_most_one (init_session remote).
Proof.
  unfold init_session. apply bind_keeps_then_sends.
  { apply leaves_world_keeps_sent, read_self_leaves_world. }
  intros tok.
  assert (Hraise : sends_at_most_one
            (PyM.raise (St := world) (A := unit)
               (GLPIError "Session already initialized.")))
    by (apply keeps_sent_sends_nothing, leaves_world_keeps_sent, raise_leaves_world).
  destruct tok; try exact Hraise.
  apply bind_keeps_then_sends.
  { apply leaves_world_keeps_sent, read_self_leaves_world. }
  intros h. apply bind_sends_then_keeps; [apply do_get_sends_one | ].
  intros r. apply bind_keeps_sent.
  { apply leaves_world_keeps_sent, response_json_leaves_world. }
  intros body. apply bind_keeps_sent.
  { apply leaves_world_keeps_sent, lift_leaves_world. }
  intros tok. apply update_self_keeps_sent.
Qed.

Lemma kill_session_sends_one (session_id : pyval) :
  sends_at_most_one (kill_session remote session_id).
Proof.
  unfold kill_session. apply bind_keeps_then_sends.
  - destruct session_id;
      try (apply leaves_world_keeps_sent, ret_leaves_world).
    apply bind_keeps_sent.
    { apply leaves_world_keeps_sent, session_token_leaves_world. }
    intros tok.
    assert (Hset : keeps_sent
              (tok' <- session_token ;;
               update_self (set_session_token VNone) ;;; PyM.ret tok')).
    { apply bind_keeps_sent.
      { apply leaves_world_keeps_sent, session_token_leaves_world. }
      intros tok'. apply bind_keeps_sent; [apply update_self_keeps_sent | ].
      intros _. apply leaves_world_keeps_sent, ret_leaves_world. }
    destruct tok; try exact Hset.
    apply leaves_world_keeps_sent, raise_leaves_world.
  - intros sid. apply try_except_sends.
    + apply bind_sends_then_keeps; [apply do_get_sends_one | ].
      intros _. apply leaves_world_keeps_sent, ret_leaves_world.
    + intros e h He. apply leaves_world_keeps_sent.
      destruct e; try discriminate He. injection He as <-. pure_tail.
Qed.

Lemma delete_items_sends_one (item_type : string) (ids : list pyval) (purge log : bool) :
  sends_at_most_one (delete_items remote item_type ids purge log).
Proof.
  unfold delete_items. apply bind_sends_then_keeps; [apply do_method_sends_one | ].
  intros r. apply leaves_world_keeps_sent, response_json_leaves_world.
Qed.

Lemma add_items_sends_one (item_type : string) (data : pyval) :
  sends_at_most_one (add_items remote item_type data).
Proof.
  unfold add_items, _do_post.
  apply bind_sends_then_keeps; [apply do_method_sends_one | ].
  intros r. apply leaves_world_keeps_sent, response_json_leaves_world.
Qed.

Lemma update_items_sends_one (item_type : string) (data : pyval) :
  sends_at_most_one (update_items remote item_type data).
Proof.
  unfold update_items. apply bind_sends_then_keeps; [apply do_method_sends_one | ].
  intros r. apply leaves_world_keeps_sent, response_json_leaves_world.
Qed.

Lemma change_active_profile_sends_one (profile_id : pyval) :
  sends_at_most_one (change_active_profile remote profile_id).
Proof.
  unfold change_active_profile, _do_post.
  apply bind_sends_then_keeps; [apply do_method_sends_one | ].
  intros r. apply leaves_world_keeps_sent. pure_tail.
Qed.

Lemma download_document_sends_one (id_ : Z) :
  sends_at_most_one (download_document remote id_).
Proof.
  unfold download_document. apply bind_sends_then_keeps; [apply do_method_sends_one | ].
  intros r. apply leaves_world_keeps_sent, ret_leaves_world.
Qed.

Lemma download_user_profile_picture_sends_one (id_ : Z) :
  sends_at_most_one (download_user_profile_picture remote id_).
Proof.
  unfold download_user_profile_picture.
  apply bind_sends_then_keeps; [apply do_method_sends_one | ].
  intros r. apply leaves_world_keeps_sent. pure_tail.
Qed.

Lemma get_json_member_sends_one (method : string) (parameters : option (list param))
    (key : string) :
  sends_at_most_one
    (j <- _get_json remote method parameters None ;; lift (py_getitem j (KStr key))).
Proof.
  apply bind_sends_then_keeps; [apply get_json_sends_one | ].
  intros j. apply leaves_world_keeps_sent, lift_leaves_world.
Qed.

Lemma get_many_items_sends_one (item_type : string)
    (expand_dropdowns get_hateoas only_id : pyval) (range_ : option (list Z))
    (sort_by order : pyval) (filter_by : option PyDict.t)
    (is_deleted add_key_names : pyval) :
  sends_at_most_one
    (get_many_items remote item_type expand_dropdowns get_hateoas only_id range_
       sort_by order filter_by is_deleted add_key_names).
Proof.
  unfold get_many_items. cbv zeta. apply bind_keeps_then_sends.
  { apply leaves_world_keeps_sent, lift_leaves_world. }
  intros ps. apply bind_keeps_then_sends.
  { apply leaves_world_keeps_sent, run_local_leaves_world. }
  intros ps'. apply get_json_sends_one.
Qed.

Lemma get_sub_items_sends_one (item_type : string) (item_id : Z) (sub_item_type : string)
    (expand_dropdowns get_hateoas only_id : pyval) (range_ : option (list Z))
    (sort_by order add_key_names : pyval) :
  sends_at_most_one
    (get_sub_items remote item_type item_id sub_item_type expand_dropdowns get_hateoas
       only_id range_ sort_by order add_key_names).
Proof.
  unfold get_sub_items. cbv zeta. apply bind_keeps_then_sends.
  { apply leaves_world_keeps_sent, lift_leaves_world. }
  intros ps. apply get_json_sends_one.
Qed.

Lemma search_items_sends_one (item_type : string) (filters sort_by_id order : pyval)
    (range_ : option (list Z))
    (force_display raw_data with_indexes uid_cols give_items : pyval) :
  sends_at_most_one
    (search_items remote item_type filters sort_by_id order range_ force_display
       raw_data with_indexes uid_cols give_items).
Proof.
  unfold search_items. cbv zeta. apply bind_keeps_then_sends.
  { apply leaves_world_keeps_sent, lift_leaves_world. }
  intros ps. apply bind_keeps_then_sends.
  { apply leaves_world_keeps_sent, run_local_leaves_world. }
  intros ps'. apply bind_sends_then_keeps; [apply get_json_sends_one | ].
  intros j. apply leaves_world_keeps_sent, lift_leaves_world.
Qed.
End OneRequest.


(** ** Operations that need a session *)

Lemma builder_total (sig : list parameter) (f_locals : gmap string pyval)
    (rename : gmap string string) :
  Forall (fun p => is_Some (f_locals !! name p)) sig ->
  exists out, get_request_parameters sig f_locals rename = Ok out.
Proof.
  intros Hsig. unfold get_request_parameters.
  destruct (builder_appends_only sig f_locals rename) as [out [r Hrun]].
  rewrite (Hrun []). simpl.
  enough (Hr : r = Ok tt) by (rewrite Hr; eexists; reflexivity).
  specialize (Hrun []). simpl in Hrun.
  unfold __get_request_parameters in Hrun.
  revert out r Hrun. generalize (@nil param) as ps.
  induction Hsig as [ | p sig [v Hv] _ IH]; intros ps out r Hrun.
  - simpl in Hrun. unfold PyM.ret in Hrun. congruence.
  - rewrite for_each_cons in Hrun. unfold PyM.bind at 1 in Hrun.
    rewrite Hv in Hrun. unfold PyM.ret at 1 in Hrun.
    destruct (default p) as [d | ].
    + destruct (py_ne v d).
      * destruct v;
          try (unfold append_param, PyM.modify in Hrun; eapply IH; exact Hrun);
          rewrite for_each_append_param in Hrun; eapply IH; exact Hrun.
      * unfold PyM.ret in Hrun. eapply IH; exact Hrun.
    + unfold PyM.ret in Hrun. eapply IH; exact Hrun.
Qed.

Lemma get_present (d : PyDict.t) (k : pykey) :
  k ∈ PyDict.keys d -> exists v, PyDict.get d k = Some v.
Proof.
  induction d as [ | [k' v'] d IH]; simpl; intros H.
  - apply elem_of_nil in H. contradiction.
  - destruct (pykey_eqb k' k) eqn:E; [eexists; reflexivity | ].
    apply elem_of_cons in H as [-> | H]; [ | apply IH, H].
    rewrite PyDictFacts.pykey_eqb_refl in E. discriminate.
Qed.

(** The loop over [filter_by] reads every key it iterates over, so it
    appends one pair per key and returns. *)
Lemma append_search_text_run (d : PyDict.t) (ps : list param) :
  append_search_text (Some d) ps
  = (ps ++ map (fun name =>
                  ("searchText[" +:+ format_key name +:+ "]",
                   match PyDict.get d name with Some v => v | None => VNone end))
             (PyDict.keys d),
     Ok tt).
Proof.
  unfold append_search_text.
  assert (Hsub : forall k, k ∈ PyDict.keys d -> k ∈ PyDict.keys d) by auto.
  revert ps Hsub. generalize (PyDict.keys d) at 1 3 4 as ks.
  induction ks as [ | k ks IH]; intros ps Hsub.
  - simpl. rewrite app_nil_r. reflexivity.
  - rewrite for_each_cons.
    destruct (get_present d k) as [v Hv]; [apply Hsub, elem_of_cons; left; reflexivity | ].
    rewrite Hv. unfold append_param, PyM.modify. rewrite IH.
    + simpl. rewrite Hv, <- app_assoc. reflexivity.
    + intros k' Hk'. apply Hsub, elem_of_cons. right. exact Hk'.
Qed.

Lemma run_local_search_text (filter_by : option PyDict.t) (ps : list param) (w : world) :
  exists ps', run_local (append_search_text filter_by) ps w = (w, Ok ps').
Proof.
  unfold run_local. destruct filter_by as [d | ].
  - rewrite append_search_text_run. eexists. reflexivity.
  - eexists. reflexivity.
Qed.

Section NeedsSession.
Variable remote : request -> response.

Lemma do_method_needs_session (method api_method_url : string) (data : option pyval)
    (headers : gmap string pyval) (on_error_raise : bool) :
  needs_session (_do_method remote method api_method_url data headers on_error_raise).
Proof. intros w H. apply do_method_no_session, H. Qed.

Lemma get_json_needs_session (method : string) (parameters : option (list param))
    (data : option pyval) :
  needs_session (_get_json remote method parameters data).
Proof. intros w H. apply get_json_no_session, H. Qed.

Lemma kill_session_needs_session : needs_session (kill_session remote VNone).
Proof.
  intros w H. unfold kill_session. unfold PyM.bind at 1. unfold PyM.bind at 1.
  rewrite session_token_run, H. reflexivity.
Qed.

Lemma get_many_items_needs_session (item_type : string)
    (expand_dropdowns get_hateoas only_id : pyval) (range_ : option (list Z))
    (sort_by order : pyval) (filter_by : option PyDict.t)
    (is_deleted add_key_names : pyval) :
  needs_session
    (get_many_items remote item_type expand_dropdowns get_hateoas only_id range_
       sort_by order filter_by is_deleted add_key_names).
Proof.
  unfold get_many_items. cbv zeta. apply leaves_then_needs_session.
  - intros w.
    match goal with
    | |- context [get_request_parameters ?s ?f ?r] =>
        destruct (builder_total s f r) as [out ->]
    end; [ | eexists; reflexivity].
    unfold get_many_items_sig. repeat constructor; eexists; reflexivity.
  - intros ps. apply leaves_then_needs_session.
    + intros w. apply run_local_search_text.
    + intros ps'. apply get_json_needs_session.
Qed.

Lemma get_sub_items_needs_session (item_type : string) (item_id : Z)
    (sub_item_type : string) (expand_dropdowns get_hateoas only_id : pyval)
    (range_ : option (list Z)) (sort_by order add_key_names : pyval) :
  needs_session
    (get_sub_items remote item_type item_id sub_item_type expand_dropdowns get_hateoas
       only_id range_ sort_by order add_key_names).
Proof.
  unfold get_sub_items. cbv zeta. apply leaves_then_needs_session.
  - intros w.
    match goal with
    | |- context [get_request_parameters ?s ?f ?r] =>
        destruct (builder_total s f r) as [out ->]
    end; [ | eexists; reflexivity].
    unfold get_sub_items_sig. repeat constructor; eexists; reflexivity.
  - intros ps. apply get_json_needs_session.
Qed.
End NeedsSession.

(** X2.  Without a session token, every operation other than
    [init_session], [kill_session] with an explicit id and [search_items]
    raises the GLPIError of the [session_token] property, leaves the
    handler exactly as it was and sends nothing. *)
Theorem operations_need_session (remote : request -> response) :
  needs_session (kill_session remote VNone)
  /\ needs_session (get_my_profiles remote)
  /\ needs_session (get_active_profile remote)
  /\ (forall profile_id, needs_session (change_active_profile remote profile_id))
  /\ (forall recursive, needs_session (get_my_entities remote recursive))
  /\ needs_session (get_active_entities remote)
  /\ needs_session (get_full_session remote)
  /\ needs_session (get_glpi_config remote)
  /\ (forall item_type expand_dropdowns get_hateoas only_id range_ sort_by order
        filter_by is_deleted add_key_names,
        needs_session
          (get_many_items remote item_type expand_dropdowns get_hateoas only_id range_
             sort_by order filter_by is_deleted add_key_names))
  /\ (forall item_type item_id sub_item_type expand_dropdowns get_hateoas only_id
        range_ sort_by order add_key_names,
        needs_session
          (get_sub_items remote item_type item_id sub_item_type expand_dropdowns
             get_hateoas only_id range_ sort_by order add_key_names))
  /\ (forall item_type data, needs_session (add_items remote item_type data))
  /\ (forall item_type data, needs_session (update_items remote item_type data))
  /\ (forall item_type ids purge log,
        needs_session (delete_items remote item_type ids purge log))
  /\ (forall id_, needs_session (download_document remote id_))
  /\ (forall id_, needs_session (download_user_profile_picture remote id_)).
Proof.
  repeat split; intros.
  - exact (kill_session_needs_session remote).
  - unfold get_my_profiles. apply bind_needs_session, get_json_needs_session.
  - unfold get_active_profile. apply bind_needs_session, get_json_needs_session.
  - unfold change_active_profile, _do_post.
    apply bind_needs_session, do_method_needs_session.
  - unfold get_my_entities. apply bind_needs_session, get_json_needs_session.
  - unfold get_active_entities. apply bind_needs_session, get_json_needs_session.
  - unfold get_full_session. apply bind_needs_session, get_json_needs_session.
  - unfold get_glpi_config. apply bind_needs_session, get_json_needs_session.
  - apply get_many_items_needs_session.
  - apply get_sub_items_needs_session.
  - unfold add_items, _do_post. apply bind_needs_session, do_method_needs_session.
  - unfold update_items. apply bind_needs_session, do_method_needs_session.
  - unfold delete_items. apply bind_needs_session, do_method_needs_session.
  - unfold download_document. apply bind_needs_session, do_method_needs_session.
  - unfold download_user_profile_picture.
    apply bind_needs_session, do_method_needs_session.
Qed.

Lemma operations_need_session_witness :
  delete_items (fun _ => mkResponse 200 ∅ None "") "Software" [VInt 3] false true
    (mkWorld (__init__ "http://glpi" "app" "user" true) [])
  = (mkWorld (__init__ "http://glpi" "app" "user" true) [],
     Raise (GLPIError not_initiated)).
Proof.
  destruct (operations_need_session (fun _ => mkResponse 200 ∅ None ""))
    as (_ & _ & _ & _ & _ & _ & _ & _ & _ & _ & _ & _ & H & _).
  apply H. reflexivity.
Defined.

(** ** Requests made through [_do_method] *)

Lemma keeps_header_keeps_range {A} (op : HM A) :
  keeps_response_header op -> keeps_response_range op.
Proof. intros H w. unfold response_range. rewrite (H w). reflexivity. Qed.

Lemma do_method_then_pure_keeps_range {A} (remote : request -> response)
    (method api_method_url : string) (data : option pyval)
    (headers : gmap string pyval) (on_error_raise : bool) (k : response -> HM A) :
  (forall r, leaves_world (k r)) ->
  keeps_response_range
    (PyM.bind (_do_method remote method api_method_url data headers on_error_raise) k).
Proof.
  intros Hk. apply keeps_header_keeps_range, bind_keeps_response_header.
  - apply do_method_keeps_header.
  - intros r. apply leaves_world_keeps_header, Hk.
Qed.

(** X3.  The operations that go through [_do_method] (add, update and
    delete of items, change of profile, the two downloads) never store the
    headers of their response: what [response_range] reads after such a
    call, a range or an error, is what it read before it. *)
Theorem range_survives_non_listing_calls (remote : request -> response) :
  (forall item_type data, keeps_response_range (add_items remote item_type data))
  /\ (forall item_type data, keeps_response_range (update_items remote item_type data))
  /\ (forall item_type ids purge log,
        keeps_response_range (delete_items remote item_type ids purge log))
  /\ (forall profile_id, keeps_response_range (change_active_profile remote profile_id))
  /\ (forall id_, keeps_response_range (download_document remote id_))
  /\ (forall id_, keeps_response_range (download_user_profile_picture remote id_)).
Proof.
  repeat split; intros.
  - unfold add_items, _do_post. apply do_method_then_pure_keeps_range.
    intros r. apply response_json_leaves_world.
  - unfold update_items. apply do_method_then_pure_keeps_range.
    intros r. apply response_json_leaves_world.
  - unfold delete_items. apply do_method_then_pure_keeps_range.
    intros r. apply response_json_leaves_world.
  - unfold change_active_profile, _do_post. apply do_method_then_pure_keeps_range.
    intros r. pure_tail.
  - unfold download_document. apply do_method_then_pure_keeps_range.
    intros r. apply ret_leaves_world.
  - unfold download_user_profile_picture. apply do_method_then_pure_keeps_range.
    intros r. pure_tail.
Qed.

(** X4.  With a session token set, the request [_do_method] sends carries
    that token under [Session-Token] whatever headers the caller passed,
    and the application token under [App-Token] and [application/json]
    under [Content-Type] unless the caller's headers name them. *)
Theorem do_method_request_headers (remote : request -> response)
    (method api_method_url : string) (data : option pyval)
    (headers : gmap string pyval) (on_error_raise : bool) (w : world) :
  __session_token (self w) <> VNone ->
  exists req,
    sent (fst (_do_method remote method api_method_url data headers on_error_raise w))
    = sent w ++ [req]
    /\ req_headers req !! "Session-Token" = Some (__session_token (self w))
    /\ (headers !! "App-Token" = None ->
        req_headers req !! "App-Token" = Some (VStr (app_token (self w))))
    /\ (headers !! "Content-Type" = None ->
        req_headers req !! "Content-Type" = Some (VStr "application/json"))
    /\ (forall name v, headers !! name = Some v -> name <> "Session-Token" ->
        req_headers req !! name = Some v).
Proof.
  intros Htok. rewrite do_method_run by exact Htok.
  exists (do_method_request (self w) method api_method_url data headers).
  split; [reflexivity | ]. unfold do_method_request, _header_dict. simpl.
  split; [ | split; [ | split]].
  - apply lookup_union_Some_l. apply lookup_insert_eq.
  - intros Hnone. rewrite lookup_union_r.
    + rewrite lookup_insert_ne by discriminate. apply lookup_insert_eq.
    + rewrite lookup_insert_ne by discriminate. exact Hnone.
  - intros Hnone. rewrite lookup_union_r.
    + apply lookup_insert_eq.
    + rewrite lookup_insert_ne by discriminate. exact Hnone.
  - intros name v Hv Hne. apply lookup_union_Some_l.
    rewrite lookup_insert_ne by congruence. exact Hv.
Qed.

Lemma do_method_request_headers_witness :
  exists req,
    sent (fst (_do_method (fun _ => mkResponse 200 ∅ None "") "get" "Document/7" None
                 {[ "Accept" := VStr "application/octet-stream" ]} false
                 (mkWorld (set_session_token (VStr "83af7e62")
                             (__init__ "http://glpi" "app" "user" true)) [])))
    = [] ++ [req]
    /\ req_headers req !! "Session-Token" = Some (VStr "83af7e62")
    /\ req_headers req !! "App-Token" = Some (VStr "app")
    /\ req_headers req !! "Accept" = Some (VStr "application/octet-stream").
Proof.
  destruct (do_method_request_headers (fun _ => mkResponse 200 ∅ None "") "get"
              "Document/7" None {[ "Accept" := VStr "application/octet-stream" ]} false
              (mkWorld (set_session_token (VStr "83af7e62")
                          (__init__ "http://glpi" "app" "user" true)) []))
    as (req & Hsent & Htok & Happ & _ & Hother); [discriminate | ].
  exists req. split; [exact Hsent | split; [exact Htok | split]].
  - apply Happ. reflexivity.
  - apply Hother; [reflexivity | discriminate].
Defined.

(** X5.  With a session token set, [download_document] returns the raw
    content of the response for every status code: no status, not even an
    error status, makes it raise. *)
Theorem download_document_never_raises_on_status
    (remote : request -> response) (w : world) (id_ : Z) :
  __session_token (self w) <> VNone ->
  snd (download_document remote id_ w)
  = Ok (content (remote (do_method_request (self w) "get" ("Document/" +:+ str_of_Z id_)
                           None {[ "Accept" := VStr "application/octet-stream" ]}))).
Proof.
  intros Htok. unfold download_document, PyM.bind.
  rewrite do_method_run by exact Htok. reflexivity.
Qed.

Lemma download_document_never_raises_on_status_witness :
  snd (download_document (fun _ => mkResponse 404 ∅ None "ERROR_ITEM_NOT_FOUND") 7
         (mkWorld (set_session_token (VStr "83af7e62")
                     (__init__ "http://glpi" "app" "user" true)) []))
  = Ok "ERROR_ITEM_NOT_FOUND".
Proof.
  apply (download_document_never_raises_on_status
           (fun _ => mkResponse 404 ∅ None "ERROR_ITEM_NOT_FOUND")).
  discriminate.
Defined.

(** X6.  With a session token set, [change_active_profile] raises
    GLPIError("Profile not found") on status 404 and returns on every
    other status, error statuses included. *)
Theorem change_active_profile_status
    (remote : request -> response) (w : world) (profile_id : pyval) :
  __session_token (self w) <> VNone ->
  snd (change_active_profile remote profile_id w)
  = if status_code
         (remote (do_method_request (self w) "post" "changeActiveProfile"
                    (Some (VDict [(KStr "profiles_id", profile_id)])) ∅)) =? 404
    then Raise (GLPIError "Profile not found")
    else Ok tt.
Proof.
  intros Htok. unfold change_active_profile, _do_post, PyM.bind.
  rewrite do_method_run by exact Htok. simpl.
  destruct (status_code _ =? 404); reflexivity.
Qed.

Lemma change_active_profile_status_witness :
  snd (change_active_profile (fun _ => mkResponse 500 ∅ None "") (VInt 4)
         (mkWorld (set_session_token (VStr "83af7e62")
                     (__init__ "http://glpi" "app" "user" true)) []))
  = Ok tt.
Proof.
  apply (change_active_profile_status (fun _ => mkResponse 500 ∅ None "")).
  discriminate.
Defined.

(** X7.  [_get_json] never lets a JSONDecodeError out: with a session
    token set it returns the parsed body of a response below 400, and
    raises GLPIRequestError with the response when the status is 400 or
    more or when the body is not JSON. *)
Theorem get_json_outcomes (remote : request -> response) (method : string)
    (parameters : option (list param)) (data : option pyval) (w : world) :
  snd (_get_json remote method parameters data w) <> Raise JSONDecodeError
  /\ (__session_token (self w) <> VNone ->
      let r := remote (get_json_request (self w) method parameters data) in
      (400 <= status_code r ->
       snd (_get_json remote method parameters data w) = Raise (GLPIRequestError r))
      /\ (status_code r < 400 -> json r = None ->
          snd (_get_json remote method parameters data w) = Raise (GLPIRequestError r))
      /\ (forall v, status_code r < 400 -> json r = Some v ->
          snd (_get_json remote method parameters data w) = Ok v)).
Proof.
  assert (Hrun : __session_token (self w) <> VNone ->
            let r := remote (get_json_request (self w) method parameters data) in
            snd (_get_json remote method parameters data w)
            = if 400 <=? status_code r then Raise (GLPIRequestError r)
              else match json r with
                   | Some v => Ok v
                   | None => Raise (GLPIRequestError r)
                   end).
  { intros Htok. rewrite get_json_run by exact Htok. reflexivity. }
  split.
  - destruct (token_cases (__session_token (self w))) as [H | H].
    + rewrite get_json_no_session by exact H. discriminate.
    + rewrite (Hrun H). cbv zeta.
      destruct (400 <=? status_code _); [discriminate | ].
      destruct (json _); discriminate.
  - intros Htok r. rewrite (Hrun Htok). fold r. repeat split.
    + intros Hs. destruct (400 <=? status_code r) eqn:E; [reflexivity | lia].
    + intros Hs Hj. destruct (400 <=? status_code r) eqn:E; [lia | ].
      rewrite Hj. reflexivity.
    + intros v Hs Hj. destruct (400 <=? status_code r) eqn:E; [lia | ].
      rewrite Hj. reflexivity.
Qed.

Lemma get_json_outcomes_witness :
  snd (_get_json (fun _ => mkResponse 200 ∅ None "<html>") "getFullSession" None None
         (mkWorld (set_session_token (VStr "83af7e62")
                     (__init__ "http://glpi" "app" "user" true)) []))
  = Raise (GLPIRequestError (mkResponse 200 ∅ None "<html>")).
Proof.
  apply (proj2 (get_json_outcomes (fun _ => mkResponse 200 ∅ None "<html>")
                  "getFullSession" None None
                  (mkWorld (set_session_token (VStr "83af7e62")
                              (__init__ "http://glpi" "app" "user" true)) []))).
  - discriminate.
  - reflexivity.
  - reflexivity.
Defined.

(** ** The life of a session *)

Lemma try_except_fst {A} (c : HM A) (handler : pyexn -> option (HM A)) (w : world) :
  (forall e h, handler e = Some h -> leaves_world h) ->
  fst (PyM.try_except c handler w) = fst (c w).
Proof.
  intros Hh. unfold PyM.try_except. destruct (c w) as [w' [a | e]]; [reflexivity | ].
  simpl. destruct (handler e) as [h | ] eqn:E; [apply (Hh e h E) | reflexivity].
Qed.

Section Session.
Variable remote : request -> response.

Lemma init_session_run (w : world) :
  __session_token (self w) = VNone ->
  init_session remote w
  = let r := remote (init_session_request (self w)) in
    let w1 := mkWorld (set_response_header (headers r) (set_session true (self w)))
                (sent w ++ [init_session_request (self w)]) in
    if 400 <=? status_code r then (w1, Raise (GLPIRequestError r))
    else match json r with
         | None => (w1, Raise JSONDecodeError)
         | Some body =>
             match py_getitem body (KStr "session_token") with
             | Raise e => (w1, Raise e)
             | Ok tok => (mkWorld (set_session_token tok (self w1)) (sent w1), Ok tt)
             end
         end.
Proof.
  intros Htok. unfold init_session. unfold PyM.bind at 1. unfold read_self at 1.
  unfold PyM.bind at 1. unfold PyM.get, PyM.ret. rewrite Htok.
  unfold PyM.bind at 1. unfold read_self at 1. unfold PyM.bind at 1.
  unfold PyM.get, PyM.ret. unfold PyM.bind at 1. rewrite do_get_run.
  unfold id. fold (init_session_request (self w)). cbv zeta.
  destruct (400 <=? status_code _); [reflexivity | ].
  unfold PyM.bind, response_json.
  destruct (json _) as [body | ]; [ | reflexivity].
  unfold PyM.ret, lift.
  destruct (py_getitem body (KStr "session_token")); reflexivity.
Qed.

Lemma init_session_twice (w : world) :
  __session_token (self w) <> VNone ->
  init_session remote w = (w, Raise (GLPIError "Session already initialized.")).
Proof.
  intros Htok. unfold init_session, PyM.bind, read_self, PyM.bind, PyM.get, PyM.ret.
  destruct (__session_token (self w)); try reflexivity. contradiction.
Qed.
End Session.

(** X8.  On a handler without a session, when the service answers
    [initSession] with a status below 400 and a JSON body whose
    ["session_token"] is [tok], [init_session] returns and stores [tok];
    if [tok] is not [None], the [session_token] property then returns it
    and a second [init_session] raises GLPIError("Session already
    initialized."), whatever the service would answer, and sends
    nothing. *)
Theorem init_session_opens_session
    (remote : request -> response) (w : world) (body tok : pyval) :
  __session_token (self w) = VNone ->
  status_code (remote (init_session_request (self w))) < 400 ->
  json (remote (init_session_request (self w))) = Some body ->
  py_getitem body (KStr "session_token") = Ok tok ->
  exists w',
    init_session remote w = (w', Ok tt)
    /\ __session_token (self w') = tok
    /\ sent w' = sent w ++ [init_session_request (self w)]
    /\ (tok <> VNone ->
        session_token w' = (w', Ok tok)
        /\ forall remote',
             init_session remote' w'
             = (w', Raise (GLPIError "Session already initialized."))).
Proof.
  intros Hnone Hstatus Hjson Htok. rewrite init_session_run by exact Hnone. cbv zeta.
  destruct (400 <=? status_code _) eqn:E; [lia | ]. rewrite Hjson, Htok.
  eexists. split; [reflexivity | ]. split; [reflexivity | ]. split; [reflexivity | ].
  intros Hset. split.
  - rewrite session_token_run. simpl. destruct tok; try reflexivity. contradiction.
  - intros remote'. apply init_session_twice. exact Hset.
Qed.

Lemma init_session_opens_session_witness :
  exists w',
    init_session
      (fun _ => mkResponse 200 ∅ (Some (VDict [(KStr "session_token", VStr "83af7e62")])) "")
      (mkWorld (__init__ "http://glpi" "app" "user" true) [])
    = (w', Ok tt)
    /\ __session_token (self w') = VStr "83af7e62"
    /\ session_token w' = (w', Ok (VStr "83af7e62")).
Proof.
  destruct (init_session_opens_session
              (fun _ => mkResponse 200 ∅
                          (Some (VDict [(KStr "session_token", VStr "83af7e62")])) "")
              (mkWorld (__init__ "http://glpi" "app" "user" true) [])
              (VDict [(KStr "session_token", VStr "83af7e62")]) (VStr "83af7e62"))
    as (w' & Hrun & Htok & _ & Hafter); try reflexivity.
  exists w'. split; [exact Hrun | split; [exact Htok | ]].
  apply Hafter. discriminate.
Defined.

(** X9.  An [init_session] that raises leaves the session token as it
    was: a refused login, a body that is not JSON or that lacks
    ["session_token"] never leaves a token behind. *)
Theorem failed_init_session_keeps_token
    (remote : request -> response) (w w' : world) (e : pyexn) :
  init_session remote w = (w', Raise e) ->
  __session_token (self w') = __session_token (self w).
Proof.
  destruct (token_cases (__session_token (self w))) as [Hnone | Hset].
  - rewrite init_session_run by exact Hnone. cbv zeta.
    destruct (400 <=? status_code _); [intros [= <- _]; reflexivity | ].
    destruct (json _) as [body | ]; [ | intros [= <- _]; reflexivity].
    destruct (py_getitem body (KStr "session_token"));
      [discriminate | intros [= <- _]; reflexivity].
  - rewrite init_session_twice by exact Hset. intros [= <- _]. reflexivity.
Qed.

Lemma failed_init_session_keeps_token_witness :
  __session_token
    (self (fst (init_session (fun _ => mkResponse 401 ∅ None "")
                  (mkWorld (__init__ "http://glpi" "app" "user" true) []))))
  = VNone.
Proof.
  apply (failed_init_session_keeps_token (fun _ => mkResponse 401 ∅ None "")
           (mkWorld (__init__ "http://glpi" "app" "user" true) []) _
           (GLPIRequestError (mkResponse 401 ∅ None ""))).
  reflexivity.
Defined.

Section KillSessionState.
Variable remote : request -> response.

Lemma kill_handler_leaves_world (e : pyexn) (h : HM unit) :
  match e with
  | GLPIRequestError err_response => Some (
      if status_code err_response =? 401 then
        message <- PyM.try_except
          (response_json err_response)
          (fun e' => match e' with
                     | JSONDecodeError => Some (PyM.raise e)
                     | _ => None
                     end) ;;
        n <- lift (py_len message) ;;
        if 0 <? n then
          first <- lift (py_getitem message (KInt 0)) ;;
          if py_eqb first (VStr "ERROR_SESSION_TOKEN_INVALID")
          then PyM.raise (GLPIError "Session expired")
          else PyM.raise e
        else PyM.raise e
      else PyM.raise e)
  | _ => None
  end = Some h ->
  leaves_world h.
Proof.
  intros He. destruct e; try discriminate He. injection He as <-. pure_tail.
Qed.

(** The state [kill_session] leaves, for a session id that is not
    [None]. *)
Lemma kill_session_explicit_state (sid : pyval) (w : world) :
  sid <> VNone ->
  fst (kill_session remote sid w)
  = mkWorld (set_response_header
               (headers (remote (do_get_request (self w) "killSession"
                                   {[ "Session-Token" := sid ]} None None)))
               (set_session true (self w)))
      (sent w ++ [do_get_request (self w) "killSession"
                    {[ "Session-Token" := sid ]} None None]).
Proof.
  intros Hsid. unfold kill_session. unfold PyM.bind at 1.
  assert (Hret : (match sid with
                  | VNone =>
                      tok <- session_token ;;
                      match tok with
                      | VNone =>
                          PyM.raise
                            (GLPIError "Request handler was not initiated, nothing to be done.")
                      | _ =>
                          tok0 <- session_token ;;
                          update_self (set_session_token VNone) ;;; PyM.ret tok0
                      end
                  | _ => PyM.ret sid
                  end) w = (w, Ok sid))
    by (destruct sid; try reflexivity; contradiction).
  rewrite Hret. rewrite try_except_fst by apply kill_handler_leaves_world.
  unfold PyM.bind. rewrite do_get_run.
  destruct (400 <=? status_code _); reflexivity.
Qed.

(** The state [kill_session()] leaves on a handler with a session. *)
Lemma kill_session_current_state (w : world) :
  __session_token (self w) <> VNone ->
  fst (kill_session remote VNone w)
  = fst (kill_session remote (__session_token (self w))
           (mkWorld (set_session_token VNone (self w)) (sent w))).
Proof.
  intros Htok. unfold kill_session. unfold PyM.bind at 1 3.
  unfold PyM.bind at 1. rewrite session_token_run.
  assert (Hfirst : (match __session_token (self w) with
                    | VNone => Raise (GLPIError not_initiated)
                    | tok => Ok tok
                    end) = Ok (__session_token (self w)))
    by (destruct (__session_token (self w)); try reflexivity; contradiction).
  rewrite Hfirst.
  destruct (__session_token (self w)) eqn:E; try contradiction;
    unfold PyM.bind at 1; rewrite session_token_run, E; reflexivity.
Qed.
End KillSessionState.

(** X10.  On a handler with a session, [kill_session()] always leaves the
    session token [None], whatever the service answers and whether the
    call returns or raises; it sends one request, with the old token
    under [Session-Token]; a second [kill_session()] then raises the
    GLPIError of the [session_token] property and sends nothing. *)
Theorem kill_session_always_forgets_token (remote : request -> response) (w : world) :
  __session_token (self w) <> VNone ->
  let w' := fst (kill_session remote VNone w) in
  __session_token (self w') = VNone
  /\ (exists req,
        sent w' = sent w ++ [req]
        /\ req_headers req !! "Session-Token" = Some (__session_token (self w))
        /\ url req = host_url (self w) +:+ "/apirest.php/killSession")
  /\ forall remote',
       kill_session remote' VNone w' = (w', Raise (GLPIError not_initiated)).
Proof.
  intros Htok w'. subst w'.
  rewrite kill_session_current_state by exact Htok.
  rewrite kill_session_explicit_state by exact Htok. simpl.
  split; [reflexivity | split].
  - eexists. split; [reflexivity | ]. split; [ | reflexivity].
    unfold do_get_request, _header_dict. simpl.
    apply lookup_union_Some_l. apply lookup_singleton_eq.
  - intros remote'. apply kill_session_needs_session. reflexivity.
Qed.

Lemma kill_session_always_forgets_token_witness :
  __session_token
    (self (fst (kill_session (fun _ => mkResponse 500 ∅ None "") VNone
                  (mkWorld (set_session_token (VStr "83af7e62")
                              (__init__ "http://glpi" "app" "user" true)) []))))
  = VNone.
Proof.
  apply (kill_session_always_forgets_token (fun _ => mkResponse 500 ∅ None "")
           (mkWorld (set_session_token (VStr "83af7e62")
                       (__init__ "http://glpi" "app" "user" true)) [])).
  discriminate.
Defined.

(** X11.  [kill_session] with an explicit session id never touches the
    handler's own session token.  *)
Theorem kill_session_by_id_keeps_own_token
    (remote : request -> response) (sid : pyval) (w : world) :
  sid <> VNone ->
  __session_token (self (fst (kill_session remote sid w))) = __session_token (self w).
Proof.
  intros Hsid. rewrite kill_session_explicit_state by exact Hsid. reflexivity.
Qed.

Lemma kill_session_by_id_keeps_own_token_witness :
  __session_token
    (self (fst (kill_session (fun _ => mkResponse 200 ∅ None "") (VStr "another")
                  (mkWorld (set_session_token (VStr "83af7e62")
                              (__init__ "http://glpi" "app" "user" true)) []))))
  = VStr "83af7e62".
Proof.
  apply (kill_session_by_id_keeps_own_token (fun _ => mkResponse 200 ∅ None "")
           (VStr "another")).
  discriminate.
Defined.

Lemma kill_session_leaves_no_token (remote : request -> response) (w : world) :
  __session_token (self (fst (kill_session remote VNone w))) = VNone.
Proof.
  destruct (token_cases (__session_token (self w))) as [Hnone | Hset].
  - rewrite kill_session_needs_session by exact Hnone. exact Hnone.
  - rewrite kill_session_current_state by exact Hset.
    rewrite kill_session_explicit_state by exact Hset. reflexivity.
Qed.

Lemma exit_run (remote : request -> response) (exc : option pyexn) (w : world) :
  __session_token (self (fst (__exit__ remote exc w))) = VNone
  /\ snd (__exit__ remote exc w) <> Ok true.
Proof.
  unfold __exit__, PyM.bind.
  pose proof (kill_session_leaves_no_token remote w) as H.
  destruct (kill_session remote VNone w) as [w' [[] | e]]; simpl in *;
    (split; [exact H | discriminate]).
Qed.

Lemma with_statement_entered {A} (enter : HM unit) (exit : option pyexn -> HM bool)
    (body : HM A) (w w1 : world) :
  enter w = (w1, Ok tt) ->
  with_statement enter exit body w
  = match body w1 with
    | (w2, Ok a) =>
        match exit None w2 with
        | (w3, Ok _) => (w3, Ok (Some a))
        | (w3, Raise e) => (w3, Raise e)
        end
    | (w2, Raise e) =>
        match exit (Some e) w2 with
        | (w3, Ok suppress) => if suppress then (w3, Ok None) else (w3, Raise e)
        | (w3, Raise e') => (w3, Raise e')
        end
    end.
Proof.
  intros Henter. unfold with_statement. unfold PyM.bind at 1. rewrite Henter.
  destruct (body w1) as [w2 [a | e]]; unfold PyM.bind.
  - destruct (exit None w2) as [w3 [b | e']]; reflexivity.
  - destruct (exit (Some e) w2) as [w3 [[] | e']]; reflexivity.
Qed.

(** X12.  Used as a context manager, the handler opens the session on
    entry and, once [__enter__] has returned, always leaves the block
    with the session token [None], whatever the body does and whether it
    returns or raises; [__exit__] never suppresses an exception of the
    body.  When [__enter__] raises, the body is not run and its exception
    is the outcome. *)
Theorem with_block_closes_session {A} (remote : request -> response)
    (body : HM A) (w : world) :
  (forall w1, __enter__ remote w = (w1, Ok tt) ->
     __session_token
       (self (fst (with_statement (__enter__ remote) (__exit__ remote) body w)))
     = VNone
     /\ snd (with_statement (__enter__ remote) (__exit__ remote) body w) <> Ok None
     /\ (forall a, snd (with_statement (__enter__ remote) (__exit__ remote) body w)
                   = Ok (Some a) ->
                   snd (body w1) = Ok a))
  /\ (forall w1 e, __enter__ remote w = (w1, Raise e) ->
        with_statement (__enter__ remote) (__exit__ remote) body w = (w1, Raise e)).
Proof.
  split.
  - intros w1 Henter. rewrite (with_statement_entered _ _ _ _ _ Henter).
    destruct (body w1) as [w2 [a | e]].
    + destruct (exit_run remote None w2) as [Htok _].
      destruct (__exit__ remote None w2) as [w3 [b | e']]; simpl in *;
        (split; [exact Htok | ]); (split; [discriminate | ]); intros a' Ha.
      * injection Ha as ->. reflexivity.
      * discriminate Ha.
    + destruct (exit_run remote (Some e) w2) as [Htok Hsup].
      destruct (__exit__ remote (Some e) w2) as [w3 [[] | e']]; simpl in *;
        try contradiction;
        (split; [exact Htok | ]); (split; [discriminate | ]); intros a' Ha;
        discriminate Ha.
  - intros w1 e Henter. unfold with_statement. unfold PyM.bind at 1.
    rewrite Henter. reflexivity.
Qed.

Lemma with_block_closes_session_witness :
  __session_token
    (self (fst (with_statement
                  (__enter__ (fun _ => mkResponse 200 ∅
                     (Some (VDict [(KStr "session_token", VStr "83af7e62")])) ""))
                  (__exit__ (fun _ => mkResponse 200 ∅
                     (Some (VDict [(KStr "session_token", VStr "83af7e62")])) ""))
                  (PyM.raise (A := unit) TypeError)
                  (mkWorld (__init__ "http://glpi" "app" "user" true) []))))
  = VNone.
Proof.
  apply (proj1 (with_block_closes_session
                  (fun _ => mkResponse 200 ∅
                     (Some (VDict [(KStr "session_token", VStr "83af7e62")])) "")
                  (PyM.raise (A := unit) TypeError)
                  (mkWorld (__init__ "http://glpi" "app" "user" true) []))
           (fst (__enter__
                   (fun _ => mkResponse 200 ∅
                      (Some (VDict [(KStr "session_token", VStr "83af7e62")])) "")
                   (mkWorld (__init__ "http://glpi" "app" "user" true) [])))).
  vm_compute. reflexivity.
Defined.

(** ** The body of [delete_items], again *)

(** X13.  In the body [delete_items] builds, [log=False] is sent exactly
    as [purge=True] is: both set ["force_purge"], and the body holds no
    other key than ["input"] and ["force_purge"], so a request not to log
    is indistinguishable from a request to purge.  For an empty list of
    ids the ["input"] mapping is empty. *)
Theorem delete_items_flags (ids : list pyval) (purge log : bool) :
  delete_items_data ids false false = delete_items_data ids true true
  /\ delete_items_data ids false false = delete_items_data ids true false
  /\ PyDict.get (delete_items_data ids purge log) (KStr "force_purge")
     = (if purge || negb log then Some (VBool true) else None)
  /\ PyDict.keys (delete_items_data ids purge log)
     = KStr "input" :: (if purge || negb log then [KStr "force_purge"] else [])
  /\ PyDict.get (delete_items_data [] purge log) (KStr "input") = Some (VDict []).
Proof.
  unfold delete_items_data.
  generalize (fold_left (fun d id_ => PyDict.set d (KStr "id") id_) ids []) as input.
  intros input. repeat split; destruct purge, log; reflexivity.
Qed.

(** ** The criteria flattener on every input *)

Lemma string_app_assoc (a b c : string) : (a +:+ b) +:+ c = a +:+ b +:+ c.
Proof.
  induction a as [ | x a IH]; [reflexivity | ].
  change (String x ((a +:+ b) +:+ c) = String x (a +:+ b +:+ c)).
  rewrite IH. reflexivity.
Qed.

Lemma under_path_step (father step : string) (p : param) :
  under_path (father +:+ "[" +:+ step +:+ "]") p -> under_path father p.
Proof.
  intros [suffix H]. exists (step +:+ "]" +:+ "[" +:+ suffix). rewrite H.
  rewrite !string_app_assoc. reflexivity.
Qed.

Lemma for_each_adds_under {A} (father : string)
    (body : A -> PyM.M (list param) pyexn unit) (xs : list A) :
  Forall (fun x => adds_under father (body x)) xs ->
  adds_under father (PyM.for_each body xs).
Proof.
  induction 1 as [ | x xs [o [r [Ho Hx]]] _ [os [rs [Hos IH]]]].
  - exists [], (Ok tt). split; [constructor | ].
    intros ps. simpl. rewrite app_nil_r. reflexivity.
  - destruct r as [[] | e].
    + exists (o ++ os), rs. split; [apply Forall_app; split; assumption | ].
      intros ps. rewrite for_each_cons, Hx, IH, app_assoc. reflexivity.
    + exists o, (Raise e). split; [exact Ho | ].
      intros ps. rewrite for_each_cons, Hx. reflexivity.
Qed.

Lemma for_range_adds_under {A} (father : string)
    (body : nat -> A -> PyM.M (list param) pyexn unit) (xs : list A) :
  Forall (fun x => forall i, adds_under father (body i x)) xs ->
  forall i, adds_under father (PyM.for_range body i xs).
Proof.
  induction 1 as [ | x xs Hx _ IH]; intros i.
  - exists [], (Ok tt). split; [constructor | ].
    intros ps. simpl. rewrite app_nil_r. reflexivity.
  - destruct (Hx i) as [o [r [Ho Hrun]]]. destruct (IH (S i)) as [os [rs [Hos Hruns]]].
    destruct r as [[] | e].
    + exists (o ++ os), rs. split; [apply Forall_app; split; assumption | ].
      intros ps. simpl. unfold PyM.bind. rewrite Hrun, Hruns, app_assoc. reflexivity.
    + exists o, (Raise e). split; [exact Ho | ].
      intros ps. simpl. unfold PyM.bind. rewrite Hrun. reflexivity.
Qed.

Lemma adds_under_step (father step : string) (c : PyM.M (list param) pyexn unit) :
  adds_under (father +:+ "[" +:+ step +:+ "]") c -> adds_under father c.
Proof.
  intros [out [r [Hout Hrun]]]. exists out, r. split; [ | exact Hrun].
  eapply Forall_impl; [exact Hout | ]. intros p. apply under_path_step.
Qed.

Lemma add_criteria_adds_under (c : pyval) :
  forall father, adds_under father (add_criteria_to_parameters c father).
Proof.
  assert (Hraise : forall father,
            adds_under father (PyM.raise (St := list param) (A := unit) NotImplementedError)).
  { intros father. exists [], (Raise NotImplementedError). split; [constructor | ].
    intros ps. unfold PyM.raise. rewrite app_nil_r. reflexivity. }
  induction c as [ | b | z | s | s | items IH | items IH | items IH]
    using pyval_nested_ind; intros father; try apply Hraise.
  - (* a sequence *)
    simpl. apply for_range_adds_under.
    eapply Forall_impl; [exact IH | ]. intros x Hx i. cbv beta.
    eapply adds_under_step, Hx.
  - (* a mapping *)
    simpl. apply for_each_adds_under.
    eapply Forall_impl; [exact IH | ]. intros [k v] Hv. cbv beta iota zeta.
    assert (Hleaf : adds_under father
              (append_param (E := pyexn) (father +:+ "[" +:+ format_key k +:+ "]", v))).
    { exists [(father +:+ "[" +:+ format_key k +:+ "]", v)], (Ok tt). split.
      - constructor; [ | constructor]. exists (format_key k +:+ "]"). reflexivity.
      - intros ps. reflexivity. }
    destruct v; try exact Hleaf.
    eapply adds_under_step, Hv.
Qed.

(** X14.  On every value, supported or not, the criteria flattener only
    appends: the parameters the list already holds stay in place at its
    head, also when the flattener raises, and what is appended and the
    outcome do not depend on them.  An empty list and an empty mapping
    append nothing and return. *)
Theorem add_criteria_only_appends (c : pyval) (father : string) :
  (exists out r, forall ps,
     add_criteria_to_parameters c father ps = (ps ++ out, r))
  /\ (forall ps, add_criteria_to_parameters (VList []) father ps = (ps, Ok tt))
  /\ (forall ps, add_criteria_to_parameters (VDict []) father ps = (ps, Ok tt)).
Proof.
  split; [ | split; reflexivity].
  destruct (add_criteria_adds_under c father) as [out [r [_ Hrun]]].
  exists out, r. exact Hrun.
Qed.

(** X15.  Every parameter the criteria flattener appends, on any value
    and also before a raise, is named by the root prefix followed by a
    bracketed path: its name is [father] followed by ["["] and more. *)
Theorem add_criteria_names_under_father
    (c : pyval) (father : string) (ps ps' : list param) (r : result pyexn unit) :
  add_criteria_to_parameters c father ps = (ps', r) ->
  exists out, ps' = ps ++ out /\ Forall (under_path father) out.
Proof.
  intros Hrun. destruct (add_criteria_adds_under c father) as [out [r' [Hout Hrun']]].
  rewrite Hrun' in Hrun. injection Hrun as <- _. exists out. split; [reflexivity | exact Hout].
Qed.

Lemma add_criteria_names_under_father_witness :
  exists out,
    [("sort", VInt 5); ("criteria[0][field]", VInt 1)]
    = [("sort", VInt 5)] ++ out
    /\ Forall (under_path "criteria") out.
Proof.
  apply (add_criteria_names_under_father
           (VList [VDict [(KStr "field", VInt 1)]; VStr "AND"]) "criteria"
           [("sort", VInt 5)] _ (Raise NotImplementedError)).
  reflexivity.
Defined.

(** ** Laws of the dictionary operations *)

Module PyDictLaws.
Import PyDict PyDictFacts.

Lemma get_remove_ne (d : PyDict.t) (k k' : pykey) :
  k <> k' -> get (remove d k) k' = get d k'.
Proof.
  intros Hne. induction d as [ | [k0 v0] d IH]; simpl; [reflexivity | ].
  destruct (pykey_eqb k0 k) eqn:E.
  - apply pykey_eqb_eq in E. subst k0. rewrite pykey_eqb_neq by exact Hne. reflexivity.
  - simpl. rewrite IH. reflexivity.
Qed.

Lemma keys_remove (d : PyDict.t) (k k' : pykey) :
  NoDup (keys d) -> k' ∈ keys (remove d k) -> k' ∈ keys d /\ k' <> k.
Proof.
  induction d as [ | [k0 v0] d IH]; simpl; intros Hnd Hin.
  - apply elem_of_nil in Hin. contradiction.
  - apply NoDup_cons in Hnd as [Hk0 Hnd].
    destruct (pykey_eqb k0 k) eqn:E.
    + apply pykey_eqb_eq in E. subst k0. split.
      * apply elem_of_cons. right. exact Hin.
      * intros ->. contradiction.
    + simpl in Hin. apply elem_of_cons in Hin as [-> | Hin].
      * split; [apply elem_of_cons; left; reflexivity | ].
        intros ->. rewrite pykey_eqb_refl in E. discriminate.
      * destruct (IH Hnd Hin) as [H1 H2]. split; [ | exact H2].
        apply elem_of_cons. right. exact H1.
Qed.

Lemma NoDup_remove (d : PyDict.t) (k : pykey) :
  NoDup (keys d) -> NoDup (keys (remove d k)).
Proof.
  induction d as [ | [k0 v0] d IH]; simpl; intros Hnd; [exact Hnd | ].
  pose proof Hnd as Hnd0. apply NoDup_cons in Hnd as [Hk0 Hnd].
  destruct (pykey_eqb k0 k); [exact Hnd | ].
  simpl. apply NoDup_cons. split; [ | apply IH, Hnd].
  intros Hin. apply Hk0. apply (keys_remove d k k0 Hnd Hin).
Qed.

Lemma get_set (d : PyDict.t) (k k' : pykey) (v : pyval) :
  get (set d k v) k' = if pykey_eqb k k' then Some v else get d k'.
Proof.
  induction d as [ | [k0 v0] d IH]; simpl; [reflexivity | ].
  destruct (pykey_eqb k0 k) eqn:E; simpl.
  - apply pykey_eqb_eq in E. subst k0. destruct (pykey_eqb k k'); reflexivity.
  - rewrite IH. destruct (pykey_eqb k0 k') eqn:E'; [ | reflexivity].
    apply pykey_eqb_eq in E'. subst k0.
    destruct (pykey_eqb k k') eqn:E2; [ | reflexivity].
    apply pykey_eqb_eq in E2. subst k'. rewrite pykey_eqb_refl in E. discriminate.
Qed.

Lemma keys_set (d : PyDict.t) (k k' : pykey) (v : pyval) :
  k' ∈ keys (set d k v) -> k' = k \/ k' ∈ keys d.
Proof.
  induction d as [ | [k0 v0] d IH]; simpl; intros Hin.
  - apply list_elem_of_singleton in Hin. left. exact Hin.
  - destruct (pykey_eqb k0 k); simpl in Hin.
    + right. exact Hin.
    + apply elem_of_cons in Hin as [-> | Hin].
      * right. apply elem_of_cons. left. reflexivity.
      * destruct (IH Hin) as [-> | H]; [left; reflexivity | ].
        right. apply elem_of_cons. right. exact H.
Qed.

Lemma NoDup_set (d : PyDict.t) (k : pykey) (v : pyval) :
  NoDup (keys d) -> NoDup (keys (set d k v)).
Proof.
  induction d as [ | [k0 v0] d IH]; simpl; intros Hnd.
  - apply NoDup_singleton.
  - pose proof Hnd as Hnd0. apply NoDup_cons in Hnd as [Hk0 Hnd].
    destruct (pykey_eqb k0 k) eqn:E; [exact Hnd0 | ].
    simpl. apply NoDup_cons. split; [ | apply IH, Hnd].
    intros Hin. apply keys_set in Hin as [-> | Hin]; [ | contradiction].
    rewrite pykey_eqb_refl in E. discriminate.
Qed.

Lemma mem_keys (d : PyDict.t) (k : pykey) : mem d k = true <-> k ∈ keys d.
Proof.
  unfold mem. split.
  - destruct (get d k) as [v | ] eqn:E; [ | discriminate]. intros _.
    apply get_elem_of in E. change k with (fst (k, v)).
    apply list_elem_of_fmap_2, E.
  - intros Hin. destruct (get_present d k Hin) as [v ->]. reflexivity.
Qed.
End PyDictLaws.

(** ** Key coercion on every record *)

Section KeysToIntTotal.
Import PyDict PyDictFacts PyDictLaws.

Lemma keys_to_int_body_run (k : pykey) (v : pyval) (st : PyDict.t) :
  mem st k = true ->
  keys_to_int_body (k, v) st
  = (match int_of_key k with
     | Some i => set (remove st k) (KInt i) v
     | None => st
     end, Ok tt).
Proof.
  intros Hmem. unfold keys_to_int_body, PyM.try_except, PyM.bind.
  destruct (int_of_key k) as [i | ]; [ | reflexivity].
  simpl. unfold del. rewrite Hmem. reflexivity.
Qed.

Lemma keys_to_int_loop_total (todo st : PyDict.t) :
  NoDup (keys todo) -> NoDup (keys st) ->
  (forall k, k ∈ keys todo -> k ∈ keys st) ->
  (forall k, k ∈ keys st -> k ∈ keys todo \/ coerced_key k) ->
  exists st',
    PyM.for_each keys_to_int_body todo st = (st', Ok tt)
    /\ NoDup (keys st')
    /\ forall k, k ∈ keys st' -> coerced_key k.
Proof.
  revert st. induction todo as [ | [k v] rest IH]; intros st Htodo Hst Hin Hout.
  - exists st. split; [reflexivity | ]. split; [exact Hst | ].
    intros k Hk. destruct (Hout k Hk) as [H | H]; [ | exact H].
    apply elem_of_nil in H. contradiction.
  - simpl in Htodo. apply NoDup_cons in Htodo as [Hk Hrest].
    rewrite for_each_cons, keys_to_int_body_run
      by (apply mem_keys, Hin, elem_of_cons; left; reflexivity).
    destruct (int_of_key k) as [i | ] eqn:Hi.
    + apply IH.
      * exact Hrest.
      * apply NoDup_set, NoDup_remove, Hst.
      * intros k' Hk'. apply mem_keys. unfold mem. rewrite get_set.
        destruct (pykey_eqb (KInt i) k'); [reflexivity | ].
        rewrite get_remove_ne by (intros ->; contradiction).
        assert (Hmem : mem st k' = true)
          by (apply mem_keys, Hin, elem_of_cons; right; exact Hk').
        exact Hmem.
      * intros k' Hk'. apply keys_set in Hk' as [-> | Hk'].
        -- right. left. exists i. reflexivity.
        -- apply keys_remove in Hk' as [Hk' Hne]; [ | exact Hst].
           destruct (Hout k' Hk') as [H | H]; [ | right; exact H].
           simpl in H. apply elem_of_cons in H as [-> | H]; [contradiction | ].
           left. exact H.
    + apply IH.
      * exact Hrest.
      * exact Hst.
      * intros k' Hk'. apply Hin, elem_of_cons. right. exact Hk'.
      * intros k' Hk'. destruct (Hout k' Hk') as [H | H]; [ | right; exact H].
        simpl in H. apply elem_of_cons in H as [-> | H]; [ | left; exact H].
        right. right. exact Hi.
Qed.
End KeysToIntTotal.

(** X16.  On every dictionary, key coercion returns: the deletions it
    makes never miss their key, also when several keys read as the same
    integer.  The dictionary it leaves holds each key once, and every key
    in it is an integer or a string that [int()] does not read. *)
Theorem keys_to_int_never_raises (d : PyDict.t) :
  NoDup (PyDict.keys d) ->
  exists d',
    __keys_to_int d = (d', Ok tt)
    /\ NoDup (PyDict.keys d')
    /\ forall k, k ∈ PyDict.keys d' -> coerced_key k.
Proof.
  intros Hd. rewrite keys_to_int_unfold.
  apply keys_to_int_loop_total; try assumption.
  - intros k Hk. exact Hk.
  - intros k Hk. left. exact Hk.
Qed.

Lemma keys_to_int_never_raises_witness :
  exists d',
    __keys_to_int [(KStr "1", VStr "a"); (KStr "01", VStr "b"); (KStr "uid", VNone);
                   (KStr "+1", VStr "c")]
    = (d', Ok tt)
    /\ NoDup (PyDict.keys d')
    /\ forall k, k ∈ PyDict.keys d' -> coerced_key k.
Proof.
  apply keys_to_int_never_raises.
  apply NoDup_ListNoDup. vm_compute.
  repeat (constructor; [simpl; intuition discriminate | ]). constructor.
Defined.

(** ** The parameters of the listing operations *)

Section ListingParameters.
Variable remote : request -> response.

(** The request a listing operation sends once its parameters are
    built. *)
Lemma get_json_sent (method : string) (parameters : option (list param)) (w : world) :
  __session_token (self w) <> VNone ->
  sent (fst (_get_json remote method parameters None w))
  = sent w ++ [get_json_request (self w) method parameters None].
Proof. intros Htok. rewrite get_json_run by exact Htok. reflexivity. Qed.

Lemma get_many_items_sent (item_type : string)
    (expand_dropdowns get_hateoas only_id : pyval) (range_ : option (list Z))
    (sort_by order : pyval) (filter_by : option PyDict.t)
    (is_deleted add_key_names : pyval) (built params : list param) (w : world) :
  __session_token (self w) <> VNone ->
  get_request_parameters get_many_items_sig
    {[ "item_type" := VStr item_type;
       "expand_dropdowns" := expand_dropdowns;
       "get_hateoas" := if py_truthy get_hateoas then get_hateoas else VInt 0;
       "only_id" := only_id;
       "range_" := joined_range range_;
       "sort_by" := sort_by;
       "order" := order;
       "filter_by" := match filter_by with Some d => VDict d | None => VNone end;
       "is_deleted" := if py_truthy is_deleted then VInt 1 else is_deleted;
       "add_key_names" := add_key_names ]}
    {[ "range_" := "range"; "add_key_names" := "add_keys_names"; "sort_by" := "sort" ]}
  = Ok built ->
  append_search_text filter_by built = (params, Ok tt) ->
  sent (fst (get_many_items remote item_type expand_dropdowns get_hateoas only_id
               range_ sort_by order filter_by is_deleted add_key_names w))
  = sent w ++ [get_json_request (self w) (item_type +:+ "/") (Some params) None].
Proof.
  intros Htok Hbuilt Hfilter. unfold get_many_items. cbv zeta.
  rewrite Hbuilt. unfold PyM.bind at 1. unfold lift at 1. unfold PyM.ret at 1.
  unfold PyM.bind at 1. unfold run_local. rewrite Hfilter. unfold PyM.ret at 1.
  apply get_json_sent, Htok.
Qed.

Lemma get_sub_items_sent (item_type : string) (item_id : Z) (sub_item_type : string)
    (expand_dropdowns get_hateoas only_id : pyval) (range_ : option (list Z))
    (sort_by order add_key_names : pyval) (built : list param) (w : world) :
  __session_token (self w) <> VNone ->
  get_request_parameters get_sub_items_sig
    {[ "item_type" := VStr item_type;
       "item_id" := VInt item_id;
       "sub_item_type" := VStr sub_item_type;
       "expand_dropdowns" := expand_dropdowns;
       "get_hateoas" := if py_truthy get_hateoas then get_hateoas else VInt 0;
       "only_id" := only_id;
       "range_" := joined_range range_;
       "sort_by" := sort_by;
       "order" := order;
       "add_key_names" := add_key_names ]}
    {[ "range_" := "range"; "add_key_names" := "add_keys_names"; "sort_by" := "sort" ]}
  = Ok built ->
  sent (fst (get_sub_items remote item_type item_id sub_item_type expand_dropdowns
               get_hateoas only_id range_ sort_by order add_key_names w))
  = sent w ++ [get_json_request (self w)
                 (item_type +:+ "/" +:+ str_of_Z item_id +:+ "/" +:+ sub_item_type)
                 (Some built) None].
Proof.
  intros Htok Hbuilt. unfold get_sub_items. cbv zeta.
  rewrite Hbuilt. unfold PyM.bind at 1. unfold lift at 1. unfold PyM.ret at 1.
  apply get_json_sent, Htok.
Qed.

Lemma search_items_sent (item_type : string) (filters sort_by_id order : pyval)
    (range_ : option (list Z))
    (force_display raw_data with_indexes uid_cols give_items : pyval)
    (built params : list param) (w : world) :
  __session_token (self w) <> VNone ->
  get_request_parameters search_items_sig
    {[ "item_type" := VStr item_type;
       "filters" := VNone;
       "sort_by_id" := sort_by_id;
       "order" := order;
       "range_" := joined_range range_;
       "force_display" := force_display;
       "raw_data" := raw_data;
       "with_indexes" := with_indexes;
       "uid_cols" := uid_cols;
       "give_items" := give_items ]}
    {[ "sort_by_id" := "sort"; "range_" := "range";
       "force_display" := "forcedisplay"; "raw_data" := "rawdata";
       "with_indexes" := "withindexes"; "give_items" := "giveItems" ]}
  = Ok built ->
  add_criteria_to_parameters (if py_truthy filters then filters else VList [])
    "criteria" built
  = (params, Ok tt) ->
  sent (fst (search_items remote item_type filters sort_by_id order range_
               force_display raw_data with_indexes uid_cols give_items w))
  = sent w ++ [get_json_request (self w) ("search/" +:+ item_type) (Some params) None].
Proof.
  intros Htok Hbuilt Hcriteria. unfold search_items. cbv zeta.
  rewrite Hbuilt. unfold PyM.bind at 1. unfold lift at 1. unfold PyM.ret at 1.
  unfold PyM.bind at 1. unfold run_local. rewrite Hcriteria. unfold PyM.ret at 1.
  rewrite <- (get_json_sent ("search/" +:+ item_type) (Some params) w Htok).
  unfold PyM.bind.
  destruct (_get_json remote ("search/" +:+ item_type) (Some params) None w)
    as [w' [j | e]]; [ | reflexivity].
  simpl. rewrite (lift_leaves_world (search_items_coerce with_indexes j) w').
  reflexivity.
Qed.
End ListingParameters.

(** X17.  With a session token set and every optional argument left at
    its default, [get_many_items], [get_sub_items] and [search_items] send
    their request with an empty list of query parameters: neither the
    rewriting of [get_hateoas], [is_deleted] and [range_] nor the criteria
    add any. *)
Theorem listing_defaults_send_no_parameter
    (remote : request -> response) (w : world) :
  __session_token (self w) <> VNone ->
  (forall item_type,
     sent (fst (get_many_items remote item_type (VBool false) (VBool true) (VBool false)
                  None VNone VNone None (VBool false) VNone w))
     = sent w ++ [get_json_request (self w) (item_type +:+ "/") (Some []) None])
  /\ (forall item_type item_id sub_item_type,
        sent (fst (get_sub_items remote item_type item_id sub_item_type (VBool false)
                     (VBool true) (VBool false) None VNone VNone VNone w))
        = sent w ++ [get_json_request (self w)
                       (item_type +:+ "/" +:+ str_of_Z item_id +:+ "/" +:+ sub_item_type)
                       (Some []) None])
  /\ (forall item_type,
        sent (fst (search_items remote item_type VNone VNone VNone None VNone
                     (VBool false) (VBool false) (VBool false) (VBool false) w))
        = sent w ++ [get_json_request (self w) ("search/" +:+ item_type) (Some []) None]).
Proof.
  intros Htok. repeat split; intros.
  - apply (get_many_items_sent remote item_type (VBool false) (VBool true) (VBool false)
             None VNone VNone None (VBool false) VNone [] [] w Htok).
    + vm_compute. reflexivity.
    + reflexivity.
  - apply (get_sub_items_sent remote item_type item_id sub_item_type (VBool false)
             (VBool true) (VBool false) None VNone VNone VNone [] w Htok).
    vm_compute. reflexivity.
  - apply (search_items_sent remote item_type VNone VNone VNone None VNone
             (VBool false) (VBool false) (VBool false) (VBool false) [] [] w Htok).
    + vm_compute. reflexivity.
    + reflexivity.
Qed.

Lemma listing_defaults_send_no_parameter_witness :
  sent (fst (search_items (fun _ => mkResponse 200 ∅ (Some (VDict [])) "") "Monitor"
               VNone VNone VNone None VNone
               (VBool false) (VBool false) (VBool false) (VBool false)
               (mkWorld (set_session_token (VStr "83af7e62")
                           (__init__ "http://glpi" "app" "user" true)) [])))
  = [] ++ [get_json_request
             (set_session_token (VStr "83af7e62")
                (__init__ "http://glpi" "app" "user" true))
             ("search/" +:+ "Monitor") (Some []) None].
Proof.
  apply (listing_defaults_send_no_parameter
           (fun _ => mkResponse 200 ∅ (Some (VDict [])) "")
           (mkWorld (set_session_token (VStr "83af7e62")
                       (__init__ "http://glpi" "app" "user" true)) [])).
  discriminate.
Defined.

(** X18.  A range given as a pair [(a, b)] is sent by the three listing
    operations as the single parameter [range] with the value
    ["<a>-<b>"], the two integers in decimal with a dash between. *)
Theorem listing_range_wire_format
    (remote : request -> response) (w : world) (a b : Z) :
  __session_token (self w) <> VNone ->
  (forall item_type,
     sent (fst (get_many_items remote item_type (VBool false) (VBool true) (VBool false)
                  (Some [a; b]) VNone VNone None (VBool false) VNone w))
     = sent w ++ [get_json_request (self w) (item_type +:+ "/")
                    (Some [("range", VStr (str_of_Z a +:+ "-" +:+ str_of_Z b))]) None])
  /\ (forall item_type item_id sub_item_type,
        sent (fst (get_sub_items remote item_type item_id sub_item_type (VBool false)
                     (VBool true) (VBool false) (Some [a; b]) VNone VNone VNone w))
        = sent w ++ [get_json_request (self w)
                       (item_type +:+ "/" +:+ str_of_Z item_id +:+ "/" +:+ sub_item_type)
                       (Some [("range", VStr (str_of_Z a +:+ "-" +:+ str_of_Z b))])
                       None])
  /\ (forall item_type,
        sent (fst (search_items remote item_type VNone VNone VNone (Some [a; b]) VNone
                     (VBool false) (VBool false) (VBool false) (VBool false) w))
        = sent w ++ [get_json_request (self w) ("search/" +:+ item_type)
                       (Some [("range", VStr (str_of_Z a +:+ "-" +:+ str_of_Z b))])
                       None]).
Proof.
  intros Htok. repeat split; intros.
  - apply (get_many_items_sent remote item_type (VBool false) (VBool true) (VBool false)
             (Some [a; b]) VNone VNone None (VBool false) VNone
             [("range", VStr (str_of_Z a +:+ "-" +:+ str_of_Z b))]
             [("range", VStr (str_of_Z a +:+ "-" +:+ str_of_Z b))] w Htok);
      reflexivity.
  - apply (get_sub_items_sent remote item_type item_id sub_item_type (VBool false)
             (VBool true) (VBool false) (Some [a; b]) VNone VNone VNone
             [("range", VStr (str_of_Z a +:+ "-" +:+ str_of_Z b))] w Htok);
      reflexivity.
  - apply (search_items_sent remote item_type VNone VNone VNone (Some [a; b]) VNone
             (VBool false) (VBool false) (VBool false) (VBool false)
             [("range", VStr (str_of_Z a +:+ "-" +:+ str_of_Z b))]
             [("range", VStr (str_of_Z a +:+ "-" +:+ str_of_Z b))] w Htok);
      reflexivity.
Qed.

Lemma listing_range_wire_format_witness :
  sent (fst (get_many_items (fun _ => mkResponse 200 ∅ (Some (VList [])) "") "Monitor"
               (VBool false) (VBool true) (VBool false) (Some [0; 49]) VNone VNone None
               (VBool false) VNone
               (mkWorld (set_session_token (VStr "83af7e62")
                           (__init__ "http://glpi" "app" "user" true)) [])))
  = [] ++ [get_json_request
             (set_session_token (VStr "83af7e62")
                (__init__ "http://glpi" "app" "user" true))
             ("Monitor" +:+ "/") (Some [("range", VStr "0-49")]) None].
Proof.
  assert (Htok : __session_token
                   (self (mkWorld (set_session_token (VStr "83af7e62")
                                     (__init__ "http://glpi" "app" "user" true)) []))
                 <> VNone) by discriminate.
  destruct (listing_range_wire_format
              (fun _ => mkResponse 200 ∅ (Some (VList [])) "")
              (mkWorld (set_session_token (VStr "83af7e62")
                          (__init__ "http://glpi" "app" "user" true)) []) 0 49 Htok)
    as [Hmany _].
  etransitivity; [exact (Hmany "Monitor") | ].
  vm_compute. reflexivity.
Defined.

(** ** Flags, filters and unsupported criteria of the listing operations *)

Lemma search_text_entries (d : PyDict.t) :
  NoDup (PyDict.keys d) ->
  map (fun name =>
         ("searchText[" +:+ format_key name +:+ "]",
          match PyDict.get d name with Some v => v | None => VNone end))
      (PyDict.keys d)
  = map (fun entry => ("searchText[" +:+ format_key (fst entry) +:+ "]", snd entry)) d.
Proof.
  intros Hnd. unfold PyDict.keys. change (fst <$> d) with (map fst d).
  rewrite map_map. apply map_ext_in. intros [k v] Hin.
  apply list_elem_of_In in Hin. cbn [fst snd].
  rewrite (PyDictFacts.elem_of_get d k v Hnd Hin). reflexivity.
Qed.

Lemma search_items_locals_complete (item_type : string)
    (filters sort_by_id order range_ force_display raw_data with_indexes uid_cols
       give_items : pyval) (rename : gmap string string) :
  exists built,
    get_request_parameters search_items_sig
      {[ "item_type" := VStr item_type;
         "filters" := filters;
         "sort_by_id" := sort_by_id;
         "order" := order;
         "range_" := range_;
         "force_display" := force_display;
         "raw_data" := raw_data;
         "with_indexes" := with_indexes;
         "uid_cols" := uid_cols;
         "give_items" := give_items ]} rename
    = Ok built.
Proof.
  apply builder_total. unfold search_items_sig.
  repeat (apply Forall_cons; split; [cbn [name]; vm_compute; eexists; reflexivity | ]).
  apply Forall_nil. exact I.
Qed.

(** X19.  The two boolean flags of the listing operations travel as
    integers: any false value of [get_hateoas] is sent as [get_hateoas=0]
    by [get_many_items] and [get_sub_items], and any true value of
    [is_deleted] is sent as [is_deleted=1] by [get_many_items]. *)
Theorem listing_flags_sent_as_integers
    (remote : request -> response) (w : world) (get_hateoas is_deleted : pyval) :
  __session_token (self w) <> VNone ->
  py_truthy get_hateoas = false ->
  py_truthy is_deleted = true ->
  (forall item_type,
     sent (fst (get_many_items remote item_type (VBool false) get_hateoas (VBool false)
                  None VNone VNone None is_deleted VNone w))
     = sent w ++ [get_json_request (self w) (item_type +:+ "/")
                    (Some [("get_hateoas", VInt 0); ("is_deleted", VInt 1)]) None])
  /\ (forall item_type item_id sub_item_type,
        sent (fst (get_sub_items remote item_type item_id sub_item_type (VBool false)
                     get_hateoas (VBool false) None VNone VNone VNone w))
        = sent w ++ [get_json_request (self w)
                       (item_type +:+ "/" +:+ str_of_Z item_id +:+ "/" +:+ sub_item_type)
                       (Some [("get_hateoas", VInt 0)]) None]).
Proof.
  intros Htok Hhateoas Hdeleted. split; intros.
  - apply (get_many_items_sent remote item_type (VBool false) get_hateoas (VBool false)
             None VNone VNone None is_deleted VNone
             [("get_hateoas", VInt 0); ("is_deleted", VInt 1)]
             [("get_hateoas", VInt 0); ("is_deleted", VInt 1)] w Htok).
    + rewrite Hhateoas, Hdeleted. vm_compute. reflexivity.
    + reflexivity.
  - apply (get_sub_items_sent remote item_type item_id sub_item_type (VBool false)
             get_hateoas (VBool false) None VNone VNone VNone
             [("get_hateoas", VInt 0)] w Htok).
    rewrite Hhateoas. vm_compute. reflexivity.
Qed.

Lemma listing_flags_sent_as_integers_witness :
  sent (fst (get_many_items (fun _ => mkResponse 200 ∅ (Some (VList [])) "") "Monitor"
               (VBool false) (VBool false) (VBool false) None VNone VNone None
               (VBool true) VNone
               (mkWorld (set_session_token (VStr "83af7e62")
                           (__init__ "http://glpi" "app" "user" true)) [])))
  = [] ++ [get_json_request
             (set_session_token (VStr "83af7e62")
                (__init__ "http://glpi" "app" "user" true))
             ("Monitor" +:+ "/")
             (Some [("get_hateoas", VInt 0); ("is_deleted", VInt 1)]) None].
Proof.
  assert (Htok : __session_token
                   (self (mkWorld (set_session_token (VStr "83af7e62")
                                     (__init__ "http://glpi" "app" "user" true)) []))
                 <> VNone) by discriminate.
  destruct (listing_flags_sent_as_integers
              (fun _ => mkResponse 200 ∅ (Some (VList [])) "")
              (mkWorld (set_session_token (VStr "83af7e62")
                          (__init__ "http://glpi" "app" "user" true)) [])
              (VBool false) (VBool true) Htok eq_refl eq_refl)
    as [Hmany _].
  exact (Hmany "Monitor").
Defined.



(** X21.  Filters the criteria flattener does not support stop
    [search_items] before anything is sent: the call raises what the
    flattener raises and leaves the handler and the list of requests as
    they were, also on a handler without a session (the flattener runs
    before the session token is read). *)
Theorem search_items_unsupported_filters_send_nothing
    (remote : request -> response) (item_type : string)
    (filters sort_by_id order : pyval) (range_ : option (list Z))
    (force_display raw_data with_indexes uid_cols give_items : pyval)
    (e : pyexn) (w : world) :
  py_truthy filters = true ->
  snd (add_criteria_to_parameters filters "criteria" []) = Raise e ->
  search_items remote item_type filters sort_by_id order range_
    force_display raw_data with_indexes uid_cols give_items w
  = (w, Raise e).
Proof.
  intros Htruthy Hraise. unfold search_items. cbv zeta. rewrite Htruthy.
  destruct (search_items_locals_complete item_type VNone sort_by_id order
              (joined_range range_) force_display raw_data with_indexes uid_cols
              give_items
              {[ "sort_by_id" := "sort"; "range_" := "range";
                 "force_display" := "forcedisplay"; "raw_data" := "rawdata";
                 "with_indexes" := "withindexes"; "give_items" := "giveItems" ]})
    as [built Hbuilt].
  rewrite Hbuilt. unfold PyM.bind at 1. unfold lift at 1. unfold PyM.ret at 1.
  unfold PyM.bind at 1. unfold run_local.
  destruct (add_criteria_adds_under filters "criteria") as [out [r [_ Hrun]]].
  rewrite (Hrun []) in Hraise. cbn [snd] in Hraise. subst r.
  rewrite (Hrun built). reflexivity.
Qed.

Lemma search_items_unsupported_filters_send_nothing_witness :
  search_items (fun _ => mkResponse 200 ∅ (Some (VDict [])) "") "Monitor"
    (VList [VInt 1]) VNone VNone None VNone
    (VBool false) (VBool false) (VBool false) (VBool false)
    (mkWorld (__init__ "http://glpi" "app" "user" true) [])
  = (mkWorld (__init__ "http://glpi" "app" "user" true) [], Raise NotImplementedError).
Proof.
  exact (search_items_unsupported_filters_send_nothing
           (fun _ => mkResponse 200 ∅ (Some (VDict [])) "") "Monitor"
           (VList [VInt 1]) VNone VNone None VNone
           (VBool false) (VBool false) (VBool false) (VBool false)
           NotImplementedError
           (mkWorld (__init__ "http://glpi" "app" "user" true) [])
           eq_refl eq_refl).
Defined.
